(** * tap-square: retry policy, pagination and credential refresh

    A shallow embedding of [tap_square/client.py].  Python values are an
    inductive type, dictionaries are finite maps, the Square platform is a
    state-passing function, exceptions are an explicit outcome, and the
    generators are step functions that a consumer drives page by page. *)

From Stdlib Require Import ZArith String Ascii List Lia Bool.
From stdpp Require Import base option gmap strings list.

Local Set Warnings "-register-all".
Local Open Scope string_scope.
Local Open Scope Z_scope.

(** ** Python values *)

Module Py.

(** JSON-shaped Python objects, as the SDK hands them to the client. *)
Inductive value : Type :=
  | VNone
  | VBool (b : bool)
  | VInt (z : Z)
  | VStr (s : string)
  | VList (l : list value)
  | VDict (d : gmap string value).

(** [bool(v)]: the test behind [if v], [while v] and [a if v else b]. *)
Definition truthy (v : value) : bool :=
  match v with
  | VNone => false
  | VBool b => b
  | VInt z => negb (z =? 0)
  | VStr s => negb (String.eqb s EmptyString)
  | VList l => match l with [] => false | _ :: _ => true end
  | VDict d => negb (bool_decide (d = ∅))
  end.

(** [v == s] for a string literal [s]. *)
Definition is_str (s : string) (v : value) : bool :=
  match v with
  | VStr t => String.eqb t s
  | _ => false
  end.

(** [needle in hay] on strings. *)
Fixpoint is_substring (needle hay : string) : bool :=
  String.prefix needle hay ||
  match hay with
  | EmptyString => false
  | String _ rest => is_substring needle rest
  end.

Inductive exn : Type :=
  | RetryableError (msg : value)
  | RuntimeError (msg : value)
  | TypeError
  | KeyError (key : string)
  | IndexError
  | AttributeError
  | ValueError
  | OverflowError
  | HTTPError (status : Z)
  | ConnectionError.

Inductive outcome (A : Type) : Type :=
  | Ret (a : A)
  | Raise (e : exn).
Global Arguments Ret {A} a.
Global Arguments Raise {A} e.

Definition bind {A B} (m : outcome A) (k : A -> outcome B) : outcome B :=
  match m with
  | Ret a => k a
  | Raise e => Raise e
  end.

(** [needle in v]: substring on a string, element equality on a list, key
    membership on a dict; any other operand is not iterable. *)
Definition py_in (needle : string) (v : value) : outcome bool :=
  match v with
  | VStr s => Ret (is_substring needle s)
  | VList l => Ret (existsb (is_str needle) l)
  | VDict d => Ret (bool_decide (is_Some (d !! needle)))
  | VNone | VBool _ | VInt _ => Raise TypeError
  end.

(** [d.get(k)] and [d.get(k, default)] on a value that should be a dict. *)
Definition py_get (v : value) (k : string) (dflt : value) : outcome value :=
  match v with
  | VDict d => Ret (default dflt (d !! k))
  | _ => Raise AttributeError
  end.

End Py.
Import Py.

(** ** The platform and the retry policy *)

Module Retry.

(** What [ApiResponse] exposes to the client: [is_error()], [status_code],
    [errors] and the decoded [body]. *)
Record api_response : Type := {
  is_error : bool;
  status_code : Z;
  errors : value;
  body : value
}.

(** What [requests.Response] exposes to the v1 path.  Header names are kept
    in lower case, as the case-insensitive header mapping looks them up. *)
Record http_response : Type := {
  http_status : Z;
  headers : gmap string string;
  json : value
}.

(** One call that leaves the process. *)
Inductive api_call : Type :=
  | BodyCall (endpoint : string) (request_body : gmap string value)
  | WindowCall (endpoint : string) (location_id begin_time end_time : string)
               (cursor : value) (limit : Z)
  | HttpGet (url : string) (params : gmap string value).

(** The process sees the platform through its state and the log of the
    calls issued so far. *)
Record world (S : Type) : Type := {
  srv : S;
  sent : list api_call
}.
Global Arguments srv {S} w.
Global Arguments sent {S} w.

(** [hasattr(ex, "response")] and the attribute's status code: [HTTPError]
    carries the response, other transport exceptions carry [None], and the
    exceptions raised by the client itself have no such attribute. *)
Definition response_status (ex : exn) : option (option Z) :=
  match ex with
  | HTTPError st => Some (Some st)
  | ConnectionError => Some None
  | _ => None
  end.

Definition should_not_retry (ex : exn) : bool :=
  match response_status ex with
  | Some (Some st) => (st =? 400) || (st =? 401)
  | _ => false
  end.

Definition is_RetryableError (ex : exn) : bool :=
  match ex with RetryableError _ => true | _ => false end.

Definition is_RequestException (ex : exn) : bool :=
  match ex with HTTPError _ | ConnectionError => true | _ => false end.

(** The literal double-quote character. *)
Definition dquote : string := String (ascii_of_nat 34) EmptyString.

(** ['<span class="cf-error-code">1101</span>'] *)
Definition cf_error_1101 : string :=
  "<span class=" ++ dquote ++ "cf-error-code" ++ dquote ++ ">1101</span>".

(** [result.errors if result.errors else result.body] *)
Definition error_message (result : api_response) : value :=
  if truthy (errors result) then errors result else body result.

Definition is_html_error (msg : value) : bool :=
  match msg with
  | VStr s => String.prefix "<!DOCTYPE html>" s
  | _ => false
  end.

Definition is_status_429_or_500 (result : api_response) : bool :=
  (status_code result =? 429) || (status_code result >=? 500).

(** The [if result.is_error()] block of [_retryable_v2_method]. *)
Definition classify (result : api_response) : outcome api_response :=
  if is_error result then
    let msg := error_message result in
    bind (py_in "Service Unavailable" msg) (fun is_service_unavailable =>
    bind (py_in "upstream connect error or disconnect/reset before headers" msg)
      (fun is_upstream_error =>
    bind (py_in cf_error_1101 msg)
      (fun is_cf_error_1101 =>
    if is_service_unavailable || is_upstream_error || is_cf_error_1101
       || is_html_error msg || is_status_429_or_500 result
    then Raise (RetryableError msg)
    else Raise (RuntimeError msg))))
  else Ret result.

Section Platform.
Context {S : Type}.
(** The Square SDK endpoints and the plain HTTP session. *)
Variable server : api_call -> S -> api_response * S.
Variable http : api_call -> S -> outcome http_response * S.
(** [backoff]'s [max_time=600]: how many retries fit into the budget. *)
Variable retries : nat.

Definition sdk_call (c : api_call) (w : world S) : api_response * world S :=
  let (r, s') := server c (srv w) in
  (r, {| srv := s'; sent := sent w ++ [c] |}).

Definition session_get (c : api_call) (w : world S)
  : outcome http_response * world S :=
  let (r, s') := http c (srv w) in
  (r, {| srv := s'; sent := sent w ++ [c] |}).

(** [backoff.on_exception(expo, klass, max_time, giveup)]: a raised
    exception of class [klass] is retried unless [giveup] accepts it or
    the budget is spent; any other exception propagates. *)
Fixpoint on_exception {A} (klass giveup : exn -> bool) (budget : nat)
    (target : world S -> outcome A * world S) (w : world S)
  : outcome A * world S :=
  match target w with
  | (Ret a, w') => (Ret a, w')
  | (Raise e, w') =>
      if klass e then
        if giveup e then (Raise e, w')
        else match budget with
             | O => (Raise e, w')
             | Datatypes.S b => on_exception klass giveup b target w'
             end
      else (Raise e, w')
  end.

Definition _retryable_v2_method_body {B} (request_method : B -> api_call)
    (bdy : B) (w : world S) : outcome api_response * world S :=
  let (result, w') := sdk_call (request_method bdy) w in
  (classify result, w').

Definition _retryable_v2_method {B} (request_method : B -> api_call)
    (bdy : B) : world S -> outcome api_response * world S :=
  on_exception is_RetryableError should_not_retry retries
    (_retryable_v2_method_body request_method bdy).

(** [result.raise_for_status()] *)
Definition raise_for_status (result : http_response) : outcome http_response :=
  if (400 <=? http_status result) && (http_status result <? 600)
  then Raise (HTTPError (http_status result))
  else Ret result.

Definition _retryable_v1_method_body (url : string)
    (params : gmap string value) (w : world S)
  : outcome http_response * world S :=
  let (r, w') := session_get (HttpGet url params) w in
  (bind r raise_for_status, w').

Definition _retryable_v1_method (url : string) (params : gmap string value)
  : world S -> outcome http_response * world S :=
  on_exception is_RequestException should_not_retry retries
    (_retryable_v1_method_body url params).

End Platform.

End Retry.
Import Retry.

(** ** Timestamps *)

Module DateTime.

(** An aware [datetime] is an instant: microseconds since
    0001-01-01T00:00:00 UTC.  A [timedelta] is a number of microseconds. *)
Definition datetime : Type := Z.
Definition timedelta : Type := Z.

Definition US_PER_SECOND : Z := 1000000.
Definition US_PER_DAY : Z := 86400 * US_PER_SECOND.
Definition MAXORDINAL : Z := 3652059.
Definition datetime_max : datetime := MAXORDINAL * US_PER_DAY - 1.

Definition milliseconds (n : Z) : timedelta := n * 1000.
Definition days_delta (n : Z) : timedelta := n * US_PER_DAY.

(** [timedelta.days]: a timedelta is normalised with [0 <= seconds < 86400]
    and [0 <= microseconds < 10^6], so [days] is the floor. *)
Definition days (td : timedelta) : Z := td / US_PER_DAY.

Definition in_range (d : Z) : bool := (0 <=? d) && (d <=? datetime_max).

(** [a - b] on two datetimes. *)
Definition diff (a b : datetime) : timedelta := a - b.

(** [d - td]: out of the representable years the subtraction overflows. *)
Definition sub (d : datetime) (td : timedelta) : outcome datetime :=
  if in_range (d - td) then Ret (d - td) else Raise OverflowError.

(** *** The proleptic Gregorian calendar of [datetime] *)

Definition _is_leap (year : Z) : bool :=
  (year mod 4 =? 0) && (negb (year mod 100 =? 0) || (year mod 400 =? 0)).

Definition _days_before_year (year : Z) : Z :=
  let y := year - 1 in y * 365 + y / 4 - y / 100 + y / 400.

Definition _DAYS_IN_MONTH (month : Z) : Z :=
  match month with
  | 1 => 31 | 2 => 28 | 3 => 31 | 4 => 30 | 5 => 31 | 6 => 30
  | 7 => 31 | 8 => 31 | 9 => 30 | 10 => 31 | 11 => 30 | 12 => 31
  | _ => -1
  end.

Definition _DAYS_BEFORE_MONTH (month : Z) : Z :=
  match month with
  | 1 => 0 | 2 => 31 | 3 => 59 | 4 => 90 | 5 => 120 | 6 => 151
  | 7 => 181 | 8 => 212 | 9 => 243 | 10 => 273 | 11 => 304 | 12 => 334
  | _ => -1
  end.

Definition _days_in_month (year month : Z) : Z :=
  if (month =? 2) && _is_leap year then 29 else _DAYS_IN_MONTH month.

Definition _days_before_month (year month : Z) : Z :=
  _DAYS_BEFORE_MONTH month + (if (2 <? month) && _is_leap year then 1 else 0).

Definition _ymd2ord (year month day : Z) : Z :=
  _days_before_year year + _days_before_month year month + day.

Definition _DI400Y : Z := 146097.
Definition _DI100Y : Z := 36524.
Definition _DI4Y : Z := 1461.

Definition _ord2ymd (ordinal : Z) : Z * Z * Z :=
  let n := ordinal - 1 in
  let n400 := n / _DI400Y in
  let n := n mod _DI400Y in
  let year := n400 * 400 + 1 in
  let n100 := n / _DI100Y in
  let n := n mod _DI100Y in
  let n4 := n / _DI4Y in
  let n := n mod _DI4Y in
  let n1 := n / 365 in
  let n := n mod 365 in
  let year := year + n100 * 100 + n4 * 4 + n1 in
  if (n1 =? 4) || (n100 =? 4) then (year - 1, 12, 31)
  else
    let leapyear := (n1 =? 3) && (negb (n4 =? 24) || (n100 =? 3)) in
    let month := Z.shiftr (n + 50) 5 in
    let preceding :=
      _DAYS_BEFORE_MONTH month + (if (2 <? month) && leapyear then 1 else 0) in
    if n <? preceding then
      let month := month - 1 in
      let preceding :=
        preceding
        - (_DAYS_IN_MONTH month + (if (month =? 2) && leapyear then 1 else 0)) in
      (year, month, n - preceding + 1)
    else (year, month, n - preceding + 1).

(** *** Printing: [strftime] *)

Definition digit (n : Z) : ascii := ascii_of_nat (48 + Z.to_nat (n mod 10)).

(** The [width] low decimal digits of [n], zero padded. *)
Fixpoint zero_padded (width : nat) (n : Z) (acc : string) : string :=
  match width with
  | O => acc
  | Datatypes.S w => zero_padded w (n / 10) (String (digit n) acc)
  end.

Definition dec (width : nat) (n : Z) : string := zero_padded width n EmptyString.

(** [%Y] prints the year without padding. *)
Definition year_digits (y : Z) : string :=
  if y <? 10 then dec 1 y else if y <? 100 then dec 2 y
  else if y <? 1000 then dec 3 y else dec 4 y.

(** The fields a format needs: date, time of day, microsecond. *)
Definition fields (d : datetime) : (Z * Z * Z) * (Z * Z * Z) * Z :=
  let day_no := d / US_PER_DAY in
  let rest := d mod US_PER_DAY in
  let secs := rest / US_PER_SECOND in
  (_ord2ymd (day_no + 1),
   (secs / 3600, (secs mod 3600) / 60, secs mod 60),
   rest mod US_PER_SECOND).

(** [DATETIME_FMT = "%04Y-%m-%dT%H:%M:%S.%fZ"], the default of
    [utils.strftime]. *)
Definition strftime (d : datetime) : string :=
  let '((y, m, dd), (hh, mi, ss), us) := fields d in
  dec 4 y ++ "-" ++ dec 2 m ++ "-" ++ dec 2 dd ++ "T"
  ++ dec 2 hh ++ ":" ++ dec 2 mi ++ ":" ++ dec 2 ss ++ "." ++ dec 6 us ++ "Z".

(** [DATETIME_PARSE = "%Y-%m-%dT%H:%M:%SZ"] *)
Definition strftime_DATETIME_PARSE (d : datetime) : string :=
  let '((y, m, dd), (hh, mi, ss), _) := fields d in
  year_digits y ++ "-" ++ dec 2 m ++ "-" ++ dec 2 dd ++ "T"
  ++ dec 2 hh ++ ":" ++ dec 2 mi ++ ":" ++ dec 2 ss ++ "Z".

(** *** Reading: [strptime_to_utc] and [strptime_with_tz]

    The timestamps of the platform and of the tap's state are RFC 3339 in
    UTC: [YYYY-MM-DDTHH:MM:SS], an optional fraction of one to six digits,
    and [Z].  Other notations are outside this model and read as a
    [ValueError]. *)

Definition digit_value (c : ascii) : option Z :=
  let n := Z.of_nat (nat_of_ascii c) in
  if (48 <=? n) && (n <=? 57) then Some (n - 48) else None.

(** Exactly [count] digits. *)
Fixpoint read_digits (count : nat) (acc : Z) (s : string) : option (Z * string) :=
  match count with
  | O => Some (acc, s)
  | Datatypes.S k =>
      match s with
      | String c rest =>
          match digit_value c with
          | Some v => read_digits k (acc * 10 + v) rest
          | None => None
          end
      | EmptyString => None
      end
  end.

Definition expect (c : ascii) (s : string) : option string :=
  match s with
  | String c' rest => if Ascii.eqb c c' then Some rest else None
  | EmptyString => None
  end.

(** Up to [count] digits of a fraction, scaled to microseconds. *)
Fixpoint read_fraction (count : nat) (acc : Z) (s : string) : Z * string :=
  match count with
  | O => (acc, s)
  | Datatypes.S k =>
      match s with
      | String c rest =>
          match digit_value c with
          | Some v => read_fraction k (acc + v * 10 ^ Z.of_nat k) rest
          | None => (acc, s)
          end
      | EmptyString => (acc, s)
      end
  end.

Definition parse (s : string) : option datetime :=
  '(y, s) ← read_digits 4 0 s;
  s ← expect "-" s;
  '(m, s) ← read_digits 2 0 s;
  s ← expect "-" s;
  '(d, s) ← read_digits 2 0 s;
  s ← expect "T" s;
  '(hh, s) ← read_digits 2 0 s;
  s ← expect ":" s;
  '(mi, s) ← read_digits 2 0 s;
  s ← expect ":" s;
  '(ss, s) ← read_digits 2 0 s;
  let '(us, s) :=
    match s with
    | String "." (String c rest) =>
        match digit_value c with
        | Some _ => read_fraction 6 0 (String c rest)
        | None => (0, s)
        end
    | _ => (0, s)
    end in
  if String.eqb s "Z"
     && (1 <=? y) && (1 <=? m) && (m <=? 12)
     && (1 <=? d) && (d <=? _days_in_month y m)
     && (hh <? 24) && (mi <? 60) && (ss <? 60)
  then Some (((_ymd2ord y m d - 1) * 86400 + hh * 3600 + mi * 60 + ss)
             * US_PER_SECOND + us)
  else None.

Definition strptime_to_utc (dtimestr : string) : outcome datetime :=
  match parse dtimestr with
  | Some d => Ret d
  | None => Raise ValueError
  end.

Definition strptime_with_tz (dtime : string) : outcome datetime :=
  match parse dtime with
  | Some d => Ret d
  | None => Raise ValueError
  end.

End DateTime.

Import DateTime.

(** ** Generators *)

Module Gen.

(** One resumption of a generator in state [G]: it yields and suspends,
    returns, or lets an exception escape. *)
Inductive step (G Y : Type) : Type :=
  | Yield (y : Y) (g : G)
  | Stop
  | Throw (e : exn).
Global Arguments Yield {G Y} y g.
Global Arguments Stop {G Y}.
Global Arguments Throw {G Y} e.

(** How a consumer that resumes the generator at most [fuel] times leaves
    it. *)
Inductive ending (G : Type) : Type :=
  | Exhausted
  | Failed (e : exn)
  | Suspended (g : G).
Global Arguments Exhausted {G}.
Global Arguments Failed {G} e.
Global Arguments Suspended {G} g.

Section Pull.
Context {W G Y : Type}.
Variable next : G -> W -> step G Y * W.

Fixpoint pull (fuel : nat) (g : G) (w : W) : list Y * ending G * W :=
  match fuel with
  | O => ([], Suspended g, w)
  | Datatypes.S k =>
      match next g w with
      | (Yield y g', w') =>
          let '(ys, e, w'') := pull k g' w' in (y :: ys, e, w'')
      | (Stop, w') => ([], Exhausted, w')
      | (Throw e, w') => ([], Failed e, w')
      end
  end.
End Pull.

End Gen.
Import Gen.

(** ** Paginators and stream extractors *)

Module Paginator.

Definition INITIAL : string := "__initial__".

(** A batch: the records of one page and the cursor for the next. *)
Definition page : Type := value * value.

(** The locals of [_get_v2_objects] at the head of its loop. *)
Record v2_state : Type := {
  st_cursor : value;
  st_body : gmap string value
}.

(** The locals of the page loop of [get_payments],
    [get_cash_drawer_shifts] and [get_payouts]: not yet started, or at the
    head of the loop. *)
Inductive window_state : Type :=
  | WNew
  | WLoop (cursor : value) (end_time : string).

Section Platform.
Context {S : Type}.
Variable server : api_call -> S -> api_response * S.
Variable clock : S -> datetime.
Variable retries : nat.

(** [cursor = body.get('cursor', '__initial__')].  The generator runs
    this line at its first resumption; the body is a dict its extractor
    has just built and nothing else holds. *)
Definition v2_start (body : gmap string value) : v2_state :=
  {| st_cursor := default (VStr INITIAL) (body !! "cursor"); st_body := body |}.

(** One turn of the loop of [_get_v2_objects], from the [while] test to
    the [yield]. *)
Definition v2_next (request_method : gmap string value -> api_call)
    (body_key : string) (g : v2_state) (w : world S)
  : step v2_state page * world S :=
  if truthy (st_cursor g) then
    let body :=
      if negb (is_str INITIAL (st_cursor g))
      then <["cursor" := st_cursor g]> (st_body g) else st_body g in
    match _retryable_v2_method server retries request_method body w with
    | (Raise e, w') => (Throw e, w')
    | (Ret result, w') =>
        match py_get (Retry.body result) "cursor" VNone with
        | Raise e => (Throw e, w')
        | Ret cursor =>
            match py_get (Retry.body result) body_key (VList []) with
            | Raise e => (Throw e, w')
            | Ret records =>
                (Yield (records, cursor) {| st_cursor := cursor; st_body := body |},
                 w')
            end
        end
    end
  else (Stop, w).

(** The consumer's [for page, cursor in self._get_v2_objects(...)],
    stopped after at most [fuel] resumptions. *)
Definition _get_v2_objects (request_method : gmap string value -> api_call)
    (body : gmap string value) (body_key : string) (fuel : nat)
    (w : world S) : list page * ending v2_state * world S :=
  pull (v2_next request_method body_key) fuel (v2_start body) w.

(** [utils.now()] *)
Definition now (w : world S) : datetime := clock (srv w).

(** The loop shared, word for word, by [get_payments],
    [get_cash_drawer_shifts] and [get_payouts]; they differ in the
    endpoint, the key of the records and the page size. *)
Definition window_loop (endpoint records_key : string) (limit : Z)
    (location_id start_time : string) (bookmarked_cursor : value)
    (cursor : value) (end_time : string) (w : world S)
  : step window_state page * world S :=
  if truthy cursor then
    let cursor := if is_str INITIAL cursor then bookmarked_cursor else cursor in
    match _retryable_v2_method server retries
            (fun _ : value =>
               WindowCall endpoint location_id start_time end_time cursor limit)
            VNone w with
    | (Raise e, w') => (Throw e, w')
    | (Ret result, w') =>
        match py_get (Retry.body result) records_key (VList []) with
        | Raise e => (Throw e, w')
        | Ret records =>
            match py_get (Retry.body result) "cursor" VNone with
            | Raise e => (Throw e, w')
            | Ret next_cursor =>
                (Yield (records, next_cursor) (WLoop next_cursor end_time), w')
            end
        end
    end
  else (Stop, w).

Definition window_next (endpoint records_key : string) (limit : Z)
    (location_id start_time : string) (bookmarked_cursor : value)
    (g : window_state) (w : world S) : step window_state page * world S :=
  match g with
  | WNew =>
      let cursor :=
        if truthy bookmarked_cursor then bookmarked_cursor else VStr INITIAL in
      let end_time := strftime_DATETIME_PARSE (now w) in
      window_loop endpoint records_key limit location_id start_time
        bookmarked_cursor cursor end_time w
  | WLoop cursor end_time =>
      window_loop endpoint records_key limit location_id start_time
        bookmarked_cursor cursor end_time w
  end.

Definition get_payments (location_id start_time : string)
    (bookmarked_cursor : value) (fuel : nat) (w : world S)
  : list page * ending window_state * world S :=
  pull (window_next "payments.list_payments" "payments" 100
          location_id start_time bookmarked_cursor) fuel WNew w.

Definition get_cash_drawer_shifts (location_id start_time : string)
    (bookmarked_cursor : value) (fuel : nat) (w : world S)
  : list page * ending window_state * world S :=
  pull (window_next "cash_drawers.list_cash_drawer_shifts" "items" 1000
          location_id start_time bookmarked_cursor) fuel WNew w.

Definition get_payouts (location_id start_time : string)
    (bookmarked_cursor : value) (fuel : nat) (w : world S)
  : list page * ending window_state * world S :=
  pull (window_next "payouts.list_payouts" "payouts" 100
          location_id start_time bookmarked_cursor) fuel WNew w.

(** The timestamp both [get_catalog] and [get_refunds] put into
    [begin_time]. *)
Definition begin_time_of (start_time : string) : outcome string :=
  bind (strptime_to_utc start_time) (fun start_time =>
  bind (sub start_time (milliseconds 1)) (fun start_time =>
  Ret (strftime start_time))).

Definition get_catalog (object_type start_time : string) (fuel : nat)
    (w : world S) : outcome (list page * ending v2_state) * world S :=
  match begin_time_of start_time with
  | Raise e => (Raise e, w)
  | Ret start_time =>
      let body : gmap string value :=
        {[ "object_types" := VList [VStr object_type];
           "include_deleted_objects" := VBool true ]} in
      let body := <["begin_time" := VStr start_time]> body in
      let '(pages, e, w') :=
        _get_v2_objects (BodyCall "catalog.search_catalog_objects") body
          "objects" fuel w in
      (Ret (pages, e), w')
  end.

Definition get_refunds (start_time : string) (bookmarked_cursor : value)
    (fuel : nat) (w : world S)
  : outcome (list page * ending v2_state) * world S :=
  match begin_time_of start_time with
  | Raise e => (Raise e, w)
  | Ret start_time =>
      let body : gmap string value := ∅ in
      let body := <["begin_time" := VStr start_time]> body in
      let body :=
        if truthy bookmarked_cursor
        then <["cursor" := bookmarked_cursor]> body else body in
      let '(pages, e, w') :=
        _get_v2_objects (BodyCall "refunds.list_payment_refunds") body
          "refunds" fuel w in
      (Ret (pages, e), w')
  end.

Definition get_inventories (start_time : string) (bookmarked_cursor : value)
    (fuel : nat) (w : world S) : list page * ending v2_state * world S :=
  let body : gmap string value := {[ "updated_after" := VStr start_time ]} in
  let body :=
    if truthy bookmarked_cursor
    then <["cursor" := bookmarked_cursor]> body else body in
  _get_v2_objects (BodyCall "inventory.batch_retrieve_inventory_counts") body
    "counts" fuel w.

End Platform.

End Paginator.
Import Paginator.

(** ** The continuation token of the v1 endpoints *)

Module Url.

Definition mem_char (c : ascii) (chars : string) : bool :=
  existsb (Ascii.eqb c) (list_ascii_of_string chars).

(** [s.lstrip(chars)], [s.rstrip(chars)] and [s.strip(chars)] *)
Fixpoint lstrip (chars s : string) : string :=
  match s with
  | String c rest => if mem_char c chars then lstrip chars rest else s
  | EmptyString => EmptyString
  end.

Fixpoint rstrip (chars s : string) : string :=
  match s with
  | String c rest =>
      match rstrip chars rest with
      | EmptyString => if mem_char c chars then EmptyString
                       else String c EmptyString
      | kept => String c kept
      end
  | EmptyString => EmptyString
  end.

Definition strip (chars s : string) : string := rstrip chars (lstrip chars s).

(** [s.split(sep)] for a one-character separator. *)
Fixpoint split (sep : ascii) (s : string) : list string :=
  match s with
  | EmptyString => [EmptyString]
  | String c rest =>
      if Ascii.eqb c sep then EmptyString :: split sep rest
      else match split sep rest with
           | part :: parts => String c part :: parts
           | [] => [String c EmptyString]
           end
  end.

(** [s.split(sep, 1)] *)
Fixpoint split1 (sep : ascii) (s : string) : string * option string :=
  match s with
  | EmptyString => (EmptyString, None)
  | String c rest =>
      if Ascii.eqb c sep then (EmptyString, Some rest)
      else let (before, after) := split1 sep rest in (String c before, after)
  end.

(** Does [s] start with [ *<] ? *)
Fixpoint spaces_then_lt (s : string) : bool :=
  match s with
  | String c rest =>
      if Ascii.eqb c " " then spaces_then_lt rest else Ascii.eqb c "<"
  | EmptyString => false
  end.

(** [re.split(", *<", s)[0]] *)
Fixpoint first_link_text (s : string) : string :=
  match s with
  | EmptyString => EmptyString
  | String c rest =>
      if Ascii.eqb c "," && spaces_then_lt rest then EmptyString
      else String c (first_link_text rest)
  end.

(** The characters [requests] strips: space, quote and double quote. *)
Definition replace_chars : string := " '" ++ dquote.

(** The loop over [params.split(";")] of [parse_header_links]: it stops at
    the first parameter that is not [key=value]. *)
Fixpoint link_params (params : list string) (link : gmap string string)
  : gmap string string :=
  match params with
  | [] => link
  | param :: more =>
      match split "=" param with
      | [key; val] =>
          link_params more
            (<[strip replace_chars key := strip replace_chars val]> link)
      | _ => link
      end
  end.

(** [requests.utils.parse_header_links(value)[0]]: the first link of the
    header, or [IndexError] when the header holds none. *)
Definition first_header_link (value : string) : outcome (gmap string string) :=
  let value := strip replace_chars value in
  if String.eqb value EmptyString then Raise IndexError
  else
    let val := first_link_text value in
    let (url, params) := split1 ";" val in
    let link : gmap string string := {[ "url" := strip ("<> '" ++ dquote) url ]} in
    Ret (link_params (split ";" (default EmptyString params)) link).

(** [urllib.parse.urlparse(url).query]: what follows the first [?], the
    fragment set aside. *)
Definition url_query (url : string) : string :=
  let (url, _) := split1 "#" url in
  default EmptyString (snd (split1 "?" url)).

Definition hex_value (c : ascii) : option N :=
  let n := N_of_ascii c in
  if (48 <=? n)%N && (n <=? 57)%N then Some (n - 48)%N
  else if (65 <=? n)%N && (n <=? 70)%N then Some (n - 55)%N
  else if (97 <=? n)%N && (n <=? 102)%N then Some (n - 87)%N
  else None.

(** [urllib.parse.unquote] on the UTF-8 bytes of the text: a [%XX] escape
    becomes its byte, anything else stays. *)
Fixpoint unquote (s : string) : string :=
  match s with
  | String "%" (String h (String l rest) as tail) =>
      match hex_value h, hex_value l with
      | Some a, Some b => String (ascii_of_N (16 * a + b)) (unquote rest)
      | _, _ => String "%" (unquote tail)
      end
  | String c rest => String c (unquote rest)
  | EmptyString => EmptyString
  end.

(** [s.replace('+', ' ')] *)
Fixpoint plus_to_space (s : string) : string :=
  match s with
  | String c rest =>
      String (if Ascii.eqb c "+" then " "%char else c) (plus_to_space rest)
  | EmptyString => EmptyString
  end.

(** [urllib.parse.parse_qsl(qs)] with its defaults: pairs without [=] and
    pairs with an empty value are dropped. *)
Fixpoint parse_qsl (pairs : list string) : list (string * string) :=
  match pairs with
  | [] => []
  | name_value :: more =>
      match split1 "=" name_value with
      | (name, Some val) =>
          if negb (String.eqb val EmptyString)
          then (unquote (plus_to_space name), unquote (plus_to_space val))
               :: parse_qsl more
          else parse_qsl more
      | (_, None) => parse_qsl more
      end
  end.

(** [urllib.parse.parse_qs(qs)]: the values of each name, in order. *)
Fixpoint collect (pairs : list (string * string))
    (parsed_result : gmap string (list string)) : gmap string (list string) :=
  match pairs with
  | [] => parsed_result
  | (name, val) :: more =>
      collect more
        (<[name := (default [] (parsed_result !! name) ++ [val])%list]>
           parsed_result)
  end.

Definition parse_qs (qs : string) : gmap string (list string) :=
  collect (parse_qsl (split "&" qs)) ∅.

(** [d[key]] *)
Definition subscript {V} (d : gmap string V) (key : string) : outcome V :=
  match d !! key with
  | Some v => Ret v
  | None => Raise (KeyError key)
  end.

(** [l[0]] *)
Definition first {V} (l : list V) : outcome V :=
  match l with
  | v :: _ => Ret v
  | [] => Raise IndexError
  end.

Definition get_batch_token_from_headers (headers : gmap string string)
  : outcome (option string) :=
  let link := headers !! "link" in
  match link with
  | Some link =>
      if negb (String.eqb link EmptyString) then
        bind (first_header_link link) (fun first_link =>
        bind (subscript first_link "url") (fun batch_token_url =>
        let parsed_query := parse_qs (url_query batch_token_url) in
        bind (subscript parsed_query "batch_token") (fun tokens =>
        bind (first tokens) (fun token => Ret (Some token)))))
      else Ret None
  | None => Ret None
  end.

End Url.
Import Url.

(** ** The credential manager *)

Module Credential.

Definition REFRESH_TOKEN_BEFORE : Z := 22.

(** A reference to a dict object. *)
Definition ref : Type := nat.

(** The two OAuth calls.  [retrieve_token_status] receives
    [f"Bearer {access_token}"]; the call records the token. *)
Inductive oauth_call : Type :=
  | RetrieveTokenStatus (environment : string) (bearer : value)
  | ObtainToken (environment : string) (request_body : gmap string value).

(** The dict objects of the process, the JSON files on disk, the platform
    and the OAuth calls issued so far. *)
Record store (S : Type) : Type := {
  heap : gmap ref (gmap string value);
  files : gmap string (gmap string value);
  platform : S;
  calls : list oauth_call
}.
Global Arguments heap {S} s.
Global Arguments files {S} s.
Global Arguments platform {S} s.
Global Arguments calls {S} s.

(** The attributes [__init__] sets. *)
Record SquareClient : Type := {
  _refresh_token : value;
  _client_id : value;
  _client_secret : value;
  _environment : string;
  _access_token : value
}.

(** [v[key]] on a decoded body. *)
Definition item (v : value) (key : string) : outcome value :=
  match v with
  | VDict d => subscript d key
  | _ => Raise TypeError
  end.

(** [singer.utils.strptime_with_tz] wants text. *)
Definition expiry_of (v : value) : outcome datetime :=
  match v with
  | VStr s => strptime_with_tz s
  | _ => Raise TypeError
  end.

Section Platform.
Context {S : Type}.
Variable oauth : oauth_call -> S -> api_response * S.
Variable clock : S -> datetime.

Definition deref (st : store S) (r : ref) : gmap string value :=
  default ∅ (heap st !! r).

Definition o_auth (c : oauth_call) (st : store S) : api_response * store S :=
  let (r, s') := oauth c (platform st) in
  (r, {| heap := heap st; files := files st; platform := s';
         calls := calls st ++ [c] |}).

(** [config.update(data)], then the dump of the whole dict to
    [config_path], then [return config]: the reference it was given. *)
Definition write_config (config : ref) (config_path : string)
    (data : gmap string value) (st : store S) : ref * store S :=
  let updated := data ∪ deref st config in
  (config,
   {| heap := <[config := updated]> (heap st);
      files := <[config_path := updated]> (files st);
      platform := platform st;
      calls := calls st |}).

Definition require_new_access_token (access_token : value)
    (environment : string) (st : store S) : outcome bool * store S :=
  if negb (truthy access_token) then (Ret true, st)
  else
    let (response, st) :=
      o_auth (RetrieveTokenStatus environment access_token) st in
    if is_error response then (Ret true, st)
    else
      (bind (item (Retry.body response) "expires_at") (fun expires_at =>
       bind (expiry_of expires_at) (fun token_expiry_date =>
       let now := clock (platform st) in
       Ret (days (diff token_expiry_date now) <=? REFRESH_TOKEN_BEFORE))),
       st).

Definition _get_access_token (refresh_token client_id client_secret : value)
    (environment : string) (config : ref) (config_path : string)
    (st : store S) : outcome value * store S :=
  let access_token := default VNone (deref st config !! "access_token") in
  match require_new_access_token access_token environment st with
  | (Raise e, st) => (Raise e, st)
  | (Ret false, st) => (Ret access_token, st)
  | (Ret true, st) =>
      let body : gmap string value :=
        {[ "client_id" := client_id;
           "client_secret" := client_secret;
           "grant_type" := VStr "refresh_token";
           "refresh_token" := refresh_token ]} in
      let (result, st) := o_auth (ObtainToken environment body) st in
      if is_error result then (Raise (RuntimeError (error_message result)), st)
      else
        match item (Retry.body result) "access_token" with
        | Raise e => (Raise e, st)
        | Ret access_token =>
            match item (Retry.body result) "refresh_token" with
            | Raise e => (Raise e, st)
            | Ret new_refresh_token =>
                let (_, st) :=
                  write_config config config_path
                    {[ "access_token" := access_token;
                       "refresh_token" := new_refresh_token ]} st in
                (Ret access_token, st)
            end
        end
  end.

(** [SquareClient.__init__] *)
Definition init (config : ref) (config_path : string) (st : store S)
  : outcome SquareClient * store S :=
  match subscript (deref st config) "refresh_token" with
  | Raise e => (Raise e, st)
  | Ret refresh_token =>
  match subscript (deref st config) "client_id" with
  | Raise e => (Raise e, st)
  | Ret client_id =>
  match subscript (deref st config) "client_secret" with
  | Raise e => (Raise e, st)
  | Ret client_secret =>
      let environment :=
        if is_str "true" (default VNone (deref st config !! "sandbox"))
        then "sandbox" else "production" in
      match _get_access_token refresh_token client_id client_secret
              environment config config_path st with
      | (Raise e, st) => (Raise e, st)
      | (Ret access_token, st) =>
          (Ret {| _refresh_token := refresh_token;
                  _client_id := client_id;
                  _client_secret := client_secret;
                  _environment := environment;
                  _access_token := access_token |}, st)
      end
  end end end.

End Platform.

End Credential.
Import Credential.

(** ** Platforms, scripts and the words of the specification *)

Module Scenario.

Definition reply_ok (d : gmap string value) : api_response :=
  {| is_error := false; status_code := 200; errors := VNone; body := VDict d |}.

Definition reply_error (status : Z) (payload : value) : api_response :=
  {| is_error := true; status_code := status; errors := VNone; body := payload |}.

(** A process that has issued no call yet. *)
Definition fresh {S} (s : S) : world S := {| srv := s; sent := [] |}.

(** A platform that answers its [i]-th call with [responses i], whatever is
    asked. *)
Definition scripted (responses : nat -> api_response)
  : api_call -> nat -> api_response * nat :=
  fun _ i => (responses i, Datatypes.S i).

(** The script of a listing: the pages [rs], then [r_last] for ever. *)
Definition script (rs : list api_response) (r_last : api_response)
  : nat -> api_response :=
  fun i => nth i rs r_last.

(** A platform without memory: the answer is a function of the call. *)
Definition stateless (answer : api_call -> api_response)
  : api_call -> unit -> api_response * unit :=
  fun c _ => (answer c, tt).

(** The cursor and the records a well-formed page carries. *)
Definition cursor_of (r : api_response) : value :=
  match body r with
  | VDict d => default VNone (d !! "cursor")
  | _ => VNone
  end.

Definition records_of (body_key : string) (r : api_response) : value :=
  match body r with
  | VDict d => default (VList []) (d !! body_key)
  | _ => VList []
  end.

Definition page_of (body_key : string) (r : api_response) : page :=
  (records_of body_key r, cursor_of r).

Definition is_page (r : api_response) : Prop :=
  is_error r = false /\ exists d, body r = VDict d.

(** The request body after the paginator has taken note of cursor [c]. *)
Definition carry (b : gmap string value) (c : value) : gmap string value :=
  if is_str INITIAL c then b else <["cursor" := c]> b.

(** The bodies sent while the cursors [cs] are followed from body [b]. *)
Fixpoint bodies (b : gmap string value) (cs : list value)
  : list (gmap string value) :=
  match cs with
  | [] => []
  | c :: cs' => carry b c :: bodies (carry b c) cs'
  end.

(** The cursor field of a call, if the call has one. *)
Definition call_cursor (c : api_call) : option value :=
  match c with
  | BodyCall _ b => b !! "cursor"
  | WindowCall _ _ _ _ cur _ => Some cur
  | HttpGet _ params => params !! "batch_token"
  end.

Definition call_end_time (c : api_call) : option string :=
  match c with
  | WindowCall _ _ _ end_time _ _ => Some end_time
  | _ => None
  end.

Definition call_begin_time (c : api_call) : option value :=
  match c with
  | BodyCall _ b => b !! "begin_time"
  | WindowCall _ _ begin_time _ _ _ => Some (VStr begin_time)
  | HttpGet _ _ => None
  end.

(** A call with its upper time bound blanked. *)
Definition forget_end_time (c : api_call) : api_call :=
  match c with
  | WindowCall endpoint location_id begin_time _ cursor limit =>
      WindowCall endpoint location_id begin_time EmptyString cursor limit
  | _ => c
  end.

(** The platform's data and cursors do not change: whenever it is asked,
    and whatever upper time bound the call carries, the same listing call
    gets the same answer. *)
Definition unchanging {S} (server : api_call -> S -> api_response * S)
    (answer : api_call -> api_response) : Prop :=
  forall c s, fst (server c s) = answer (forget_end_time c).

(** The platform never hands out the client's sentinel as a cursor. *)
Definition no_sentinel (answer : api_call -> api_response) : Prop :=
  forall c, cursor_of (answer c) <> VStr INITIAL.

(** What a consumer sees of the way a run ended. *)
Definition ending_kind {G} (e : ending G) : option (option exn) :=
  match e with
  | Exhausted => Some None
  | Failed ex => Some (Some ex)
  | Suspended _ => None
  end.

(** The classification rule in the words of the specification: the message
    contains one of the three markers, or is a string that begins with an
    HTML doctype, or the status is 429 or at least 500. *)
Definition contains (needle : string) (msg : value) : bool :=
  match py_in needle msg with
  | Ret b => b
  | Raise _ => false
  end.

Definition spec_retryable (result : api_response) : bool :=
  let msg := error_message result in
  contains "Service Unavailable" msg
  || contains "upstream connect error or disconnect/reset before headers" msg
  || contains cf_error_1101 msg
  || is_html_error msg
  || (status_code result =? 429) || (500 <=? status_code result).

(** The messages the membership test [in] accepts. *)
Definition iterable (msg : value) : Prop :=
  match msg with
  | VStr _ | VList _ | VDict _ => True
  | VNone | VBool _ | VInt _ => False
  end.

(** A platform that rejects the first call with 401 and the text of a
    proxy outage, and serves every later call. *)
Definition unauthorized_once (i : nat) : api_response :=
  match i with
  | O => reply_error 401 (VStr "Service Unavailable")
  | _ => reply_ok {[ "locations" := VList [] ]}
  end.

(** A platform whose gateway answers 503 with no body at all. *)
Definition gateway_down (i : nat) : api_response :=
  reply_error 503 VNone.

Definition has_cursor (s : string) (c : api_call) : bool :=
  match call_cursor c with
  | Some v => is_str s v
  | None => false
  end.

(** A listing of two pages: asked without cursor [c1] it serves the first
    page, which hands out [c1]; asked with [c1] it serves the second, which
    hands out none. *)
Definition two_pages (c : api_call) : api_response :=
  if has_cursor "c1" c
  then reply_ok {[ "payments" := VList [VStr "B"] ]}
  else reply_ok {[ "payments" := VList [VStr "A"]; "cursor" := VStr "c1" ]}.

(** A clock that stands at 2023-06-02T12:00:00Z. *)
Definition noon (_ : unit) : datetime := 63821304000000000.

(** A listing whose second page comes with an empty cursor. *)
Definition empty_cursor_listing : list api_response :=
  [ reply_ok {[ "counts" := VList [VStr "A"]; "cursor" := VStr "a" ]};
    reply_ok {[ "counts" := VList [VStr "B"]; "cursor" := VStr EmptyString ]} ].

(** The same listing on a platform that counts its calls, with a clock
    that is one hour further at every call. *)
Definition counting : api_call -> nat -> api_response * nat :=
  fun c i => (two_pages c, Datatypes.S i).

Definition hourly (i : nat) : datetime :=
  noon tt + Z.of_nat i * 3600 * US_PER_SECOND.

(** The body of the token request. *)
Definition refresh_request (refresh_token client_id client_secret : value)
  : gmap string value :=
  {[ "client_id" := client_id;
     "client_secret" := client_secret;
     "grant_type" := VStr "refresh_token";
     "refresh_token" := refresh_token ]}.

(** A successful refresh: the token of [config] needs replacing, and the
    token endpoint answers the request without error with the pair
    [access], [refresh]; [st2] is the store once it has answered. *)
Definition refresh_succeeds {S} (oauth : oauth_call -> S -> api_response * S)
    (clock : S -> datetime) (refresh_token client_id client_secret : value)
    (environment : string) (config : ref) (st : store S)
    (access refresh : value) (st2 : store S) : Prop :=
  exists st1 result,
    require_new_access_token oauth clock
      (default VNone (deref st config !! "access_token")) environment st
    = (Ret true, st1)
    /\ o_auth oauth
         (ObtainToken environment
            (refresh_request refresh_token client_id client_secret)) st1
       = (result, st2)
    /\ is_error result = false
    /\ item (body result) "access_token" = Ret access
    /\ item (body result) "refresh_token" = Ret refresh.

(** An OAuth endpoint that reports a token valid until [expires_at] and
    issues the pair [a1], [r1]. *)
Definition issuer (expires_at : string)
  : oauth_call -> unit -> api_response * unit :=
  fun c _ =>
    match c with
    | RetrieveTokenStatus _ _ =>
        (reply_ok {[ "expires_at" := VStr expires_at ]}, tt)
    | ObtainToken _ _ =>
        (reply_ok {[ "access_token" := VStr "a1";
                     "refresh_token" := VStr "r1" ]}, tt)
    end.

(** A process whose config dict, at reference 0, has no access token yet. *)
Definition first_run : store unit :=
  {| heap := {[ 0%nat := {[ "refresh_token" := VStr "r0";
                            "client_id" := VStr "id";
                            "client_secret" := VStr "secret";
                            "start_date" := VStr "2023-01-01T00:00:00Z" ]} ]};
     files := ∅;
     platform := tt;
     calls := [] |}.

(** A process whose config holds the access token [a0]. *)
Definition later_run : store unit :=
  {| heap := {[ 0%nat := {[ "refresh_token" := VStr "r0";
                            "client_id" := VStr "id";
                            "client_secret" := VStr "secret";
                            "access_token" := VStr "a0" ]} ]};
     files := ∅;
     platform := tt;
     calls := [] |}.

End Scenario.
Import Scenario.

(** ** The v1 paginator and the other stream extractors *)

Module Streams.

(** The locals of [_get_v1_objects] at the head of its loop. *)
Record v1_state : Type := {
  st_batch_token : value;
  st_params : gmap string value
}.

(** What [get_batch_token_from_headers] hands back, as a Python object. *)
Definition token_value (batch_token : option string) : value :=
  match batch_token with
  | Some token => VStr token
  | None => VNone
  end.

Section Platform.
Context {S : Type}.
Variable server : api_call -> S -> api_response * S.
Variable http : api_call -> S -> outcome http_response * S.
Variable retries : nat.

(** The lines of [_get_v1_objects] before its loop.  The session headers
    (content type and bearer token) stay inside the session. *)
Definition v1_start (params : gmap string value) (bookmarked_cursor : value)
  : v1_state :=
  {| st_batch_token :=
       if truthy bookmarked_cursor then bookmarked_cursor else VStr INITIAL;
     st_params := params |}.

(** One turn of the loop of [_get_v1_objects]. *)
Definition v1_next (url : string) (g : v1_state) (w : world S)
  : step v1_state page * world S :=
  if truthy (st_batch_token g) then
    let params :=
      if negb (is_str INITIAL (st_batch_token g))
      then <["batch_token" := st_batch_token g]> (st_params g)
      else st_params g in
    match _retryable_v1_method http retries url params w with
    | (Raise e, w') => (Throw e, w')
    | (Ret result, w') =>
        match get_batch_token_from_headers (headers result) with
        | Raise e => (Throw e, w')
        | Ret batch_token =>
            (Yield (json result, token_value batch_token)
               {| st_batch_token := token_value batch_token;
                  st_params := params |},
             w')
        end
    end
  else (Stop, w).

Definition _get_v1_objects (url : string) (params : gmap string value)
    (bookmarked_cursor : value) (fuel : nat) (w : world S)
  : list page * ending v1_state * world S :=
  pull (v1_next url) fuel (v1_start params bookmarked_cursor) w.

Definition get_locations (fuel : nat) (w : world S)
  : list page * ending v2_state * world S :=
  let body : gmap string value := ∅ in
  _get_v2_objects server retries (BodyCall "locations.list_locations") body
    "locations" fuel w.

Definition get_bank_accounts (fuel : nat) (w : world S)
  : list page * ending v2_state * world S :=
  let body : gmap string value := ∅ in
  _get_v2_objects server retries (BodyCall "bank_accounts.list_bank_accounts")
    body "bank_accounts" fuel w.

Definition get_customers (start_time end_time : value) (fuel : nat)
    (w : world S) : list page * ending v2_state * world S :=
  let body : gmap string value :=
    {[ "query" :=
         VDict {[ "filter" :=
                    VDict {[ "updated_at" :=
                               VDict {[ "start_at" := start_time;
                                        "end_at" := end_time ]} ]};
                  "sort" :=
                    VDict {[ "field" := VStr "CREATED_AT";
                             "order" := VStr "ASC" ]} ]} ]} in
  _get_v2_objects server retries (BodyCall "customers.search_customers") body
    "customers" fuel w.

Definition get_orders (location_ids start_time : value) (fuel : nat)
    (w : world S) : list page * ending v2_state * world S :=
  let body : gmap string value :=
    {[ "query" :=
         VDict {[ "filter" :=
                    VDict {[ "date_time_filter" :=
                               VDict {[ "updated_at" :=
                                          VDict {[ "start_at" := start_time ]} ]} ]};
                  "sort" :=
                    VDict {[ "sort_field" := VStr "UPDATED_AT";
                             "sort_order" := VStr "ASC" ]} ]} ]} in
  let body := <["location_ids" := location_ids]> body in
  _get_v2_objects server retries (BodyCall "orders.search_orders") body
    "orders" fuel w.

Definition get_team_members (location_ids : value) (fuel : nat)
    (w : world S) : list page * ending v2_state * world S :=
  let body : gmap string value :=
    {[ "query" := VDict {[ "filter" := VDict {[ "location_ids" := location_ids ]} ]};
       "limit" := VInt 200 ]} in
  _get_v2_objects server retries (BodyCall "team.search_team_members") body
    "team_members" fuel w.

Definition get_shifts (bookmarked_cursor : value) (fuel : nat) (w : world S)
  : list page * ending v2_state * world S :=
  let body : gmap string value :=
    {[ "query" := VDict {[ "sort" := VDict {[ "field" := VStr "UPDATED_AT";
                                              "order" := VStr "ASC" ]} ]} ]} in
  let body :=
    if truthy bookmarked_cursor
    then <["cursor" := bookmarked_cursor]> body else body in
  _get_v2_objects server retries (BodyCall "labor.search_shifts") body
    "shifts" fuel w.

Definition get_loyalty_accounts (bookmarked_cursor : value) (fuel : nat)
    (w : world S) : list page * ending v2_state * world S :=
  let body : gmap string value := {[ "limit" := VInt 200 ]} in
  let body :=
    if truthy bookmarked_cursor
    then <["cursor" := bookmarked_cursor]> body else body in
  _get_v2_objects server retries (BodyCall "loyalty.search_loyalty_accounts")
    body "loyalty_accounts" fuel w.

End Platform.

End Streams.
Import Streams.

(** ** More platforms *)

Module Cases.

(** An HTTP endpoint that answers every call with [status] and no headers. *)
Definition http_always (status : Z)
  : api_call -> unit -> outcome http_response * unit :=
  fun _ _ =>
    (Ret {| http_status := status; headers := ∅; json := VList [] |}, tt).

(** An HTTP endpoint that cannot be reached. *)
Definition http_unreachable
  : api_call -> unit -> outcome http_response * unit :=
  fun _ _ => (Raise ConnectionError, tt).

(** An SDK endpoint whose proxy is down for good. *)
Definition always_unavailable : api_call -> unit -> api_response * unit :=
  fun _ _ => (reply_error 503 (VStr "Service Unavailable"), tt).

(** The query parameters of the first request of [_get_v1_objects]. *)
Definition first_params (params : gmap string value)
    (bookmarked_cursor : value) : gmap string value :=
  if truthy bookmarked_cursor && negb (is_str INITIAL bookmarked_cursor)
  then <["batch_token" := bookmarked_cursor]> params
  else params.

(** An HTTP endpoint that answers its [i]-th call with [responses i]. *)
Definition http_scripted (responses : nat -> http_response)
  : api_call -> nat -> outcome http_response * nat :=
  fun _ i => (Ret (responses i), Datatypes.S i).

(** An HTTP endpoint that serves one page of records under the given
    [link] header. *)
Definition http_linked (link : string)
  : api_call -> unit -> outcome http_response * unit :=
  fun _ _ =>
    (Ret {| http_status := 200; headers := {[ "link" := link ]};
            json := VList [VStr "A"] |}, tt).

Definition v1_page_with (link : string) (records : value) : http_response :=
  {| http_status := 200; headers := {[ "link" := link ]}; json := records |}.

Definition v1_last_page (records : value) : http_response :=
  {| http_status := 200; headers := ∅; json := records |}.

(** The continuation token of a response, as the paginator keeps it. *)
Definition token_of (r : http_response) : value :=
  match get_batch_token_from_headers (headers r) with
  | Ret batch_token => token_value batch_token
  | Raise _ => VNone
  end.

Definition v1_page_of (r : http_response) : page := (json r, token_of r).

(** A response [raise_for_status] lets pass, with headers
    [get_batch_token_from_headers] can read. *)
Definition is_v1_page (r : http_response) : Prop :=
  raise_for_status r = Ret r
  /\ exists batch_token,
       get_batch_token_from_headers (headers r) = Ret batch_token.

(** The query parameters after the paginator has taken note of a token. *)
Definition v1_carry (params : gmap string value) (token : value)
  : gmap string value :=
  if is_str INITIAL token then params else <["batch_token" := token]> params.

Fixpoint v1_params_sent (params : gmap string value) (tokens : list value)
  : list (gmap string value) :=
  match tokens with
  | [] => []
  | t :: more => v1_carry params t :: v1_params_sent (v1_carry params t) more
  end.

(** The environment an OAuth call is sent to. *)
Definition call_environment (c : oauth_call) : string :=
  match c with
  | RetrieveTokenStatus environment _ => environment
  | ObtainToken environment _ => environment
  end.

(** The environment [__init__] selects. *)
Definition environment_of (config : gmap string value) : string :=
  if is_str "true" (default VNone (config !! "sandbox"))
  then "sandbox" else "production".

(** An OAuth endpoint that refuses to issue tokens. *)
Definition refusing : oauth_call -> unit -> api_response * unit :=
  fun c _ =>
    match c with
    | RetrieveTokenStatus _ _ => (reply_error 401 (VStr "expired"), tt)
    | ObtainToken _ _ =>
        ({| is_error := true; status_code := 400;
            errors := VList [VDict {[ "code" := VStr "INVALID_GRANT" ]}];
            body := VNone |}, tt)
    end.

(** A process whose config asks for the sandbox with a JSON boolean. *)
Definition boolean_sandbox_run : store unit :=
  {| heap := {[ 0%nat := {[ "refresh_token" := VStr "r0";
                            "client_id" := VStr "id";
                            "client_secret" := VStr "secret";
                            "sandbox" := VBool true ]} ]};
     files := ∅;
     platform := tt;
     calls := [] |}.

(** A process whose config lacks the client secret. *)
Definition incomplete_run : store unit :=
  {| heap := {[ 0%nat := {[ "refresh_token" := VStr "r0";
                            "client_id" := VStr "id" ]} ]};
     files := ∅;
     platform := tt;
     calls := [] |}.

(** A clock one day ahead of [noon]. *)
Definition next_noon (_ : unit) : datetime := noon tt + US_PER_DAY.

(** The search filters of [get_customers], [get_orders] and
    [get_team_members]. *)
Definition customers_query (start_time end_time : value) : value :=
  VDict {[ "filter" :=
             VDict {[ "updated_at" :=
                        VDict {[ "start_at" := start_time;
                                 "end_at" := end_time ]} ]};
           "sort" :=
             VDict {[ "field" := VStr "CREATED_AT"; "order" := VStr "ASC" ]} ]}.

Definition orders_query (start_time : value) : value :=
  VDict {[ "filter" :=
             VDict {[ "date_time_filter" :=
                        VDict {[ "updated_at" :=
                                   VDict {[ "start_at" := start_time ]} ]} ]};
           "sort" :=
             VDict {[ "sort_field" := VStr "UPDATED_AT";
                      "sort_order" := VStr "ASC" ]} ]}.

Definition team_members_query (location_ids : value) : value :=
  VDict {[ "filter" := VDict {[ "location_ids" := location_ids ]} ]}.

(** The request body of a call through the SDK. *)
Definition call_body (c : api_call) : gmap string value :=
  match c with
  | BodyCall _ b => b
  | _ => ∅
  end.

Definition call_endpoint (c : api_call) : string :=
  match c with
  | BodyCall endpoint _ => endpoint
  | WindowCall endpoint _ _ _ _ _ => endpoint
  | HttpGet url _ => url
  end.

End Cases.
Import Cases.

(** * Properties *)

(** ** Generators *)

Module GenFacts.

Section Pull.
Context {W G Y : Type}.
Variable next : G -> W -> step G Y * W.

Lemma pull_S n g w :
  pull next (Datatypes.S n) g w
  = match next g w with
    | (Yield y g', w') =>
        let '(ys, e, w'') := pull next n g' w' in (y :: ys, e, w'')
    | (Stop, w') => ([], Exhausted, w')
    | (Throw e, w') => ([], Failed e, w')
    end.
Proof. reflexivity. Qed.

(** Resuming [n + m] times is resuming [n] times and then [m] times. *)
Lemma pull_add n m : forall g w,
  pull next (n + m) g w
  = match pull next n g w with
    | (ys, Suspended g', w') =>
        let '(zs, e, w'') := pull next m g' w' in ((ys ++ zs)%list, e, w'')
    | other => other
    end.
Proof.
  induction n as [|n IH]; intros g w; simpl.
  - destruct (pull next m g w) as [[zs e] w'']. reflexivity.
  - destruct (next g w) as [[y g'| |e] w']; try reflexivity.
    rewrite IH. destruct (pull next n g' w') as [[ys e] w1].
    destruct e; try reflexivity.
    destruct (pull next m g0 w1) as [[zs e'] w2]. reflexivity.
Qed.

(** A run never yields more pages than it was resumed. *)
Lemma pull_length n : forall g w,
  (length (fst (fst (pull next n g w))) <= n)%nat.
Proof.
  induction n as [|n IH]; intros g w; simpl; [lia|].
  destruct (next g w) as [[y g'| |e] w']; simpl; try lia.
  specialize (IH g' w'). destruct (pull next n g' w') as [[ys e] w1].
  simpl in *. lia.
Qed.

(** If it yielded as many pages as it was resumed, it is suspended. *)
Lemma pull_full n : forall g w ys e w',
  pull next n g w = (ys, e, w') -> length ys = n ->
  exists g', e = Suspended g'.
Proof.
  induction n as [|n IH]; intros g w ys e w'; simpl.
  - intros [= <- <- <-] _. eauto.
  - destruct (next g w) as [[y g'| |ex] w1].
    + destruct (pull next n g' w1) as [[zs e1] w2] eqn:E.
      intros [= <- <- <-] Hl. simpl in Hl.
      eapply IH; eauto.
    + intros [= <- <- <-]. discriminate.
    + intros [= <- <- <-]. discriminate.
Qed.
End Pull.

End GenFacts.

(** ** Retry policy *)

Module RetryFacts.

Section Platform.
Context {S : Type}.
Variable server : api_call -> S -> api_response * S.
Variable http : api_call -> S -> outcome http_response * S.

Lemma on_exception_ret {A} klass giveup budget
    (target : world S -> outcome A * world S) w a w' :
  target w = (Ret a, w') ->
  on_exception klass giveup budget target w = (Ret a, w').
Proof. intros H. destruct budget; simpl; rewrite H; reflexivity. Qed.

Lemma on_exception_other {A} klass giveup budget
    (target : world S -> outcome A * world S) w e w' :
  target w = (Raise e, w') -> klass e = false ->
  on_exception klass giveup budget target w = (Raise e, w').
Proof. intros H K. destruct budget; simpl; rewrite H, K; reflexivity. Qed.

Lemma on_exception_giveup {A} klass giveup budget
    (target : world S -> outcome A * world S) w e w' :
  target w = (Raise e, w') -> giveup e = true ->
  on_exception klass giveup budget target w = (Raise e, w').
Proof.
  intros H K. destruct budget; simpl; rewrite H, K; destruct (klass e);
    reflexivity.
Qed.

Lemma on_exception_retry {A} klass giveup budget
    (target : world S -> outcome A * world S) w e w' :
  target w = (Raise e, w') -> klass e = true -> giveup e = false ->
  on_exception klass giveup (Datatypes.S budget) target w
  = on_exception klass giveup budget target w'.
Proof. intros H K G. simpl. rewrite H, K, G. reflexivity. Qed.

(** The exceptions [_retryable_v2_method] raises carry no response, so
    [should_not_retry] never accepts them. *)
Lemma should_not_retry_RetryableError msg :
  should_not_retry (RetryableError msg) = false.
Proof. reflexivity. Qed.

Lemma classify_ok result :
  is_error result = false -> classify result = Ret result.
Proof. unfold classify. intros ->. reflexivity. Qed.

Lemma v2_ok retries {B} (request_method : B -> api_call) bdy w result s' :
  server (request_method bdy) (srv w) = (result, s') ->
  is_error result = false ->
  _retryable_v2_method server retries request_method bdy w
  = (Ret result, {| srv := s'; sent := sent w ++ [request_method bdy] |}).
Proof.
  intros Hs Hok. unfold _retryable_v2_method.
  apply on_exception_ret.
  unfold _retryable_v2_method_body, sdk_call. rewrite Hs.
  rewrite (classify_ok _ Hok). reflexivity.
Qed.

Lemma py_in_iterable needle msg :
  iterable msg -> py_in needle msg = Ret (contains needle msg).
Proof. destruct msg; simpl; intros H; try contradiction; reflexivity. Qed.

Lemma py_in_not_iterable needle msg :
  ~ iterable msg -> py_in needle msg = Raise TypeError.
Proof. destruct msg; simpl; intros H; try reflexivity; exfalso; auto. Qed.

(** The code's test and the specification's rule agree on every message
    the membership test accepts. *)
Lemma classify_iterable result :
  is_error result = true -> iterable (error_message result) ->
  classify result
  = if spec_retryable result
    then Raise (RetryableError (error_message result))
    else Raise (RuntimeError (error_message result)).
Proof.
  intros He Hi. unfold classify, spec_retryable. rewrite He. cbv zeta.
  rewrite !(py_in_iterable _ _ Hi). simpl.
  unfold is_status_429_or_500. rewrite Z.geb_leb, !orb_assoc. reflexivity.
Qed.

Lemma classify_not_iterable result :
  is_error result = true -> ~ iterable (error_message result) ->
  classify result = Raise TypeError.
Proof.
  intros He Hi. unfold classify. rewrite He. cbv zeta.
  rewrite (py_in_not_iterable _ _ Hi). reflexivity.
Qed.

(** An exception that is not a [RetryableError] ends the call at once:
    one request, no retry. *)
Lemma v2_fatal retries {B} (request_method : B -> api_call) bdy w result s' e :
  server (request_method bdy) (srv w) = (result, s') ->
  classify result = Raise e -> is_RetryableError e = false ->
  _retryable_v2_method server retries request_method bdy w
  = (Raise e, {| srv := s'; sent := sent w ++ [request_method bdy] |}).
Proof.
  intros Hs Hc He. unfold _retryable_v2_method.
  apply on_exception_other; [|exact He].
  unfold _retryable_v2_method_body, sdk_call. rewrite Hs, Hc. reflexivity.
Qed.

(** A [RetryableError] is retried as long as the budget lasts, whatever
    the status of the response was. *)
Lemma v2_retried retries {B} (request_method : B -> api_call) bdy w result s' msg :
  server (request_method bdy) (srv w) = (result, s') ->
  classify result = Raise (RetryableError msg) ->
  _retryable_v2_method server (Datatypes.S retries) request_method bdy w
  = _retryable_v2_method server retries request_method bdy
      {| srv := s'; sent := sent w ++ [request_method bdy] |}.
Proof.
  intros Hs Hc. unfold _retryable_v2_method.
  apply on_exception_retry with (e := RetryableError msg); try reflexivity.
  unfold _retryable_v2_method_body, sdk_call. rewrite Hs, Hc. reflexivity.
Qed.

Lemma v2_budget_spent {B} (request_method : B -> api_call) bdy w result s' msg :
  server (request_method bdy) (srv w) = (result, s') ->
  classify result = Raise (RetryableError msg) ->
  _retryable_v2_method server 0 request_method bdy w
  = (Raise (RetryableError msg),
     {| srv := s'; sent := sent w ++ [request_method bdy] |}).
Proof.
  intros Hs Hc. unfold _retryable_v2_method, on_exception.
  unfold _retryable_v2_method_body, sdk_call. rewrite Hs, Hc. reflexivity.
Qed.

(** On the v2 path a 400 or 401 whose message matches no retryable rule
    fails at once. *)
Lemma v2_client_error_plain retries {B} (request_method : B -> api_call)
    bdy w result s' :
  server (request_method bdy) (srv w) = (result, s') ->
  is_error result = true -> iterable (error_message result) ->
  spec_retryable result = false ->
  _retryable_v2_method server retries request_method bdy w
  = (Raise (RuntimeError (error_message result)),
     {| srv := s'; sent := sent w ++ [request_method bdy] |}).
Proof.
  intros Hs He Hi Hr. eapply v2_fatal; eauto.
  rewrite classify_iterable, Hr by assumption. reflexivity.
Qed.

(** On the v1 path the exception carries the response, so
    [should_not_retry] sees the status: 400 and 401 fail at once. *)
Lemma v1_client_error retries url params w result s' :
  http (HttpGet url params) (srv w) = (Ret result, s') ->
  http_status result = 400 \/ http_status result = 401 ->
  _retryable_v1_method http retries url params w
  = (Raise (HTTPError (http_status result)),
     {| srv := s'; sent := sent w ++ [HttpGet url params] |}).
Proof.
  intros Hs Hst. unfold _retryable_v1_method.
  apply on_exception_giveup.
  - unfold _retryable_v1_method_body, session_get. rewrite Hs. simpl.
    unfold raise_for_status. destruct Hst as [-> | ->]; reflexivity.
  - unfold should_not_retry. simpl. destruct Hst as [-> | ->]; reflexivity.
Qed.

(** Any other error status of the v1 path is retried. *)
Lemma v1_retried retries url params w result s' :
  http (HttpGet url params) (srv w) = (Ret result, s') ->
  400 <= http_status result < 600 ->
  http_status result <> 400 -> http_status result <> 401 ->
  _retryable_v1_method http (Datatypes.S retries) url params w
  = _retryable_v1_method http retries url params
      {| srv := s'; sent := sent w ++ [HttpGet url params] |}.
Proof.
  intros Hs Hr H0 H1. unfold _retryable_v1_method.
  apply on_exception_retry with (e := HTTPError (http_status result)).
  - unfold _retryable_v1_method_body, session_get. rewrite Hs. simpl.
    unfold raise_for_status.
    replace (400 <=? http_status result) with true by (symmetry; apply Z.leb_le; lia).
    replace (http_status result <? 600) with true by (symmetry; apply Z.ltb_lt; lia).
    reflexivity.
  - reflexivity.
  - unfold should_not_retry. simpl.
    apply orb_false_intro; apply Z.eqb_neq; assumption.
Qed.

End Platform.

End RetryFacts.

(** C1, on the v2 path: a 401 whose body is the text [Service Unavailable]
    is not failed at once.  The first attempt raises a [RetryableError],
    which has no [response] attribute, so [should_not_retry] lets it pass
    and the call is issued a second time; its answer is what the method
    returns. *)
Theorem C1_v2_unauthorized_is_retried :
  forall (retries : nat) (request_method : gmap string value -> api_call)
         (bdy : gmap string value),
    _retryable_v2_method (scripted unauthorized_once) (Datatypes.S retries)
      request_method bdy (fresh 0%nat)
    = (Ret (reply_ok {[ "locations" := VList [] ]}),
       {| srv := 2%nat; sent := [request_method bdy; request_method bdy] |}).
Proof.
  intros retries rm bdy.
  rewrite (RetryFacts.v2_retried (scripted unauthorized_once) retries rm bdy
             (fresh 0%nat) (unauthorized_once 0) 1%nat
             (VStr "Service Unavailable")) by reflexivity.
  erewrite RetryFacts.v2_ok by reflexivity. reflexivity.
Qed.

(** C6, at a 503 that comes without a body: the membership test on the
    absent message raises [TypeError] before the status is looked at, so
    the call fails at once instead of being retried. *)
Theorem C6_bodyless_503_not_retried :
  forall (retries : nat) (request_method : gmap string value -> api_call)
         (bdy : gmap string value),
    spec_retryable (gateway_down 0) = true /\
    _retryable_v2_method (scripted gateway_down) retries request_method bdy
      (fresh 0%nat)
    = (Raise TypeError, {| srv := 1%nat; sent := [request_method bdy] |}).
Proof.
  intros retries rm bdy. split; [reflexivity|].
  apply (RetryFacts.v2_fatal (scripted gateway_down) retries rm bdy (fresh 0%nat)
           (gateway_down 0) 1%nat TypeError); reflexivity.
Qed.

(** ** The v2 paginator *)

Module PaginatorFacts.

Section Platform.
Context {S : Type}.
Variable server : api_call -> S -> api_response * S.
Variable retries : nat.
Variable request_method : gmap string value -> api_call.
Variable body_key : string.

Lemma v2_next_stop g (w : world S) :
  truthy (st_cursor g) = false ->
  v2_next server retries request_method body_key g w = (Stop, w).
Proof. unfold v2_next. intros ->. reflexivity. Qed.

Lemma v2_next_page g (w : world S) r s' :
  truthy (st_cursor g) = true ->
  server (request_method (carry (st_body g) (st_cursor g))) (srv w) = (r, s') ->
  is_page r ->
  v2_next server retries request_method body_key g w
  = (Yield (page_of body_key r)
       {| st_cursor := cursor_of r;
          st_body := carry (st_body g) (st_cursor g) |},
     {| srv := s';
        sent := sent w ++ [request_method (carry (st_body g) (st_cursor g))] |}).
Proof.
  intros Ht Hs [Hok [d Hd]]. unfold v2_next. rewrite Ht.
  replace (if negb (is_str INITIAL (st_cursor g))
           then <["cursor" := st_cursor g]> (st_body g) else st_body g)
    with (carry (st_body g) (st_cursor g))
    by (unfold carry; destruct (is_str INITIAL (st_cursor g)); reflexivity).
  rewrite (RetryFacts.v2_ok server retries request_method _ w r s' Hs Hok).
  unfold page_of, records_of, cursor_of. rewrite Hd. reflexivity.
Qed.

End Platform.

(** The run of the paginator against a script of pages. *)
Lemma pull_script retries request_method body_key rs :
  forall r_last responses (k : nat) c b l fuel,
    (forall i, responses (k + i)%nat = script rs r_last i) ->
    Forall (fun r => is_page r /\ truthy (cursor_of r) = true) rs ->
    is_page r_last -> truthy (cursor_of r_last) = false ->
    truthy c = true ->
    (length rs + 1 < fuel)%nat ->
    pull (v2_next (scripted responses) retries request_method body_key) fuel
      {| st_cursor := c; st_body := b |} {| srv := k; sent := l |}
    = (map (page_of body_key) (rs ++ [r_last]), Exhausted,
       {| srv := (k + length rs + 1)%nat;
          sent := l ++ map request_method (bodies b (c :: map cursor_of rs)) |}).
Proof.
  induction rs as [|r rs IH]; intros r_last responses k c b l fuel Hscr Hrs Hl Hlc Hc Hf.
  - destruct fuel as [|[|fuel]]; simpl in Hf; try lia.
    cbn [pull].
    rewrite (v2_next_page (scripted responses) retries request_method body_key
               _ _ r_last (Datatypes.S k)); simpl; auto.
    2:{ unfold scripted. f_equal. rewrite <- (Nat.add_0_r k) at 1. rewrite Hscr.
        reflexivity. }
    rewrite v2_next_stop by exact Hlc.
    repeat f_equal. lia.
  - destruct fuel as [|fuel]; simpl in Hf; try lia.
    inversion Hrs as [|? ? [Hp Ht] Hrs']; subst.
    cbn [pull].
    rewrite (v2_next_page (scripted responses) retries request_method body_key
               _ _ r (Datatypes.S k)); simpl; auto.
    2:{ unfold scripted. f_equal. rewrite <- (Nat.add_0_r k) at 1. rewrite Hscr.
        reflexivity. }
    rewrite (IH r_last responses (Datatypes.S k) (cursor_of r) (carry b c)
               (l ++ [request_method (carry b c)])%list fuel); auto; try lia.
    2:{ intros i. replace (Datatypes.S k + i)%nat with (k + Datatypes.S i)%nat by lia.
        rewrite Hscr. reflexivity. }
    simpl. rewrite <- app_assoc. simpl.
    repeat f_equal. lia.
Qed.

Lemma is_str_false s v : is_str s v = false -> v <> VStr s.
Proof.
  intros H ->. simpl in H. rewrite String.eqb_refl in H. discriminate.
Qed.

(** The paginator writes a cursor into the body only when it is not the
    sentinel. *)
Lemma carry_no_sentinel b c :
  b !! "cursor" <> Some (VStr INITIAL) ->
  carry b c !! "cursor" <> Some (VStr INITIAL).
Proof.
  intros Hb. unfold carry. destruct (is_str INITIAL c) eqn:Hc; [exact Hb|].
  rewrite lookup_insert_eq. intros [= ->].
  apply is_str_false in Hc. congruence.
Qed.

Lemma bodies_no_sentinel cs :
  forall b, b !! "cursor" <> Some (VStr INITIAL) ->
    Forall (fun b' => b' !! "cursor" <> Some (VStr INITIAL)) (bodies b cs).
Proof.
  induction cs as [|c cs IH]; intros b Hb; simpl; constructor.
  - apply carry_no_sentinel, Hb.
  - apply IH, carry_no_sentinel, Hb.
Qed.

Lemma bodies_length b cs : length (bodies b cs) = length cs.
Proof. revert b. induction cs; intros; simpl; auto. Qed.

End PaginatorFacts.




(** ** Resuming from a yielded cursor *)

Module ResumeFacts.

Lemma classify_ret r r' : classify r = Ret r' -> r' = r.
Proof.
  unfold classify. destruct (is_error r); [|congruence].
  destruct (py_in _ _) as [a|]; simpl; [|discriminate].
  destruct (py_in _ _) as [b|]; simpl; [|discriminate].
  destruct (py_in _ _) as [c|]; simpl; [|discriminate].
  destruct (_ || _); discriminate.
Qed.

Lemma is_str_neq s v : v <> VStr s -> is_str s v = false.
Proof.
  intros H. destruct v; try reflexivity. simpl.
  apply String.eqb_neq. congruence.
Qed.

Lemma py_get_cursor r c :
  py_get (body r) "cursor" VNone = Ret c -> c = cursor_of r.
Proof.
  unfold py_get, cursor_of. destruct (body r); try discriminate. congruence.
Qed.

Lemma delete_carry b c : delete "cursor" (carry b c) = delete "cursor" b.
Proof.
  unfold carry. destruct (is_str INITIAL c); [reflexivity|].
  apply delete_insert_eq.
Qed.

Lemma insert_via_delete (b b' : gmap string value) c :
  delete "cursor" b = delete "cursor" b' ->
  <["cursor" := c]> b = <["cursor" := c]> b'.
Proof.
  intros H. rewrite <- (insert_delete_eq b), <- (insert_delete_eq b'), H.
  reflexivity.
Qed.

Section Unchanging.
Context {S : Type}.
Variable server : api_call -> S -> api_response * S.
Variable clock : S -> datetime.
Variable answer : api_call -> api_response.
Hypothesis Hsame : unchanging server answer.
Hypothesis Hsent : no_sentinel answer.

(** Against an unchanging platform every attempt is classified alike, so
    the retry loop ends with that classification. *)
Lemma retry_pure retries {B} (request_method : B -> api_call) bdy :
  forall w,
    fst (_retryable_v2_method server retries request_method bdy w)
    = classify (answer (forget_end_time (request_method bdy))).
Proof.
  unfold _retryable_v2_method.
  induction retries as [|n IH]; intros w; simpl;
    unfold _retryable_v2_method_body, sdk_call;
    pose proof (Hsame (request_method bdy) (srv w)) as Ha;
    destruct (server (request_method bdy) (srv w)) as [r s']; simpl in Ha;
    subst r;
    destruct (classify (answer (forget_end_time (request_method bdy))))
      as [r|e] eqn:Hc; try reflexivity;
    destruct (is_RetryableError e); try reflexivity;
    destruct (should_not_retry e); try reflexivity.
  rewrite IH. reflexivity.
Qed.

Section V2.
Variable retries : nat.
Variable request_method : gmap string value -> api_call.
Variable body_key : string.

Local Abbreviation next :=
  (v2_next server retries request_method body_key).

(** Two loop states with the same cursor that send the same body take
    the same step. *)
Lemma v2_next_equiv g g' w w' :
  st_cursor g = st_cursor g' ->
  carry (st_body g) (st_cursor g) = carry (st_body g') (st_cursor g') ->
  fst (next g w) = fst (next g' w').
Proof.
  intros Hc Hb. unfold v2_next. rewrite <- Hc.
  destruct (truthy (st_cursor g)); [|reflexivity].
  replace (if negb (is_str INITIAL (st_cursor g))
           then <["cursor" := st_cursor g]> (st_body g) else st_body g)
    with (carry (st_body g) (st_cursor g))
    by (unfold carry; destruct (is_str INITIAL (st_cursor g)); reflexivity).
  replace (if negb (is_str INITIAL (st_cursor g))
           then <["cursor" := st_cursor g]> (st_body g') else st_body g')
    with (carry (st_body g') (st_cursor g))
    by (unfold carry; destruct (is_str INITIAL (st_cursor g)); reflexivity).
  rewrite <- Hc in Hb. rewrite <- Hb.
  pose proof (retry_pure retries request_method
                (carry (st_body g) (st_cursor g)) w) as E1.
  pose proof (retry_pure retries request_method
                (carry (st_body g) (st_cursor g)) w') as E2.
  destruct (_retryable_v2_method _ _ _ _ w) as [o1 w1].
  destruct (_retryable_v2_method _ _ _ _ w') as [o2 w2].
  simpl in E1, E2. rewrite E1, E2.
  destruct (classify _) as [r|e]; [|reflexivity].
  destruct (py_get (body r) "cursor" VNone); [|reflexivity].
  destruct (py_get (body r) body_key (VList [])); reflexivity.
Qed.

Lemma v2_pull_equiv fuel : forall g g' w w',
  st_cursor g = st_cursor g' ->
  carry (st_body g) (st_cursor g) = carry (st_body g') (st_cursor g') ->
  fst (fst (pull next fuel g w)) = fst (fst (pull next fuel g' w'))
  /\ ending_kind (snd (fst (pull next fuel g w)))
     = ending_kind (snd (fst (pull next fuel g' w'))).
Proof.
  induction fuel as [|n IH]; intros g g' w w' Hc Hb; simpl; [auto|].
  pose proof (v2_next_equiv g g' w w' Hc Hb) as E.
  destruct (next g w) as [st1 w1]. destruct (next g' w') as [st2 w2].
  simpl in E. subst st2.
  destruct st1 as [y g1| |e]; simpl; auto.
  specialize (IH g1 g1 w1 w2 eq_refl eq_refl).
  destruct (pull next n g1 w1) as [[ys e1] w3].
  destruct (pull next n g1 w2) as [[zs e2] w4].
  simpl in *. destruct IH as [-> ->]. auto.
Qed.

(** What a yield leaves behind. *)
Lemma v2_next_yield g w y g1 w1 :
  next g w = (Yield y g1, w1) ->
  st_cursor g1 = snd y
  /\ delete "cursor" (st_body g1) = delete "cursor" (st_body g)
  /\ snd y <> VStr INITIAL.
Proof.
  unfold v2_next. destruct (truthy (st_cursor g)); [|discriminate].
  match goal with
  | |- context [_retryable_v2_method _ _ _ ?b _] =>
      pose proof (retry_pure retries request_method b w) as E;
      assert (Hd : delete "cursor" b = delete "cursor" (st_body g))
  end.
  { destruct (negb _); [apply delete_insert_eq | reflexivity]. }
  destruct (_retryable_v2_method _ _ _ _ w) as [o w'].
  simpl in E. subst o.
  destruct (classify _) as [r|e] eqn:Hc; [|discriminate].
  apply classify_ret in Hc. subst r.
  destruct (py_get _ "cursor" VNone) as [c|] eqn:Hg; [|discriminate].
  apply py_get_cursor in Hg.
  destruct (py_get _ body_key _); [|discriminate].
  intros [= <- <- <-]. simpl. repeat split; auto.
  subst c. apply Hsent.
Qed.

Lemma v2_pull_last k : forall g w ys e w' y,
  pull next (Datatypes.S k) g w = (ys, e, w') ->
  ys !! k = Some y ->
  exists g', e = Suspended g'
    /\ st_cursor g' = snd y
    /\ delete "cursor" (st_body g') = delete "cursor" (st_body g)
    /\ snd y <> VStr INITIAL.
Proof.
  induction k as [|k IH]; intros g w ys e w' y; rewrite GenFacts.pull_S.
  - destruct (next g w) as [[y1 g1| |ex] w1] eqn:E; simpl;
      intros [= <- <- <-]; try discriminate.
    intros [= <-]. exists g1. split; [reflexivity|].
    eapply v2_next_yield; eauto.
  - destruct (next g w) as [[y1 g1| |ex] w1] eqn:E;
      try (intros [= <- <- <-]; discriminate).
    destruct (pull next (Datatypes.S k) g1 w1) as [[zs e1] w2] eqn:E1.
    intros [= <- <- <-] Hy. simpl in Hy.
    destruct (IH _ _ _ _ _ _ E1 Hy) as (g' & He & Hc & Hb & Hn).
    exists g'. repeat split; auto.
    rewrite Hb. eapply v2_next_yield; eauto.
Qed.

(** Resuming the paginator with the cursor of a yielded batch written
    into the body gives the batches that followed it. *)
Lemma v2_resume (body0 : gmap string value) k m w1 w2 y :
  fst (fst (_get_v2_objects server retries request_method body0 body_key
              (Datatypes.S k) w1)) !! k = Some y ->
  let first :=
    _get_v2_objects server retries request_method body0 body_key
      (Datatypes.S k) w1 in
  let whole :=
    _get_v2_objects server retries request_method body0 body_key
      (Datatypes.S k + m) w1 in
  let resumed :=
    _get_v2_objects server retries request_method
      (<["cursor" := snd y]> body0) body_key m w2 in
  fst (fst whole) = (fst (fst first) ++ fst (fst resumed))%list
  /\ ending_kind (snd (fst whole)) = ending_kind (snd (fst resumed)).
Proof.
  unfold _get_v2_objects. intros Hy. cbv zeta.
  rewrite (GenFacts.pull_add next (Datatypes.S k) m).
  destruct (pull next (Datatypes.S k) (v2_start body0) w1)
    as [[ys e] w'] eqn:E.
  simpl in Hy.
  destruct (v2_pull_last k _ _ _ _ _ _ E Hy) as (g' & -> & Hc & Hb & Hn).
  pose proof (v2_pull_equiv m g' (v2_start (<["cursor" := snd y]> body0))
                w' w2) as Heq.
  destruct (pull next m g' w') as [[zs e'] w''].
  destruct (pull next m _ w2) as [[zs2 e2] w3].
  simpl in *. rewrite lookup_insert_eq in Heq. simpl in Heq.
  destruct Heq as [-> ->]; auto.
  rewrite Hc. unfold carry. rewrite (is_str_neq _ _ Hn).
  rewrite insert_insert_eq. apply insert_via_delete. exact Hb.
Qed.
End V2.

Section Window.
Variable retries : nat.
Variables endpoint records_key : string.
Variable limit : Z.
Variables location_id start_time : string.

Local Abbreviation wnext bookmarked_cursor :=
  (window_next server clock retries endpoint records_key limit
     location_id start_time bookmarked_cursor).

(** At the head of the loop with a cursor that is not the sentinel,
    neither the bookmark of the run nor its upper time bound matters
    to the page that comes next. *)
Lemma window_step_equiv c bc1 bc2 et1 et2 w1 w2 :
  c <> VStr INITIAL ->
  match fst (wnext bc1 (WLoop c et1) w1), fst (wnext bc2 (WLoop c et2) w2) with
  | Yield y1 g1, Yield y2 g2 =>
      y1 = y2 /\ g1 = WLoop (snd y1) et1 /\ g2 = WLoop (snd y1) et2
      /\ snd y1 <> VStr INITIAL
  | Stop, Stop => True
  | Throw e1, Throw e2 => e1 = e2
  | _, _ => False
  end.
Proof.
  intros Hc. unfold window_next, window_loop.
  destruct (truthy c); [|exact I].
  rewrite (is_str_neq _ _ Hc).
  match goal with
  | |- context [_retryable_v2_method _ _ ?f VNone w1] =>
      pose proof (retry_pure retries f VNone w1) as E1
  end.
  match goal with
  | |- context [_retryable_v2_method _ _ ?f VNone w2] =>
      pose proof (retry_pure retries f VNone w2) as E2
  end.
  simpl forget_end_time in E1, E2.
  destruct (_retryable_v2_method _ _ _ _ w1) as [o1 w1'].
  destruct (_retryable_v2_method _ _ _ _ w2) as [o2 w2'].
  simpl in E1, E2. rewrite E1, E2.
  destruct (classify _) as [r|e] eqn:Hr; [|reflexivity].
  apply classify_ret in Hr.
  destruct (py_get (body r) records_key (VList [])); [|reflexivity].
  destruct (py_get (body r) "cursor" VNone) as [nc|] eqn:Hg; [|reflexivity].
  apply py_get_cursor in Hg. simpl. repeat split.
  subst nc r. apply Hsent.
Qed.

Lemma window_pull_equiv fuel : forall c bc1 bc2 et1 et2 w1 w2,
  c <> VStr INITIAL ->
  fst (fst (pull (wnext bc1) fuel (WLoop c et1) w1))
  = fst (fst (pull (wnext bc2) fuel (WLoop c et2) w2))
  /\ ending_kind (snd (fst (pull (wnext bc1) fuel (WLoop c et1) w1)))
     = ending_kind (snd (fst (pull (wnext bc2) fuel (WLoop c et2) w2))).
Proof.
  induction fuel as [|n IH]; intros c bc1 bc2 et1 et2 w1 w2 Hc;
    [simpl; auto|].
  rewrite !GenFacts.pull_S.
  pose proof (window_step_equiv c bc1 bc2 et1 et2 w1 w2 Hc) as Hstep.
  destruct (wnext bc1 (WLoop c et1) w1) as [[y1 g1| |ex1] w1'];
    destruct (wnext bc2 (WLoop c et2) w2) as [[y2 g2| |ex2] w2'];
    simpl in Hstep; try contradiction; [| simpl; auto | subst; simpl; auto].
  destruct Hstep as (<- & -> & -> & Hn).
  specialize (IH (snd y1) bc1 bc2 et1 et2 w1' w2' Hn).
  destruct (pull (wnext bc1) n (WLoop (snd y1) et1) w1') as [[ys e1] w3].
  destruct (pull (wnext bc2) n (WLoop (snd y1) et2) w2') as [[zs e2] w4].
  cbn [fst snd] in *. destruct IH as [IH1 IH2]. rewrite IH1. auto.
Qed.

Lemma window_loop_yield bc c et w y g1 w1 :
  window_loop server retries endpoint records_key limit location_id
    start_time bc c et w = (Yield y g1, w1) ->
  g1 = WLoop (snd y) et /\ snd y <> VStr INITIAL.
Proof.
  unfold window_loop. destruct (truthy c); [|discriminate].
  match goal with
  | |- context [_retryable_v2_method _ _ ?f VNone w] =>
      pose proof (retry_pure retries f VNone w) as E
  end.
  destruct (_retryable_v2_method _ _ _ _ w) as [o w'].
  simpl in E. subst o.
  destruct (classify _) as [r|e] eqn:Hr; [|discriminate].
  apply classify_ret in Hr.
  destruct (py_get (body r) records_key (VList [])); [|discriminate].
  destruct (py_get (body r) "cursor" VNone) as [nc|] eqn:Hg; [|discriminate].
  apply py_get_cursor in Hg.
  intros [= <- <- <-]. simpl. split; [reflexivity|].
  subst nc r. apply Hsent.
Qed.

Lemma window_next_yield bc g w y g1 w1 :
  wnext bc g w = (Yield y g1, w1) ->
  exists et, g1 = WLoop (snd y) et /\ snd y <> VStr INITIAL.
Proof.
  unfold window_next. destruct g; intros H;
    apply window_loop_yield in H; destruct H; eauto.
Qed.

Lemma window_pull_last bc k : forall g w ys e w' y,
  pull (wnext bc) (Datatypes.S k) g w = (ys, e, w') ->
  ys !! k = Some y ->
  exists et, e = Suspended (WLoop (snd y) et) /\ snd y <> VStr INITIAL.
Proof.
  induction k as [|k IH]; intros g w ys e w' y; rewrite GenFacts.pull_S.
  - destruct (wnext bc g w) as [[y1 g1| |ex] w1] eqn:E; simpl;
      intros [= <- <- <-]; try discriminate.
    intros [= <-]. apply window_next_yield in E.
    destruct E as (et & -> & Hn). eauto.
  - destruct (wnext bc g w) as [[y1 g1| |ex] w1] eqn:E;
      try (intros [= <- <- <-]; discriminate).
    destruct (pull (wnext bc) (Datatypes.S k) g1 w1) as [[zs e1] w2] eqn:E1.
    intros [= <- <- <-] Hy. simpl in Hy.
    eapply IH; eauto.
Qed.

(** A run that starts from a non-empty bookmark starts at the head of
    the loop with that cursor. *)
Lemma window_start c fuel w :
  truthy c = true ->
  exists et,
    fst (pull (wnext c) fuel WNew w) = fst (pull (wnext c) fuel (WLoop c et) w)
    \/ fuel = 0%nat.
Proof.
  intros Hc. exists (strftime_DATETIME_PARSE (now clock w)).
  destruct fuel as [|n]; [right; reflexivity|left].
  rewrite !GenFacts.pull_S. unfold window_next. rewrite Hc. reflexivity.
Qed.

(** Resuming a windowed listing with the cursor of a yielded batch
    gives the batches that followed it. *)
Lemma window_resume bc k m w1 w2 y :
  fst (fst (pull (wnext bc) (Datatypes.S k) WNew w1)) !! k = Some y ->
  truthy (snd y) = true ->
  let first := pull (wnext bc) (Datatypes.S k) WNew w1 in
  let whole := pull (wnext bc) (Datatypes.S k + m) WNew w1 in
  let resumed := pull (wnext (snd y)) m WNew w2 in
  fst (fst whole) = (fst (fst first) ++ fst (fst resumed))%list
  /\ ending_kind (snd (fst whole)) = ending_kind (snd (fst resumed)).
Proof.
  intros Hy Ht. cbv zeta.
  rewrite (GenFacts.pull_add (wnext bc) (Datatypes.S k) m).
  destruct (pull (wnext bc) (Datatypes.S k) WNew w1) as [[ys e] w'] eqn:E.
  simpl in Hy.
  destruct (window_pull_last bc k _ _ _ _ _ _ E Hy) as (et & -> & Hn).
  destruct (window_start (snd y) m w2 Ht) as [et2 [Hs | ->]].
  - rewrite Hs.
    pose proof (window_pull_equiv m (snd y) bc (snd y) et et2 w' w2 Hn) as Heq.
    destruct (pull (wnext bc) m (WLoop (snd y) et) w') as [[zs e'] w''].
    destruct (pull (wnext (snd y)) m (WLoop (snd y) et2) w2) as [[zs2 e2] w3].
    simpl in *. destruct Heq as [-> ->]. auto.
  - simpl. rewrite app_nil_r. auto.
Qed.
End Window.

End Unchanging.

End ResumeFacts.

(** ** What a run sends *)

Module TraceFacts.

Lemma Forall_repeat {A} (P : A -> Prop) x n : P x -> Forall P (repeat x n).
Proof. intros H. induction n; simpl; constructor; auto. Qed.

Section Platform.
Context {S : Type}.
Variable server : api_call -> S -> api_response * S.
Variable clock : S -> datetime.
Variable retries : nat.

(** A retried call is the same call, sent again. *)
Lemma retry_sent {B} (request_method : B -> api_call) bdy :
  forall budget w,
    exists n,
      sent (snd (on_exception is_RetryableError should_not_retry budget
                   (_retryable_v2_method_body server request_method bdy) w))
      = (sent w ++ repeat (request_method bdy) (Datatypes.S n))%list.
Proof.
  induction budget as [|b IH]; intros w; simpl;
    unfold _retryable_v2_method_body at 1; unfold sdk_call;
    destruct (server (request_method bdy) (srv w)) as [r s'];
    destruct (classify r) as [r'|e];
    try (exists 0%nat; reflexivity);
    destruct (is_RetryableError e); try (exists 0%nat; reflexivity);
    destruct (should_not_retry e); try (exists 0%nat; reflexivity).
  destruct (IH {| srv := s'; sent := sent w ++ [request_method bdy] |})
    as [n Hn].
  exists (Datatypes.S n). rewrite Hn. simpl. rewrite <- app_assoc.
  reflexivity.
Qed.

Lemma v2_method_sent {B} (request_method : B -> api_call) bdy w :
  exists n,
    sent (snd (_retryable_v2_method server retries request_method bdy w))
    = (sent w ++ repeat (request_method bdy) (Datatypes.S n))%list.
Proof. apply retry_sent. Qed.

Section V2.
Variable request_method : gmap string value -> api_call.
Variable body_key : string.
(** A property of the body that writing a cursor does not disturb. *)
Variable Q : gmap string value -> Prop.
Hypothesis Q_cursor : forall b c, Q b -> Q (<["cursor" := c]> b).

Lemma v2_pull_sent fuel : forall g w,
  Q (st_body g) ->
  exists more,
    sent (snd (pull (v2_next server retries request_method body_key)
                 fuel g w))
    = (sent w ++ more)%list
    /\ Forall (fun c => exists b, c = request_method b /\ Q b) more.
Proof.
  induction fuel as [|n IH]; intros g w HQ.
  - exists []. simpl. rewrite app_nil_r. auto.
  - rewrite GenFacts.pull_S. unfold v2_next at 1.
    destruct (truthy (st_cursor g));
      [|exists []; simpl; rewrite app_nil_r; auto].
    set (b := if negb (is_str INITIAL (st_cursor g))
              then <["cursor" := st_cursor g]> (st_body g) else st_body g).
    assert (HQb : Q b) by (subst b; destruct (negb _); auto).
    destruct (v2_method_sent request_method b w) as [k Hk].
    assert (Hall : Forall (fun c => exists b, c = request_method b /\ Q b)
                     (repeat (request_method b) (Datatypes.S k))).
    { apply Forall_repeat. eauto. }
    destruct (_retryable_v2_method server retries request_method b w)
      as [[result|e] w1]; simpl in Hk;
      [|exists (repeat (request_method b) (Datatypes.S k)); simpl; auto].
    destruct (py_get (body result) "cursor" VNone) as [c|];
      [|exists (repeat (request_method b) (Datatypes.S k)); simpl; auto].
    destruct (py_get (body result) body_key (VList [])) as [records|];
      [|exists (repeat (request_method b) (Datatypes.S k)); simpl; auto].
    destruct (IH {| st_cursor := c; st_body := b |} w1 HQb)
      as (more & Hm & Hf).
    destruct (pull _ n _ w1) as [[ys e] w2]. simpl in *.
    exists (repeat (request_method b) (Datatypes.S k) ++ more)%list.
    split; [rewrite Hm, Hk, <- app_assoc; reflexivity|].
    apply Forall_app; auto.
Qed.
End V2.

(** A run that is resumed at least once from a non-empty cursor opens
    with the call for the body that carries it. *)
Lemma v2_pull_first (request_method : gmap string value -> api_call)
    body_key n g w :
  truthy (st_cursor g) = true ->
  exists more,
    sent (snd (pull (v2_next server retries request_method body_key)
                 (Datatypes.S n) g w))
    = (sent w ++ request_method (carry (st_body g) (st_cursor g)) :: more)%list.
Proof.
  intros Ht. rewrite GenFacts.pull_S. unfold v2_next at 1. rewrite Ht.
  replace (if negb (is_str INITIAL (st_cursor g))
           then <["cursor" := st_cursor g]> (st_body g) else st_body g)
    with (carry (st_body g) (st_cursor g))
    by (unfold carry; destruct (is_str INITIAL (st_cursor g)); reflexivity).
  set (b := carry (st_body g) (st_cursor g)).
  destruct (v2_method_sent request_method b w) as [k Hk].
  destruct (_retryable_v2_method server retries request_method b w)
    as [[result|e] w1]; simpl in Hk; [|eexists; simpl; exact Hk].
  destruct (py_get (body result) "cursor" VNone) as [c|];
    [|eexists; simpl; exact Hk].
  destruct (py_get (body result) body_key (VList [])) as [records|];
    [|eexists; simpl; exact Hk].
  destruct (v2_pull_sent request_method body_key (fun _ => True)
              (fun _ _ _ => I) n {| st_cursor := c; st_body := b |} w1 I)
    as (more & Hm & _).
  destruct (pull _ n _ w1) as [[ys e] w2]. simpl in *.
  eexists. rewrite Hm, Hk, <- app_assoc. simpl. reflexivity.
Qed.

Section Window.
Variables endpoint records_key : string.
Variable limit : Z.
Variables location_id start_time : string.
Variable bookmarked_cursor : value.

Local Abbreviation wnext :=
  (window_next server clock retries endpoint records_key limit
     location_id start_time bookmarked_cursor).

(** Every call of a run that is at the head of its loop carries the
    [end_time] the run holds. *)
Lemma window_pull_sent fuel : forall c end_time w,
  exists more,
    sent (snd (pull wnext fuel (WLoop c end_time) w)) = (sent w ++ more)%list
    /\ Forall (fun call => exists cur,
                 call = WindowCall endpoint location_id start_time
                          end_time cur limit) more.
Proof.
  induction fuel as [|n IH]; intros c et w.
  - exists []. simpl. rewrite app_nil_r. auto.
  - rewrite GenFacts.pull_S. unfold window_next at 1, window_loop.
    destruct (truthy c); [|exists []; simpl; rewrite app_nil_r; auto].
    set (cur := if is_str INITIAL c then bookmarked_cursor else c).
    set (f := fun _ : value =>
                WindowCall endpoint location_id start_time et cur limit).
    destruct (v2_method_sent f VNone w) as [k Hk].
    assert (Hall : Forall (fun call => exists cur,
                       call = WindowCall endpoint location_id start_time
                                et cur limit)
                     (repeat (f VNone) (Datatypes.S k))).
    { apply Forall_repeat. unfold f. eauto. }
    destruct (_retryable_v2_method server retries f VNone w)
      as [[result|e] w1]; simpl in Hk;
      [|exists (repeat (f VNone) (Datatypes.S k)); simpl; auto].
    destruct (py_get (body result) records_key (VList [])) as [records|];
      [|exists (repeat (f VNone) (Datatypes.S k)); simpl; auto].
    destruct (py_get (body result) "cursor" VNone) as [nc|];
      [|exists (repeat (f VNone) (Datatypes.S k)); simpl; auto].
    destruct (IH nc et w1) as (more & Hm & Hf).
    destruct (pull _ n _ w1) as [[ys e] w2]. simpl in *.
    exists (repeat (f VNone) (Datatypes.S k) ++ more)%list.
    split; [rewrite Hm, Hk, <- app_assoc; reflexivity|].
    apply Forall_app; auto.
Qed.

(** The first resumption reads the clock, enters the loop, and the run
    keeps what it read. *)
Lemma window_run_sent fuel w :
  exists more,
    sent (snd (pull wnext fuel WNew w)) = (sent w ++ more)%list
    /\ Forall (fun call => exists cur,
                 call = WindowCall endpoint location_id start_time
                          (strftime_DATETIME_PARSE (now clock w)) cur limit)
         more.
Proof.
  destruct fuel as [|n].
  - exists []. simpl. rewrite app_nil_r. auto.
  - pose proof (window_pull_sent (Datatypes.S n)
                  (if truthy bookmarked_cursor then bookmarked_cursor
                   else VStr INITIAL)
                  (strftime_DATETIME_PARSE (now clock w)) w) as H.
    rewrite GenFacts.pull_S in H |- *. exact H.
Qed.

(** A run resumed from a bookmark that is neither empty nor the
    sentinel opens with the call that carries the bookmark. *)
Lemma window_first_call fuel w :
  truthy bookmarked_cursor = true ->
  bookmarked_cursor <> VStr INITIAL ->
  exists more,
    sent (snd (pull wnext (Datatypes.S fuel) WNew w))
    = (sent w
       ++ WindowCall endpoint location_id start_time
            (strftime_DATETIME_PARSE (now clock w)) bookmarked_cursor limit
       :: more)%list.
Proof.
  intros Ht Hn. rewrite GenFacts.pull_S.
  unfold window_next at 1, window_loop. rewrite Ht, Ht.
  rewrite (ResumeFacts.is_str_neq _ _ Hn).
  match goal with
  | |- context [_retryable_v2_method _ _ ?f VNone w] =>
      destruct (v2_method_sent f VNone w) as [k Hk];
      destruct (_retryable_v2_method server retries f VNone w)
        as [[result|e] w1]
  end; simpl in Hk; [|eexists; simpl; exact Hk].
  destruct (py_get (body result) records_key (VList [])) as [records|];
    [|eexists; simpl; exact Hk].
  destruct (py_get (body result) "cursor" VNone) as [nc|];
    [|eexists; simpl; exact Hk].
  destruct (window_pull_sent fuel nc
              (strftime_DATETIME_PARSE (now clock w)) w1) as (more & Hm & _).
  destruct (pull _ fuel _ w1) as [[ys e] w2]. simpl in *.
  eexists. rewrite Hm, Hk, <- app_assoc. simpl. reflexivity.
Qed.
End Window.

End Platform.

End TraceFacts.


Lemma two_pages_unchanging : unchanging (stateless two_pages) two_pages.
Proof. intros c s. destruct c; reflexivity. Qed.

Lemma two_pages_no_sentinel : no_sentinel two_pages.
Proof.
  intros c. unfold two_pages. destruct (has_cursor "c1" c); discriminate.
Qed.



(** C8.  Whatever the platform answers and however its clock moves while
    the run lasts, every call that [get_payments],
    [get_cash_drawer_shifts] and [get_payouts] send in one run carries as
    [end_time] the text of the clock as it stood when the run began. *)
Theorem C8_end_time_fixed_for_run :
  forall (S : Type) (server : api_call -> S -> api_response * S)
         (clock : S -> datetime) (retries : nat)
         (location_id start_time : string) (bookmarked_cursor : value)
         (fuel : nat) (w : world S),
    let end_time := strftime_DATETIME_PARSE (now clock w) in
    (exists more,
        sent (snd (get_payments server clock retries location_id start_time
                     bookmarked_cursor fuel w)) = (sent w ++ more)%list
        /\ Forall (fun call => exists cur,
                     call = WindowCall "payments.list_payments" location_id
                              start_time end_time cur 100) more)
    /\ (exists more,
        sent (snd (get_cash_drawer_shifts server clock retries location_id
                     start_time bookmarked_cursor fuel w)) = (sent w ++ more)%list
        /\ Forall (fun call => exists cur,
                     call = WindowCall "cash_drawers.list_cash_drawer_shifts"
                              location_id start_time end_time cur 1000) more)
    /\ (exists more,
        sent (snd (get_payouts server clock retries location_id start_time
                     bookmarked_cursor fuel w)) = (sent w ++ more)%list
        /\ Forall (fun call => exists cur,
                     call = WindowCall "payouts.list_payouts" location_id
                              start_time end_time cur 100) more).
Proof.
  intros. repeat split; apply TraceFacts.window_run_sent.
Qed.

(** While the two requests of this run are served the clock moves from
    12:00 to 14:00; both carry 12:00. *)
Example end_time_under_a_moving_clock :
  let '(pages, e, w) :=
    get_payments counting hourly 2 "L1" "2023-01-01T00:00:00Z" VNone 3
      (fresh 0%nat) in
  map call_end_time (sent w)
  = [Some "2023-06-02T12:00:00Z"; Some "2023-06-02T12:00:00Z"]
  /\ strftime_DATETIME_PARSE (now hourly w) = "2023-06-02T14:00:00Z"
  /\ e = Exhausted.
Proof. vm_compute. repeat split; reflexivity. Qed.

(** ** Timestamps *)

Module DateFacts.

Lemma digit_value_range c v : digit_value c = Some v -> 0 <= v <= 9.
Proof.
  unfold digit_value.
  destruct ((48 <=? Z.of_nat (nat_of_ascii c))
            && (Z.of_nat (nat_of_ascii c) <=? 57)) eqn:E; [|discriminate].
  intros [= <-]. apply andb_true_iff in E. destruct E as [E1 E2].
  apply Z.leb_le in E1, E2. lia.
Qed.

Lemma read_digits_range n : forall acc s v s',
  read_digits n acc s = Some (v, s') ->
  acc * 10 ^ Z.of_nat n <= v < (acc + 1) * 10 ^ Z.of_nat n.
Proof.
  induction n as [|n IH]; intros acc s v s'.
  - simpl. intros [= <- <-]. lia.
  - cbn [read_digits]. destruct s as [|c rest]; [discriminate|].
    destruct (digit_value c) as [d|] eqn:Hd; [|discriminate].
    intros H. apply IH in H. apply digit_value_range in Hd.
    rewrite Nat2Z.inj_succ, Z.pow_succ_r by lia.
    assert (0 < 10 ^ Z.of_nat n) by (apply Z.pow_pos_nonneg; lia).
    nia.
Qed.

Lemma read_fraction_range n : forall acc s us s',
  read_fraction n acc s = (us, s') ->
  acc <= us < acc + 10 ^ Z.of_nat n.
Proof.
  induction n as [|n IH]; intros acc s us s'.
  - simpl. intros [= <- <-]. lia.
  - cbn [read_fraction].
    assert (0 < 10 ^ Z.of_nat n) by (apply Z.pow_pos_nonneg; lia).
    rewrite Nat2Z.inj_succ, Z.pow_succ_r by lia.
    destruct s as [|c rest]; [intros [= <- <-]; lia|].
    destruct (digit_value c) as [d|] eqn:Hd; [|intros [= <- <-]; lia].
    intros H'. apply IH in H'. apply digit_value_range in Hd. nia.
Qed.

(** The day of the year of a valid date. *)
Lemma day_of_year_range y m d :
  1 <= m <= 12 -> 1 <= d <= _days_in_month y m ->
  1 <= _days_before_month y m + d <= (if _is_leap y then 366 else 365).
Proof.
  intros Hm Hd. unfold _days_before_month, _days_in_month in *.
  assert (m = 1 \/ m = 2 \/ m = 3 \/ m = 4 \/ m = 5 \/ m = 6 \/ m = 7
          \/ m = 8 \/ m = 9 \/ m = 10 \/ m = 11 \/ m = 12) as Hc by lia.
  destruct (_is_leap y);
    repeat (destruct Hc as [-> | Hc]); try subst m; simpl in *; lia.
Qed.

Lemma ymd2ord_range y m d :
  1 <= y <= 9999 -> 1 <= m <= 12 -> 1 <= d <= _days_in_month y m ->
  1 <= _ymd2ord y m d <= MAXORDINAL.
Proof.
  intros Hy Hm Hd. pose proof (day_of_year_range y m d Hm Hd) as Hdoy.
  unfold _ymd2ord, MAXORDINAL, _days_before_year.
  assert (y = 9999 \/ y <= 9998) as [-> | Hy'] by lia.
  - change (_is_leap 9999) with false in Hdoy. cbv iota in Hdoy.
    change ((9999 - 1) * 365 + (9999 - 1) / 4 - (9999 - 1) / 100
            + (9999 - 1) / 400) with 3651694.
    lia.
  - assert ((if _is_leap y then 366 else 365) <= 366)
      by (destruct (_is_leap y); lia).
    pose proof (Z.div_mod (y - 1) 4 ltac:(lia)).
    pose proof (Z.mod_pos_bound (y - 1) 4 ltac:(lia)).
    pose proof (Z.div_mod (y - 1) 100 ltac:(lia)).
    pose proof (Z.mod_pos_bound (y - 1) 100 ltac:(lia)).
    pose proof (Z.div_mod (y - 1) 400 ltac:(lia)).
    pose proof (Z.mod_pos_bound (y - 1) 400 ltac:(lia)).
    lia.
Qed.

(** A timestamp that reads is a representable instant. *)
Lemma parse_range s d : parse s = Some d -> 0 <= d <= datetime_max.
Proof.
  unfold parse.
  destruct (read_digits 4 0 s) as [[y s1]|] eqn:Ey; cbn [mbind option_bind]; [|discriminate].
  destruct (expect "-" s1) as [s2|]; cbn [mbind option_bind]; [|discriminate].
  destruct (read_digits 2 0 s2) as [[m s3]|] eqn:Em; cbn [mbind option_bind]; [|discriminate].
  destruct (expect "-" s3) as [s4|]; cbn [mbind option_bind]; [|discriminate].
  destruct (read_digits 2 0 s4) as [[dd s5]|] eqn:Ed; cbn [mbind option_bind]; [|discriminate].
  destruct (expect "T" s5) as [s6|]; cbn [mbind option_bind]; [|discriminate].
  destruct (read_digits 2 0 s6) as [[hh s7]|] eqn:Eh; cbn [mbind option_bind]; [|discriminate].
  destruct (expect ":" s7) as [s8|]; cbn [mbind option_bind]; [|discriminate].
  destruct (read_digits 2 0 s8) as [[mi s9]|] eqn:Ei; cbn [mbind option_bind]; [|discriminate].
  destruct (expect ":" s9) as [s10|]; cbn [mbind option_bind]; [|discriminate].
  destruct (read_digits 2 0 s10) as [[ss s11]|] eqn:Es; cbn [mbind option_bind]; [|discriminate].
  match goal with
  | |- context [let '(us, s) := ?frac in _] =>
      assert (Hus : 0 <= fst frac < 1000000); [|destruct frac as [us s12]]
  end.
  { destruct s11 as [|c [|c' rest]];
      [cbn [fst]; lia
      | destruct c as [[] [] [] [] [] [] [] []]; cbv iota beta; cbn [fst]; lia
      | ].
    destruct c as [[] [] [] [] [] [] [] []]; cbv iota beta; cbn [fst]; try lia.
    destruct (digit_value c') eqn:Hc'; cbn [fst]; try lia.
    destruct (read_fraction 6 0 (String c' rest)) as [us s12] eqn:Ef.
    apply read_fraction_range in Ef. simpl in *. lia. }
  simpl in Hus.
  match goal with |- context [if ?c then _ else _] => destruct c eqn:Hc end;
    [|discriminate].
  intros [= <-].
  repeat (apply andb_true_iff in Hc; destruct Hc as [Hc ?]).
  repeat match goal with
         | H : (_ <=? _) = true |- _ => apply Z.leb_le in H
         | H : (_ <? _) = true |- _ => apply Z.ltb_lt in H
         end.
  apply read_digits_range in Ey, Em, Ed, Eh, Ei, Es.
  change (10 ^ Z.of_nat 4) with 10000 in Ey.
  change (10 ^ Z.of_nat 2) with 100 in *.
  pose proof (ymd2ord_range y m dd) as Ho.
  unfold datetime_max, MAXORDINAL, US_PER_DAY, US_PER_SECOND in *.
  lia.
Qed.

End DateFacts.

(** C7.  For every start timestamp that reads as an instant [d] (the first
    millisecond of year 1 apart, from which nothing can be subtracted),
    [get_catalog] and [get_refunds] put the text of [d] minus one
    millisecond into [begin_time], every call of the run carries it, and a
    run that is resumed at all opens with such a call.  For
    [2023-01-01T00:00:00Z] that text is [2022-12-31T23:59:59.999000Z]. *)
Theorem C7_begin_time_one_millisecond_earlier :
  forall (S : Type) (server : api_call -> S -> api_response * S)
         (retries : nat) (start_time : string) (d : datetime),
    parse start_time = Some d ->
    milliseconds 1 <= d ->
    let begin_time := strftime (d - milliseconds 1) in
    begin_time_of start_time = Ret begin_time
    /\ (forall object_type fuel w,
          exists pages e w' body more,
            get_catalog server retries object_type start_time
              (Datatypes.S fuel) w = (Ret (pages, e), w')
            /\ sent w'
               = (sent w ++ BodyCall "catalog.search_catalog_objects" body
                  :: more)%list
            /\ Forall (fun call => call_begin_time call = Some (VStr begin_time))
                 (BodyCall "catalog.search_catalog_objects" body :: more))
    /\ (forall bookmarked_cursor fuel w,
          exists pages e w' body more,
            get_refunds server retries start_time bookmarked_cursor
              (Datatypes.S fuel) w = (Ret (pages, e), w')
            /\ sent w'
               = (sent w ++ BodyCall "refunds.list_payment_refunds" body
                  :: more)%list
            /\ Forall (fun call => call_begin_time call = Some (VStr begin_time))
                 (BodyCall "refunds.list_payment_refunds" body :: more))
    /\ begin_time_of "2023-01-01T00:00:00Z" = Ret "2022-12-31T23:59:59.999000Z".
Proof.
  intros S server retries start_time d Hp Hd begin_time.
  assert (Hb : begin_time_of start_time = Ret begin_time).
  { unfold begin_time_of, strptime_to_utc. rewrite Hp. simpl.
    unfold sub, in_range. pose proof (DateFacts.parse_range _ _ Hp) as Hr.
    replace (0 <=? d - milliseconds 1) with true by (symmetry; apply Z.leb_le; lia).
    replace (d - milliseconds 1 <=? datetime_max) with true
      by (symmetry; apply Z.leb_le; unfold milliseconds; lia).
    reflexivity. }
  assert (Hrun : forall endpoint body_key (body : gmap string value) fuel w,
             body !! "begin_time" = Some (VStr begin_time) ->
             truthy (default (VStr INITIAL) (body !! "cursor")) = true ->
             exists b more,
               sent (snd (_get_v2_objects server retries (BodyCall endpoint)
                            body body_key (Datatypes.S fuel) w))
               = (sent w ++ BodyCall endpoint b :: more)%list
               /\ Forall (fun call =>
                            call_begin_time call = Some (VStr begin_time))
                    (BodyCall endpoint b :: more)).
  { intros endpoint key body fuel w HQ Ht. unfold _get_v2_objects.
    destruct (TraceFacts.v2_pull_first server retries (BodyCall endpoint) key
                fuel (v2_start body) w Ht) as [more Hfirst].
    destruct (TraceFacts.v2_pull_sent server retries (BodyCall endpoint) key
                (fun b => b !! "begin_time" = Some (VStr begin_time))
                ltac:(intros b c Hq; cbv beta;
                      rewrite lookup_insert_ne by discriminate; exact Hq)
                (Datatypes.S fuel) (v2_start body) w HQ) as (all & Hall & HF).
    rewrite Hall in Hfirst. apply app_inv_head in Hfirst. subst all.
    eexists _, more. split; [exact Hall|].
    eapply Forall_impl; [exact HF|].
    intros call (b & -> & Hq). exact Hq. }
  split; [exact Hb|]. split; [|split].
  - intros object_type fuel w. unfold get_catalog. rewrite Hb.
    match goal with
    | |- context [_get_v2_objects _ _ ?rm ?b ?k _ _] =>
        destruct (Hrun "catalog.search_catalog_objects" k b fuel w)
          as (b' & more & Hs & HF);
        [apply lookup_insert_eq | reflexivity |];
        destruct (_get_v2_objects server retries rm b k (Datatypes.S fuel) w)
          as [[pages e] w']
    end.
    exists pages, e, w', b', more. auto.
  - intros bc fuel w. unfold get_refunds. rewrite Hb.
    match goal with
    | |- context [_get_v2_objects _ _ ?rm ?b ?k _ _] =>
        destruct (Hrun "refunds.list_payment_refunds" k b fuel w)
          as (b' & more & Hs & HF);
        [ | |
          destruct (_get_v2_objects server retries rm b k (Datatypes.S fuel) w)
            as [[pages e] w'];
          exists pages, e, w', b', more; auto ]
    end.
    + destruct (truthy bc).
      * rewrite lookup_insert_ne by discriminate. apply lookup_insert_eq.
      * apply lookup_insert_eq.
    + destruct (truthy bc) eqn:Hbc.
      * rewrite lookup_insert_eq. exact Hbc.
      * rewrite lookup_insert_ne by discriminate. reflexivity.
  - vm_compute. reflexivity.
Qed.

Lemma C7_begin_time_one_millisecond_earlier_witness :
  begin_time_of "2023-01-01T00:00:00Z"
  = Ret (strftime (63808128000000000 - milliseconds 1)).
Proof.
  refine (proj1 (C7_begin_time_one_millisecond_earlier unit
                   (stateless two_pages) 0 "2023-01-01T00:00:00Z"
                   63808128000000000 _ _)).
  - vm_compute. reflexivity.
  - vm_compute. discriminate.
Defined.

(** ** The continuation token of the v1 endpoints *)




(** ** The credential manager *)

Module CredentialFacts.

Lemma days_le_22 (remaining : timedelta) :
  (days remaining <=? REFRESH_TOKEN_BEFORE) = true <-> remaining < days_delta 23.
Proof.
  unfold days, REFRESH_TOKEN_BEFORE, days_delta, US_PER_DAY, US_PER_SECOND.
  rewrite Z.leb_le.
  pose proof (Z.div_mod remaining (86400 * 1000000) ltac:(lia)).
  pose proof (Z.mod_pos_bound remaining (86400 * 1000000) ltac:(lia)).
  lia.
Qed.

Section Platform.
Context {S : Type}.
Variable oauth : oauth_call -> S -> api_response * S.
Variable clock : S -> datetime.

(** The OAuth calls leave the dicts and the files alone. *)
Lemma o_auth_frame c (st : store S) :
  heap (snd (o_auth oauth c st)) = heap st
  /\ files (snd (o_auth oauth c st)) = files st.
Proof.
  unfold o_auth. destruct (oauth c (platform st)). simpl. auto.
Qed.

Lemma require_frame token env (st : store S) :
  heap (snd (require_new_access_token oauth clock token env st)) = heap st
  /\ files (snd (require_new_access_token oauth clock token env st)) = files st.
Proof.
  unfold require_new_access_token.
  destruct (negb (truthy token)); [simpl; auto|].
  pose proof (o_auth_frame (RetrieveTokenStatus env token) st) as H.
  destruct (o_auth oauth (RetrieveTokenStatus env token) st) as [r st1].
  destruct (is_error r); simpl in *; auto.
Qed.

Lemma deref_heap (st st' : store S) config :
  heap st' = heap st -> deref st' config = deref st config.
Proof. unfold deref. intros ->. reflexivity. Qed.

End Platform.

End CredentialFacts.

(** C5 (amended).  [require_new_access_token] answers true, without asking
    the platform, when the access token is absent or empty; true when the
    status query comes back as an error; and otherwise true exactly when
    the whole days from now to [expires_at], as [timedelta.days] counts
    them (rounded down), are 22 or fewer, that is exactly when fewer than
    23 days remain, and false when 23 days or more remain.  So an expiry
    exactly 22 days out gives true and one 30 days out gives false; the
    boundary of the answer is at 23 days, not at 22. *)
Theorem C5_require_new_access_token :
  forall (S : Type) (oauth : oauth_call -> S -> api_response * S)
         (clock : S -> datetime) (access_token : value) (environment : string)
         (st : store S),
    (truthy access_token = false ->
     require_new_access_token oauth clock access_token environment st
     = (Ret true, st))
    /\ (truthy access_token = true ->
        forall response s',
          oauth (RetrieveTokenStatus environment access_token) (platform st)
          = (response, s') ->
          let st' :=
            {| heap := heap st; files := files st; platform := s';
               calls := calls st ++ [RetrieveTokenStatus environment access_token] |} in
          (is_error response = true ->
           require_new_access_token oauth clock access_token environment st
           = (Ret true, st'))
          /\ (is_error response = false ->
              forall d text expires_at,
                body response = VDict d ->
                d !! "expires_at" = Some (VStr text) ->
                parse text = Some expires_at ->
                let remaining := diff expires_at (clock s') in
                require_new_access_token oauth clock access_token environment st
                = (Ret (days remaining <=? 22), st')
                /\ ((days remaining <=? 22) = true <-> remaining < days_delta 23)
                /\ (remaining = days_delta 22 ->
                    require_new_access_token oauth clock access_token
                      environment st = (Ret true, st'))
                /\ (remaining = days_delta 30 ->
                    require_new_access_token oauth clock access_token
                      environment st = (Ret false, st')))).
Proof.
  intros S oauth clock token env st. split.
  - intros Ht. unfold require_new_access_token. rewrite Ht. reflexivity.
  - intros Ht response s' Ho st'. split.
    + intros He. unfold require_new_access_token, o_auth.
      rewrite Ht, Ho, He. reflexivity.
    + intros He d text expires_at Hb Hd Hp remaining.
      assert (Hrun :
        require_new_access_token oauth clock token env st
        = (Ret (days remaining <=? 22), st')).
      { unfold require_new_access_token, o_auth.
        rewrite Ht, Ho, He. simpl. rewrite Hb. simpl.
        unfold subscript. rewrite Hd. simpl.
        unfold strptime_with_tz. rewrite Hp. reflexivity. }
      split; [exact Hrun|].
      split; [apply CredentialFacts.days_le_22|].
      split; intros Hr; rewrite Hrun, Hr; reflexivity.
Qed.

Lemma C5_require_new_access_token_witness :
  require_new_access_token (issuer "2023-06-24T12:00:00Z") noon VNone
    "production" later_run = (Ret true, later_run)
  /\ fst (require_new_access_token (issuer "2023-06-24T12:00:00Z") noon
            (VStr "a0") "production" later_run) = Ret true
  /\ fst (require_new_access_token (issuer "2023-07-02T12:00:00Z") noon
            (VStr "a0") "production" later_run) = Ret false.
Proof.
  split; [|split].
  - apply (proj1 (C5_require_new_access_token unit
                    (issuer "2023-06-24T12:00:00Z") noon VNone "production"
                    later_run)).
    reflexivity.
  - destruct (proj2 (C5_require_new_access_token unit
                       (issuer "2023-06-24T12:00:00Z") noon (VStr "a0")
                       "production" later_run) eq_refl
                (reply_ok {[ "expires_at" := VStr "2023-06-24T12:00:00Z" ]}) tt
                eq_refl) as [_ Hok].
    destruct (Hok eq_refl {[ "expires_at" := VStr "2023-06-24T12:00:00Z" ]}
                "2023-06-24T12:00:00Z" 63823204800000000 eq_refl)
      as (_ & _ & H22 & _);
      [vm_compute; reflexivity | vm_compute; reflexivity |].
    rewrite H22; [reflexivity | vm_compute; reflexivity].
  - destruct (proj2 (C5_require_new_access_token unit
                       (issuer "2023-07-02T12:00:00Z") noon (VStr "a0")
                       "production" later_run) eq_refl
                (reply_ok {[ "expires_at" := VStr "2023-07-02T12:00:00Z" ]}) tt
                eq_refl) as [_ Hok].
    destruct (Hok eq_refl {[ "expires_at" := VStr "2023-07-02T12:00:00Z" ]}
                "2023-07-02T12:00:00Z" 63823896000000000 eq_refl)
      as (_ & _ & _ & H30);
      [vm_compute; reflexivity | vm_compute; reflexivity |].
    rewrite H30; [reflexivity | vm_compute; reflexivity].
Defined.

(** C5 as stated fails between 22 and 23 days.  With the clock at
    2023-06-02T12:00:00Z and a token that expires at 2023-06-25T00:00:00Z,
    22 days and 12 hours remain: the expiry is more than 22 days from now,
    so the claim answers false, yet [timedelta.days] counts 22 and
    [require_new_access_token] answers true. *)
Lemma C5_counterexample :
  parse "2023-06-25T00:00:00Z" = Some 63823248000000000
  /\ diff 63823248000000000 (noon tt)
     = days_delta 22 + 12 * 3600 * US_PER_SECOND
  /\ days_delta 22 < diff 63823248000000000 (noon tt)
  /\ days (diff 63823248000000000 (noon tt)) = 22
  /\ fst (require_new_access_token (issuer "2023-06-25T00:00:00Z") noon
            (VStr "a0") "production" later_run) = Ret true
  /\ fst (require_new_access_token (issuer "2023-06-25T00:00:00Z") noon
            (VStr "a0") "production" later_run) <> Ret false.
Proof.
  repeat split; try (vm_compute; reflexivity).
  vm_compute. discriminate.
Qed.

Module RefreshFacts.

Section Platform.
Context {S : Type}.
Variable oauth : oauth_call -> S -> api_response * S.
Variable clock : S -> datetime.

Lemma write_config_deref config path data (st : store S) :
  deref (snd (write_config config path data st)) config
  = data ∪ deref st config
  /\ files (snd (write_config config path data st)) !! path
     = Some (data ∪ deref st config).
Proof.
  unfold write_config, deref. simpl. rewrite !lookup_insert_eq. auto.
Qed.

(** What [_get_access_token] does on a successful refresh. *)
Lemma refresh_run rt cid cs env config path (st : store S) access refresh st2 :
  refresh_succeeds oauth clock rt cid cs env config st access refresh st2 ->
  _get_access_token oauth clock rt cid cs env config path st
  = (Ret access,
     snd (write_config config path
            {[ "access_token" := access; "refresh_token" := refresh ]} st2))
  /\ heap st2 = heap st /\ files st2 = files st.
Proof.
  intros (st1 & result & Hreq & Hob & Herr & Ha & Hr).
  pose proof (CredentialFacts.require_frame oauth clock
                (default VNone (deref st config !! "access_token")) env st)
    as [Hh1 Hf1].
  rewrite Hreq in Hh1, Hf1. simpl in Hh1, Hf1.
  pose proof (CredentialFacts.o_auth_frame oauth
                (ObtainToken env (refresh_request rt cid cs)) st1) as [Hh2 Hf2].
  rewrite Hob in Hh2, Hf2. simpl in Hh2, Hf2.
  split; [|split; congruence].
  unfold _get_access_token. rewrite Hreq.
  change ({[ "client_id" := cid; "client_secret" := cs;
             "grant_type" := VStr "refresh_token";
             "refresh_token" := rt ]} : gmap string value)
    with (refresh_request rt cid cs).
  rewrite Hob, Herr, Ha, Hr. reflexivity.
Qed.

(** Any run of [_get_access_token] that writes is a successful refresh. *)
Lemma write_only_on_success rt cid cs env config path (st : store S) :
  (exists access refresh st2,
      refresh_succeeds oauth clock rt cid cs env config st access refresh st2)
  \/ (heap (snd (_get_access_token oauth clock rt cid cs env config path st))
      = heap st
      /\ files (snd (_get_access_token oauth clock rt cid cs env config path st))
         = files st).
Proof.
  unfold _get_access_token.
  pose proof (CredentialFacts.require_frame oauth clock
                (default VNone (deref st config !! "access_token")) env st)
    as [Hh1 Hf1].
  destruct (require_new_access_token oauth clock
              (default VNone (deref st config !! "access_token")) env st)
    as [[[|]|e] st1] eqn:Hreq; simpl in Hh1, Hf1;
    [|right; simpl; auto|right; simpl; auto].
  change ({[ "client_id" := cid; "client_secret" := cs;
             "grant_type" := VStr "refresh_token";
             "refresh_token" := rt ]} : gmap string value)
    with (refresh_request rt cid cs).
  pose proof (CredentialFacts.o_auth_frame oauth
                (ObtainToken env (refresh_request rt cid cs)) st1) as [Hh2 Hf2].
  destruct (o_auth oauth (ObtainToken env (refresh_request rt cid cs)) st1)
    as [result st2] eqn:Hob. simpl in Hh2, Hf2.
  destruct (is_error result) eqn:Herr;
    [right; simpl; split; congruence|].
  destruct (item (body result) "access_token") as [access|] eqn:Ha;
    [|right; simpl; split; congruence].
  destruct (item (body result) "refresh_token") as [refresh|] eqn:Hr;
    [|right; simpl; split; congruence].
  left. exists access, refresh, st2, st1, result. auto.
Qed.

End Platform.

End RefreshFacts.

(** C9.  On a successful refresh [_get_access_token] returns the new access
    token and writes to the config file the prior config with the new
    [access_token] and [refresh_token] merged in: every other key of the
    prior config is in what is written, with its prior value, and no key is
    added besides the two.  A run that is not a successful refresh writes
    nothing and changes no dict. *)
Theorem C9_refresh_writes_merged_config :
  forall (S : Type) (oauth : oauth_call -> S -> api_response * S)
         (clock : S -> datetime)
         (refresh_token client_id client_secret : value) (environment : string)
         (config : ref) (config_path : string) (st : store S),
    let run :=
      _get_access_token oauth clock refresh_token client_id client_secret
        environment config config_path st in
    (forall access refresh st2,
        refresh_succeeds oauth clock refresh_token client_id client_secret
          environment config st access refresh st2 ->
        exists written,
          fst run = Ret access
          /\ files (snd run) = <[config_path := written]> (files st)
          /\ written !! "access_token" = Some access
          /\ written !! "refresh_token" = Some refresh
          /\ (forall key,
                key <> "access_token" -> key <> "refresh_token" ->
                written !! key = deref st config !! key))
    /\ ((~ exists access refresh st2,
            refresh_succeeds oauth clock refresh_token client_id client_secret
              environment config st access refresh st2) ->
        files (snd run) = files st /\ heap (snd run) = heap st).
Proof.
  intros S oauth clock rt cid cs env config path st run. split.
  - intros access refresh st2 Hs.
    destruct (RefreshFacts.refresh_run oauth clock rt cid cs env config path st
                access refresh st2 Hs) as (Hrun & Hh & Hf).
    exists ({[ "access_token" := access; "refresh_token" := refresh ]}
            ∪ deref st config).
    subst run. rewrite Hrun. simpl.
    rewrite (CredentialFacts.deref_heap st st2 config Hh), Hf.
    split; [reflexivity|]. split; [reflexivity|].
    split; [apply lookup_union_Some_l; reflexivity|].
    split; [apply lookup_union_Some_l; reflexivity|].
    intros key Ha Hr. rewrite lookup_union_r; [reflexivity|].
    rewrite lookup_insert_ne by congruence.
    rewrite lookup_singleton_ne by congruence. reflexivity.
  - intros Hno.
    destruct (RefreshFacts.write_only_on_success oauth clock rt cid cs env
                config path st) as [Hyes | [Hh Hf]]; [contradiction|].
    subst run. auto.
Qed.

Lemma C9_refresh_writes_merged_config_witness :
  exists written,
    fst (_get_access_token (issuer "2023-06-24T12:00:00Z") noon (VStr "r0")
           (VStr "id") (VStr "secret") "production" 0%nat "config.json"
           first_run) = Ret (VStr "a1")
    /\ files (snd (_get_access_token (issuer "2023-06-24T12:00:00Z") noon
                     (VStr "r0") (VStr "id") (VStr "secret") "production"
                     0%nat "config.json" first_run))
       = <["config.json" := written]> (files first_run)
    /\ written !! "start_date" = Some (VStr "2023-01-01T00:00:00Z")
    /\ written !! "client_id" = Some (VStr "id").
Proof.
  destruct (proj1 (C9_refresh_writes_merged_config unit
                     (issuer "2023-06-24T12:00:00Z") noon (VStr "r0")
                     (VStr "id") (VStr "secret") "production" 0%nat
                     "config.json" first_run)
              (VStr "a1") (VStr "r1")
              {| heap := heap first_run; files := ∅; platform := tt;
                 calls := [ObtainToken "production"
                             (refresh_request (VStr "r0") (VStr "id")
                                (VStr "secret"))] |})
    as (written & Hret & Hfiles & _ & _ & Hkeep).
  - exists first_run,
      (reply_ok {[ "access_token" := VStr "a1"; "refresh_token" := VStr "r1" ]}).
    repeat split; reflexivity.
  - exists written. split; [exact Hret|]. split; [exact Hfiles|].
    split; rewrite Hkeep by discriminate; reflexivity.
Defined.

(** C10.  [write_config] returns the reference it was given, and the dict
    behind that reference then holds every entry of [data] and, for the
    other keys, what it held before; no other dict changes.  So after
    [SquareClient(config, config_path)] has refreshed the token, the
    caller's own [config] holds the new access and refresh tokens, the
    ones the client and the config file hold. *)
Theorem C10_write_config_in_place :
  forall (S : Type) (oauth : oauth_call -> S -> api_response * S)
         (clock : S -> datetime) (config : ref) (config_path : string)
         (st : store S),
    (forall data,
        fst (write_config config config_path data st) = config
        /\ (forall key v,
              data !! key = Some v ->
              deref (snd (write_config config config_path data st)) config
              !! key = Some v)
        /\ (forall key,
              data !! key = None ->
              deref (snd (write_config config config_path data st)) config
              !! key = deref st config !! key)
        /\ (forall other,
              other <> config ->
              heap (snd (write_config config config_path data st)) !! other
              = heap st !! other))
    /\ (forall refresh_token client_id client_secret access refresh st2,
          deref st config !! "refresh_token" = Some refresh_token ->
          deref st config !! "client_id" = Some client_id ->
          deref st config !! "client_secret" = Some client_secret ->
          refresh_succeeds oauth clock refresh_token client_id client_secret
            (if is_str "true" (default VNone (deref st config !! "sandbox"))
             then "sandbox" else "production")
            config st access refresh st2 ->
          exists client st',
            init oauth clock config config_path st = (Ret client, st')
            /\ _access_token client = access
            /\ deref st' config !! "access_token" = Some access
            /\ deref st' config !! "refresh_token" = Some refresh
            /\ files st' !! config_path = Some (deref st' config)).
Proof.
  intros S oauth clock config path st. split.
  - intros data. unfold write_config, deref. simpl.
    rewrite lookup_insert_eq. simpl.
    split; [reflexivity|].
    split; [intros key v H; apply lookup_union_Some_l; exact H|].
    split; [intros key H; apply lookup_union_r; exact H|].
    intros other Hne. apply lookup_insert_ne. congruence.
  - intros rt cid cs access refresh st2 Hrt Hcid Hcs Hs.
    destruct (RefreshFacts.refresh_run oauth clock rt cid cs _ config path st
                access refresh st2 Hs) as (Hrun & Hh & Hf).
    unfold init, subscript. rewrite Hrt, Hcid, Hcs, Hrun.
    eexists _, _. split; [reflexivity|].
    destruct (RefreshFacts.write_config_deref config path
                {[ "access_token" := access; "refresh_token" := refresh ]} st2)
      as [Hd Hfile].
    rewrite Hd, Hfile.
    split; [reflexivity|].
    split; [apply lookup_union_Some_l; reflexivity|].
    split; [apply lookup_union_Some_l; reflexivity|].
    reflexivity.
Qed.

Lemma C10_write_config_in_place_witness :
  exists client st',
    init (issuer "2023-06-24T12:00:00Z") noon 0%nat "config.json" first_run
    = (Ret client, st')
    /\ _access_token client = VStr "a1"
    /\ deref st' 0%nat !! "access_token" = Some (VStr "a1")
    /\ deref st' 0%nat !! "refresh_token" = Some (VStr "r1").
Proof.
  destruct (proj2 (C10_write_config_in_place unit
                     (issuer "2023-06-24T12:00:00Z") noon 0%nat "config.json"
                     first_run)
              (VStr "r0") (VStr "id") (VStr "secret") (VStr "a1") (VStr "r1")
              {| heap := heap first_run; files := ∅; platform := tt;
                 calls := [ObtainToken "production"
                             (refresh_request (VStr "r0") (VStr "id")
                                (VStr "secret"))] |})
    as (client & st' & Hinit & Ha & Hca & Hcr & _).
  - reflexivity.
  - reflexivity.
  - reflexivity.
  - exists first_run,
      (reply_ok {[ "access_token" := VStr "a1"; "refresh_token" := VStr "r1" ]}).
    repeat split; reflexivity.
  - exists client, st'. auto.
Defined.


(** * Further properties of the client *)

(** ** The retry wrappers *)

Module BudgetFacts.

Section Platform.
Context {S : Type}.

(** A wrapped call that sends [c] at every attempt sends it at least once
    and at most once more than the budget allows retries. *)
Lemma on_exception_sent {A} klass giveup c
    (target : world S -> outcome A * world S) :
  (forall w, sent (snd (target w)) = (sent w ++ [c])%list) ->
  forall budget w,
    exists n,
      (n <= budget)%nat
      /\ sent (snd (on_exception klass giveup budget target w))
         = (sent w ++ repeat c (Datatypes.S n))%list.
Proof.
  intros Hc. induction budget as [|b IH]; intros w; simpl;
    pose proof (Hc w) as Hw; destruct (target w) as [[a|e] w1]; simpl in Hw;
    try (exists 0%nat; split; [lia | exact Hw]);
    destruct (klass e); try (exists 0%nat; split; [lia | exact Hw]);
    destruct (giveup e); try (exists 0%nat; split; [lia | exact Hw]).
  destruct (IH w1) as (n & Hn & Hs). exists (Datatypes.S n).
  split; [lia|]. rewrite Hs, Hw, <- app_assoc. reflexivity.
Qed.

(** A wrapped call that fails at every attempt with an exception of the
    retried class that [giveup] lets pass uses the whole budget. *)
Lemma on_exception_spent {A} klass giveup c
    (target : world S -> outcome A * world S) :
  (forall w, sent (snd (target w)) = (sent w ++ [c])%list) ->
  (forall w, exists e,
      fst (target w) = Raise e /\ klass e = true /\ giveup e = false) ->
  forall budget w,
    (exists e, fst (on_exception klass giveup budget target w) = Raise e
               /\ klass e = true)
    /\ sent (snd (on_exception klass giveup budget target w))
       = (sent w ++ repeat c (Datatypes.S budget))%list.
Proof.
  intros Hc Hf. induction budget as [|b IH]; intros w; simpl;
    pose proof (Hc w) as Hw; destruct (Hf w) as (e & He & Hk & Hg);
    destruct (target w) as [o w1]; simpl in Hw, He; subst o;
    rewrite Hk, Hg.
  - simpl. split; [eauto | exact Hw].
  - destruct (IH w1) as [Hr Hs]. split; [exact Hr|].
    rewrite Hs, Hw, <- app_assoc. reflexivity.
Qed.

Variable server : api_call -> S -> api_response * S.
Variable http : api_call -> S -> outcome http_response * S.

Lemma v2_body_sent {B} (request_method : B -> api_call) bdy (w : world S) :
  sent (snd (_retryable_v2_method_body server request_method bdy w))
  = (sent w ++ [request_method bdy])%list.
Proof.
  unfold _retryable_v2_method_body, sdk_call.
  destruct (server (request_method bdy) (srv w)). reflexivity.
Qed.

Lemma v1_body_sent url params (w : world S) :
  sent (snd (_retryable_v1_method_body http url params w))
  = (sent w ++ [HttpGet url params])%list.
Proof.
  unfold _retryable_v1_method_body, session_get.
  destruct (http (HttpGet url params) (srv w)). reflexivity.
Qed.

(** Whatever the SDK answers, the exception the v2 wrapper raises is not
    one [should_not_retry] accepts. *)
Lemma classify_raises result e :
  classify result = Raise e ->
  should_not_retry e = false
  /\ (e = TypeError \/ e = RetryableError (error_message result)
      \/ e = RuntimeError (error_message result)).
Proof.
  unfold classify. destruct (is_error result); [|discriminate].
  destruct (error_message result) as [|b|z|s|l|d]; simpl;
    try (intros [= <-]; auto);
    match goal with
    | |- context [if ?c then _ else _] => destruct c
    end; intros [= <-]; auto.
Qed.

End Platform.

End BudgetFacts.

(** X1.  One call of [_retryable_v2_method] or [_retryable_v1_method]
    sends its request at least once and at most once more than the budget
    allows retries, and every attempt sends the same request. *)
Theorem wrapped_call_attempts_bounded :
  forall (S : Type) (server : api_call -> S -> api_response * S)
         (http : api_call -> S -> outcome http_response * S) (retries : nat),
    (forall (B : Type) (request_method : B -> api_call) (bdy : B) (w : world S),
        exists n,
          (n <= retries)%nat
          /\ sent (snd (_retryable_v2_method server retries request_method bdy w))
             = (sent w ++ repeat (request_method bdy) (Datatypes.S n))%list)
    /\ (forall url params (w : world S),
          exists n,
            (n <= retries)%nat
            /\ sent (snd (_retryable_v1_method http retries url params w))
               = (sent w ++ repeat (HttpGet url params) (Datatypes.S n))%list).
Proof.
  intros S server http retries. split.
  - intros B rm bdy w. unfold _retryable_v2_method.
    apply BudgetFacts.on_exception_sent. intros w'.
    apply BudgetFacts.v2_body_sent.
  - intros url params w. unfold _retryable_v1_method.
    apply BudgetFacts.on_exception_sent. intros w'.
    apply BudgetFacts.v1_body_sent.
Qed.

(** X2.  Against a platform whose every answer is classified retryable,
    [_retryable_v2_method] sends the request once more than the budget
    allows retries and then lets the [RetryableError] escape. *)
Theorem unavailable_platform_uses_whole_budget :
  forall (S : Type) (server : api_call -> S -> api_response * S)
         (retries : nat) (B : Type) (request_method : B -> api_call) (bdy : B)
         (w : world S),
    (forall c s, exists msg,
        classify (fst (server c s)) = Raise (RetryableError msg)) ->
    (exists msg,
        fst (_retryable_v2_method server retries request_method bdy w)
        = Raise (RetryableError msg))
    /\ sent (snd (_retryable_v2_method server retries request_method bdy w))
       = (sent w ++ repeat (request_method bdy) (Datatypes.S retries))%list.
Proof.
  intros S server retries B rm bdy w Hdown. unfold _retryable_v2_method.
  destruct (BudgetFacts.on_exception_spent is_RetryableError should_not_retry
              (rm bdy) (_retryable_v2_method_body server rm bdy)
              (BudgetFacts.v2_body_sent server rm bdy)) with (budget := retries) (w := w)
    as [(e & He & Hk) Hs].
  - intros w'. unfold _retryable_v2_method_body, sdk_call.
    destruct (Hdown (rm bdy) (srv w')) as [msg Hm].
    destruct (server (rm bdy) (srv w')) as [r s']. simpl in *.
    exists (RetryableError msg). auto.
  - split; [|exact Hs]. destruct e; try discriminate. eauto.
Qed.

Lemma unavailable_platform_uses_whole_budget_witness :
  sent (snd (_retryable_v2_method always_unavailable 3
               (BodyCall "locations.list_locations") ∅ (fresh tt)))
  = repeat (BodyCall "locations.list_locations" ∅) 4.
Proof.
  refine (proj2 (unavailable_platform_uses_whole_budget unit always_unavailable
                   3 _ (BodyCall "locations.list_locations") ∅ (fresh tt) _)).
  intros c s. exists (VStr "Service Unavailable"). reflexivity.
Defined.

(** X3.  On the v2 path [giveup=should_not_retry] decides nothing: with a
    predicate that never gives up in its place, [_retryable_v2_method]
    returns the same result and leaves the same world. *)
Theorem giveup_is_dead_on_v2_path :
  forall (S : Type) (server : api_call -> S -> api_response * S)
         (retries : nat) (B : Type) (request_method : B -> api_call) (bdy : B)
         (w : world S),
    _retryable_v2_method server retries request_method bdy w
    = on_exception is_RetryableError (fun _ => false) retries
        (_retryable_v2_method_body server request_method bdy) w.
Proof.
  intros S server retries B rm bdy. unfold _retryable_v2_method.
  induction retries as [|n IH]; intros w; simpl;
    destruct (_retryable_v2_method_body server rm bdy w) as [[r|e] w1] eqn:E;
    try reflexivity;
    assert (Hg : should_not_retry e = false)
      by (unfold _retryable_v2_method_body in E;
          destruct (sdk_call server (rm bdy) w) as [r s']; injection E as E _;
          apply (BudgetFacts.classify_raises r e E));
    rewrite Hg; try reflexivity.
  destruct (is_RetryableError e); [apply IH | reflexivity].
Qed.

(** X4.  The exception an error response raises: a message that is a
    string, a list or a dict raises [RetryableError] when it contains one of
    the three markers (as [in] tests it), starts as an HTML page, or the
    status is 429 or at least 500, and [RuntimeError] otherwise, each with
    the message; any other message raises [TypeError], whatever the
    status. *)
Theorem error_classification :
  forall result : api_response,
    is_error result = true ->
    (iterable (error_message result) ->
     classify result
     = if spec_retryable result
       then Raise (RetryableError (error_message result))
       else Raise (RuntimeError (error_message result)))
    /\ (~ iterable (error_message result) -> classify result = Raise TypeError).
Proof.
  intros result He. split; intros Hi.
  - apply RetryFacts.classify_iterable; assumption.
  - apply RetryFacts.classify_not_iterable; assumption.
Qed.

Lemma error_classification_witness :
  classify (reply_error 404 (VList [VDict {[ "code" := VStr "NOT_FOUND" ]}]))
  = Raise (RuntimeError (VList [VDict {[ "code" := VStr "NOT_FOUND" ]}]))
  /\ classify (reply_error 429 (VBool true)) = Raise TypeError.
Proof.
  split.
  - apply (proj1 (error_classification
                    (reply_error 404
                       (VList [VDict {[ "code" := VStr "NOT_FOUND" ]}]))
                    eq_refl)).
    exact I.
  - apply (proj2 (error_classification (reply_error 429 (VBool true)) eq_refl)).
    intros H; exact H.
Defined.


(** ** The v1 paginator *)

Module V1Facts.

Section Platform.
Context {S : Type}.
Variable http : api_call -> S -> outcome http_response * S.
Variable retries : nat.
Variable url : string.

Lemma v1_ok params (w : world S) result s' :
  http (HttpGet url params) (srv w) = (Ret result, s') ->
  raise_for_status result = Ret result ->
  _retryable_v1_method http retries url params w
  = (Ret result, {| srv := s'; sent := sent w ++ [HttpGet url params] |}).
Proof.
  intros Hs Hok. unfold _retryable_v1_method.
  apply RetryFacts.on_exception_ret.
  unfold _retryable_v1_method_body, session_get. rewrite Hs. simpl.
  rewrite Hok. reflexivity.
Qed.

Lemma v1_next_params g :
  (if negb (is_str INITIAL (st_batch_token g))
   then <["batch_token" := st_batch_token g]> (st_params g) else st_params g)
  = v1_carry (st_params g) (st_batch_token g).
Proof.
  unfold v1_carry. destruct (is_str INITIAL (st_batch_token g)); reflexivity.
Qed.

Lemma v1_next_stop g (w : world S) :
  truthy (st_batch_token g) = false ->
  v1_next http retries url g w = (Stop, w).
Proof. unfold v1_next. intros ->. reflexivity. Qed.

Lemma v1_next_page g (w : world S) r s' :
  truthy (st_batch_token g) = true ->
  http (HttpGet url (v1_carry (st_params g) (st_batch_token g))) (srv w)
  = (Ret r, s') ->
  is_v1_page r ->
  v1_next http retries url g w
  = (Yield (v1_page_of r)
       {| st_batch_token := token_of r;
          st_params := v1_carry (st_params g) (st_batch_token g) |},
     {| srv := s';
        sent := sent w
                ++ [HttpGet url (v1_carry (st_params g) (st_batch_token g))] |}).
Proof.
  intros Ht Hs [Hok [tok Htok]]. unfold v1_next. rewrite Ht, v1_next_params.
  rewrite (v1_ok _ w r s' Hs Hok).
  unfold v1_page_of, token_of. rewrite Htok. reflexivity.
Qed.

(** When the headers of a fetched page cannot be read for a token, the
    exception escapes before the page is yielded. *)
Lemma v1_next_unreadable g (w : world S) r s' e :
  truthy (st_batch_token g) = true ->
  http (HttpGet url (v1_carry (st_params g) (st_batch_token g))) (srv w)
  = (Ret r, s') ->
  raise_for_status r = Ret r ->
  get_batch_token_from_headers (headers r) = Raise e ->
  v1_next http retries url g w
  = (Throw e,
     {| srv := s';
        sent := sent w
                ++ [HttpGet url (v1_carry (st_params g) (st_batch_token g))] |}).
Proof.
  intros Ht Hs Hok He. unfold v1_next. rewrite Ht, v1_next_params.
  rewrite (v1_ok _ w r s' Hs Hok), He. reflexivity.
Qed.

End Platform.

Lemma first_params_carry params bc :
  first_params params bc
  = v1_carry params (if truthy bc then bc else VStr INITIAL).
Proof.
  unfold first_params, v1_carry. destruct (truthy bc); simpl; [|reflexivity].
  destruct (is_str INITIAL bc); reflexivity.
Qed.

(** The run of the v1 paginator against a script of pages. *)
Lemma v1_pull_script retries url rs :
  forall r_last responses (k : nat) t params l fuel,
    (forall i, responses (k + i)%nat = nth i rs r_last) ->
    Forall (fun r => is_v1_page r /\ truthy (token_of r) = true) rs ->
    is_v1_page r_last -> truthy (token_of r_last) = false ->
    truthy t = true ->
    (length rs + 1 < fuel)%nat ->
    pull (v1_next (http_scripted responses) retries url) fuel
      {| st_batch_token := t; st_params := params |} {| srv := k; sent := l |}
    = (map v1_page_of (rs ++ [r_last]), Exhausted,
       {| srv := (k + length rs + 1)%nat;
          sent := l ++ map (HttpGet url)
                         (v1_params_sent params (t :: map token_of rs)) |}).
Proof.
  induction rs as [|r rs IH];
    intros r_last responses k t params l fuel Hscr Hrs Hl Hlt Ht Hf.
  - destruct fuel as [|[|fuel]]; simpl in Hf; try lia.
    rewrite GenFacts.pull_S.
    rewrite (v1_next_page (http_scripted responses) retries url
               _ _ r_last (Datatypes.S k)); simpl; auto.
    2:{ unfold http_scripted. do 2 f_equal.
        rewrite <- (Nat.add_0_r k) at 1. rewrite Hscr. reflexivity. }
    rewrite v1_next_stop by exact Hlt.
    repeat f_equal. lia.
  - destruct fuel as [|fuel]; simpl in Hf; try lia.
    inversion Hrs as [|? ? [Hp Htr] Hrs']; subst.
    rewrite GenFacts.pull_S.
    rewrite (v1_next_page (http_scripted responses) retries url
               _ _ r (Datatypes.S k)); simpl; auto.
    2:{ unfold http_scripted. do 2 f_equal.
        rewrite <- (Nat.add_0_r k) at 1. rewrite Hscr. reflexivity. }
    rewrite (IH r_last responses (Datatypes.S k) (token_of r)
               (v1_carry params t)
               (l ++ [HttpGet url (v1_carry params t)])%list fuel);
      auto; try lia.
    2:{ intros i. replace (Datatypes.S k + i)%nat with (k + Datatypes.S i)%nat
          by lia. rewrite Hscr. reflexivity. }
    simpl. rewrite <- app_assoc. simpl. repeat f_equal. lia.
Qed.

Lemma v1_carry_no_sentinel params t :
  params !! "batch_token" <> Some (VStr INITIAL) ->
  v1_carry params t !! "batch_token" <> Some (VStr INITIAL).
Proof.
  intros Hp. unfold v1_carry. destruct (is_str INITIAL t) eqn:Ht; [exact Hp|].
  rewrite lookup_insert_eq. intros [= ->].
  apply PaginatorFacts.is_str_false in Ht. congruence.
Qed.

Lemma v1_params_no_sentinel ts :
  forall params, params !! "batch_token" <> Some (VStr INITIAL) ->
    Forall (fun p => p !! "batch_token" <> Some (VStr INITIAL))
      (v1_params_sent params ts).
Proof.
  induction ts as [|t ts IH]; intros params Hp; simpl; constructor.
  - apply v1_carry_no_sentinel, Hp.
  - apply IH, v1_carry_no_sentinel, Hp.
Qed.

Lemma v1_params_length params ts :
  length (v1_params_sent params ts) = length ts.
Proof. revert params. induction ts; intros; simpl; auto. Qed.

End V1Facts.

(** X5.  When the first answer to [_get_v1_objects] has status 400 or 401,
    the run ends there: [raise_for_status] raises an [HTTPError] that
    carries the response, [should_not_retry] accepts it, and the consumer
    gets the exception after a single request and no page, whatever budget
    is left. *)
Theorem v1_client_error_ends_the_run :
  forall (S : Type) (http : api_call -> S -> outcome http_response * S)
         (retries : nat) (url : string) (params : gmap string value)
         (bookmarked_cursor : value) (fuel : nat) (w : world S)
         (result : http_response) (s' : S),
    http (HttpGet url (first_params params bookmarked_cursor)) (srv w)
    = (Ret result, s') ->
    http_status result = 400 \/ http_status result = 401 ->
    _get_v1_objects http retries url params bookmarked_cursor
      (Datatypes.S fuel) w
    = ([], Failed (HTTPError (http_status result)),
       {| srv := s';
          sent := sent w
                  ++ [HttpGet url (first_params params bookmarked_cursor)] |}).
Proof.
  intros S http retries url params bc fuel w result s' Hs Hst.
  assert (Ht : truthy (st_batch_token (v1_start params bc)) = true).
  { simpl. destruct (truthy bc) eqn:E; [exact E | reflexivity]. }
  unfold _get_v1_objects. rewrite GenFacts.pull_S. unfold v1_next.
  rewrite Ht, V1Facts.v1_next_params. cbn [st_batch_token st_params v1_start].
  rewrite <- V1Facts.first_params_carry.
  rewrite (RetryFacts.v1_client_error http retries url _ w result s' Hs Hst).
  reflexivity.
Qed.

Lemma v1_client_error_ends_the_run_witness :
  _get_v1_objects (http_always 401) 5 "https://connect.squareup.com/v1/me/items"
    ∅ VNone 3 (fresh tt)
  = ([], Failed (HTTPError 401),
     {| srv := tt;
        sent := [HttpGet "https://connect.squareup.com/v1/me/items" ∅] |}).
Proof.
  apply (v1_client_error_ends_the_run unit (http_always 401) 5
           "https://connect.squareup.com/v1/me/items" ∅ VNone 2 (fresh tt)
           {| http_status := 401; headers := ∅; json := VList [] |} tt).
  - reflexivity.
  - right. reflexivity.
Defined.

(** X6.  Every other failure of the v1 request is tried again while the
    budget lasts: an error status from 402 to 599 (403, 404 and 429 as much
    as 500), and a transport failure, whose exception carries no
    response. *)
Theorem v1_other_failures_are_retried :
  forall (S : Type) (http : api_call -> S -> outcome http_response * S)
         (retries : nat) (url : string) (params : gmap string value)
         (w : world S) (s' : S),
    let w' := {| srv := s'; sent := sent w ++ [HttpGet url params] |} in
    (forall result,
        http (HttpGet url params) (srv w) = (Ret result, s') ->
        402 <= http_status result < 600 ->
        _retryable_v1_method http (Datatypes.S retries) url params w
        = _retryable_v1_method http retries url params w')
    /\ (http (HttpGet url params) (srv w) = (Raise ConnectionError, s') ->
        _retryable_v1_method http (Datatypes.S retries) url params w
        = _retryable_v1_method http retries url params w').
Proof.
  intros S http retries url params w s' w'. split.
  - intros result Hs Hst.
    apply (RetryFacts.v1_retried http retries url params w result s' Hs); lia.
  - intros Hs. unfold _retryable_v1_method.
    apply RetryFacts.on_exception_retry with (e := ConnectionError);
      try reflexivity.
    unfold _retryable_v1_method_body, session_get. rewrite Hs. reflexivity.
Qed.

Lemma v1_other_failures_are_retried_witness :
  sent (snd (_retryable_v1_method (http_always 404) 2
               "https://connect.squareup.com/v1/me/items" ∅ (fresh tt)))
  = repeat (HttpGet "https://connect.squareup.com/v1/me/items" ∅) 3
  /\ sent (snd (_retryable_v1_method http_unreachable 1
                  "https://connect.squareup.com/v1/me/items" ∅ (fresh tt)))
     = repeat (HttpGet "https://connect.squareup.com/v1/me/items" ∅) 2.
Proof.
  split.
  - rewrite (proj1 (v1_other_failures_are_retried unit (http_always 404) 1
                      "https://connect.squareup.com/v1/me/items" ∅ (fresh tt) tt)
               {| http_status := 404; headers := ∅; json := VList [] |}
               eq_refl ltac:(simpl; lia)).
    reflexivity.
  - rewrite (proj2 (v1_other_failures_are_retried unit http_unreachable 0
                      "https://connect.squareup.com/v1/me/items" ∅ (fresh tt) tt)
               eq_refl).
    reflexivity.
Defined.

(** X7.  Against every script of pages whose [link] headers give non-empty
    tokens, closed by a page without a token, a consumer that drains
    [_get_v1_objects] receives every page once and in order; the first
    request carries the caller's parameters (with the bookmark as
    [batch_token] when there is one), each later request carries the token
    of the page before it, one request is sent per page, and no request
    carries the sentinel unless the caller's parameters did. *)
Theorem v1_paginator_follows_link_tokens :
  forall (retries : nat) (url : string) (params : gmap string value)
         (bookmarked_cursor : value) (rs : list http_response)
         (r_last : http_response) (fuel : nat),
    Forall (fun r => is_v1_page r /\ truthy (token_of r) = true) rs ->
    is_v1_page r_last ->
    truthy (token_of r_last) = false ->
    (length rs + 1 < fuel)%nat ->
    let t0 := if truthy bookmarked_cursor then bookmarked_cursor
              else VStr INITIAL in
    let '(pages, e, w) :=
      _get_v1_objects (http_scripted (fun i => nth i rs r_last)) retries url
        params bookmarked_cursor fuel (fresh 0%nat) in
    e = Exhausted
    /\ pages = map v1_page_of (rs ++ [r_last])
    /\ sent w
       = map (HttpGet url) (v1_params_sent params (t0 :: map token_of rs))
    /\ length (sent w) = (1 + length rs)%nat
    /\ (exists later,
          sent w = HttpGet url (first_params params bookmarked_cursor) :: later)
    /\ (params !! "batch_token" <> Some (VStr INITIAL) ->
        Forall (fun p => p !! "batch_token" <> Some (VStr INITIAL))
          (v1_params_sent params (t0 :: map token_of rs))).
Proof.
  intros retries url params bc rs r_last fuel Hrs Hl Hlt Hf t0.
  assert (Ht0 : truthy t0 = true).
  { subst t0. destruct (truthy bc) eqn:E; [exact E | reflexivity]. }
  unfold _get_v1_objects, v1_start, fresh. fold t0.
  rewrite (V1Facts.v1_pull_script retries url rs r_last
             (fun i => nth i rs r_last) 0%nat t0 params [] fuel); auto.
  cbn [sent app].
  split; [reflexivity|]. split; [reflexivity|]. split; [reflexivity|].
  split.
  { rewrite length_map, V1Facts.v1_params_length. simpl.
    rewrite length_map. reflexivity. }
  split.
  { simpl. rewrite V1Facts.first_params_carry. fold t0. eauto. }
  intros Hp. apply V1Facts.v1_params_no_sentinel, Hp.
Qed.

Lemma v1_paginator_follows_link_tokens_witness :
  let '(pages, e, w) :=
    _get_v1_objects
      (http_scripted
         (fun i =>
            nth i
              [v1_page_with
                 "<https://connect.squareup.com/v1/me/items?batch_token=t1>;rel='next'"
                 (VList [VStr "A"])]
              (v1_last_page (VList [VStr "B"]))))
      2 "https://connect.squareup.com/v1/me/items" ∅ VNone 3 (fresh 0%nat) in
  e = Exhausted
  /\ pages = [(VList [VStr "A"], VStr "t1"); (VList [VStr "B"], VNone)]
  /\ sent w
     = [HttpGet "https://connect.squareup.com/v1/me/items" ∅;
        HttpGet "https://connect.squareup.com/v1/me/items"
          {[ "batch_token" := VStr "t1" ]}].
Proof.
  pose proof
    (v1_paginator_follows_link_tokens 2
       "https://connect.squareup.com/v1/me/items" ∅ VNone
       [v1_page_with
          "<https://connect.squareup.com/v1/me/items?batch_token=t1>;rel='next'"
          (VList [VStr "A"])]
       (v1_last_page (VList [VStr "B"])) 3) as H.
  destruct (_get_v1_objects _ _ _ _ _ _ _) as [[pages e] w].
  destruct H as (He & Hp & Hs & _).
  - constructor; [|constructor].
    split; [split; [reflexivity | eexists; vm_compute; reflexivity]
           | vm_compute; reflexivity].
  - split; [reflexivity | eexists; vm_compute; reflexivity].
  - reflexivity.
  - simpl. lia.
  - split; [exact He|]. split; [rewrite Hp | rewrite Hs]; vm_compute;
      reflexivity.
Defined.

(** X8.  The token is read from the headers before the page is yielded:
    when the headers of a fetched page make
    [get_batch_token_from_headers] raise (a [link] header without
    [batch_token], say), the exception ends the run and the records of that
    page never reach the consumer. *)
Theorem v1_unreadable_link_loses_the_page :
  forall (S : Type) (http : api_call -> S -> outcome http_response * S)
         (retries : nat) (url : string) (params : gmap string value)
         (bookmarked_cursor : value) (fuel : nat) (w : world S)
         (result : http_response) (s' : S) (e : exn),
    http (HttpGet url (first_params params bookmarked_cursor)) (srv w)
    = (Ret result, s') ->
    raise_for_status result = Ret result ->
    get_batch_token_from_headers (headers result) = Raise e ->
    _get_v1_objects http retries url params bookmarked_cursor
      (Datatypes.S fuel) w
    = ([], Failed e,
       {| srv := s';
          sent := sent w
                  ++ [HttpGet url (first_params params bookmarked_cursor)] |}).
Proof.
  intros S http retries url params bc fuel w result s' e Hs Hok He.
  unfold _get_v1_objects. rewrite GenFacts.pull_S.
  rewrite V1Facts.first_params_carry in Hs |- *.
  rewrite (V1Facts.v1_next_unreadable http retries url
             (v1_start params bc) w result s' e); auto.
  unfold v1_start. simpl. destruct (truthy bc) eqn:E; [exact E | reflexivity].
Qed.

Lemma v1_unreadable_link_loses_the_page_witness :
  _get_v1_objects
    (http_linked "<https://connect.squareup.com/v1/me/items?limit=2>;rel='next'")
    2 "https://connect.squareup.com/v1/me/items" ∅ VNone 3 (fresh tt)
  = ([], Failed (KeyError "batch_token"),
     {| srv := tt;
        sent := [HttpGet "https://connect.squareup.com/v1/me/items" ∅] |}).
Proof.
  apply (v1_unreadable_link_loses_the_page unit
           (http_linked
              "<https://connect.squareup.com/v1/me/items?limit=2>;rel='next'")
           2 "https://connect.squareup.com/v1/me/items" ∅ VNone 2 (fresh tt)
           {| http_status := 200;
              headers :=
                {[ "link" :=
                     "<https://connect.squareup.com/v1/me/items?limit=2>;rel='next'" ]};
              json := VList [VStr "A"] |} tt (KeyError "batch_token")).
  - reflexivity.
  - reflexivity.
  - vm_compute. reflexivity.
Defined.

(** ** More on the v2 paginator *)

Module PagingFacts.

Section Platform.
Context {S : Type}.
Variable server : api_call -> S -> api_response * S.
Variable retries : nat.
Variable request_method : gmap string value -> api_call.
Variable body_key : string.

(** Every page a run yields has cost it at least one request. *)
Lemma v2_pull_cost fuel : forall g (w : world S),
  (length (sent w)
   + length (fst (fst (pull (v2_next server retries request_method body_key)
                         fuel g w)))
   <= length (sent (snd (pull (v2_next server retries request_method body_key)
                           fuel g w))))%nat.
Proof.
  induction fuel as [|n IH]; intros g w; [simpl; lia|].
  rewrite GenFacts.pull_S. unfold v2_next at 1 3.
  destruct (truthy (st_cursor g)); [|simpl; lia].
  match goal with
  | |- context [_retryable_v2_method _ _ _ ?b w] =>
      destruct (TraceFacts.v2_method_sent server retries request_method b w)
        as [k Hk];
      destruct (_retryable_v2_method server retries request_method b w)
        as [[result|e] w1]
  end; simpl in Hk;
    assert (Hlen : (length (sent w) + 1 <= length (sent w1))%nat)
      by (rewrite Hk, length_app; simpl; lia);
    [|simpl; lia].
  destruct (py_get (body result) "cursor" VNone) as [c|]; [|simpl; lia].
  destruct (py_get (body result) body_key (VList [])) as [records|];
    [|simpl; lia].
  match goal with
  | |- context [pull _ n ?g' w1] => specialize (IH g' w1);
      destruct (pull (v2_next server retries request_method body_key) n g' w1)
        as [[ys e] w2]
  end.
  simpl in *. lia.
Qed.

End Platform.

(** The run of the paginator against a script of pages that ends in an
    answer the retry policy lets escape. *)
Lemma pull_script_failing retries request_method body_key rs :
  forall r_bad e responses (k : nat) c b l fuel,
    (forall i, responses (k + i)%nat = script rs r_bad i) ->
    Forall (fun r => is_page r /\ truthy (cursor_of r) = true) rs ->
    classify r_bad = Raise e -> is_RetryableError e = false ->
    truthy c = true ->
    (length rs < fuel)%nat ->
    pull (v2_next (scripted responses) retries request_method body_key) fuel
      {| st_cursor := c; st_body := b |} {| srv := k; sent := l |}
    = (map (page_of body_key) rs, Failed e,
       {| srv := (k + length rs + 1)%nat;
          sent := l ++ map request_method (bodies b (c :: map cursor_of rs)) |}).
Proof.
  induction rs as [|r rs IH];
    intros r_bad e responses k c b l fuel Hscr Hrs Hbad He Hc Hf;
    (destruct fuel as [|fuel]; simpl in Hf; [lia|]); rewrite GenFacts.pull_S.
  - unfold v2_next. cbn [st_cursor st_body]. rewrite Hc.
    replace (if negb (is_str INITIAL c) then <["cursor" := c]> b else b)
      with (carry b c)
      by (unfold carry; destruct (is_str INITIAL c); reflexivity).
    rewrite (RetryFacts.v2_fatal (scripted responses) retries request_method
               (carry b c) {| srv := k; sent := l |} r_bad (Datatypes.S k) e);
      auto.
    2:{ unfold scripted. simpl. f_equal. rewrite <- (Nat.add_0_r k) at 1.
        rewrite Hscr. reflexivity. }
    simpl. repeat f_equal. lia.
  - inversion Hrs as [|? ? [Hp Ht] Hrs']; subst.
    rewrite (PaginatorFacts.v2_next_page (scripted responses) retries
               request_method body_key _ _ r (Datatypes.S k)); simpl; auto.
    2:{ unfold scripted. f_equal. rewrite <- (Nat.add_0_r k) at 1.
        rewrite Hscr. reflexivity. }
    rewrite (IH r_bad e responses (Datatypes.S k) (cursor_of r) (carry b c)
               (l ++ [request_method (carry b c)])%list fuel); auto; try lia.
    2:{ intros i. replace (Datatypes.S k + i)%nat with (k + Datatypes.S i)%nat
          by lia. rewrite Hscr. reflexivity. }
    simpl. rewrite <- app_assoc. simpl. repeat f_equal. lia.
Qed.

End PagingFacts.

(** X9.  [_get_v2_objects] changes the request body between pages only by
    writing the cursor: every body a run sends, retries included, agrees
    with the caller's body on every key but [cursor]. *)
Theorem v2_bodies_differ_only_in_cursor :
  forall (S : Type) (server : api_call -> S -> api_response * S)
         (retries : nat) (request_method : gmap string value -> api_call)
         (body : gmap string value) (body_key : string) (fuel : nat)
         (w : world S),
    exists more,
      sent (snd (_get_v2_objects server retries request_method body body_key
                   fuel w)) = (sent w ++ more)%list
      /\ Forall (fun call =>
                   exists b, call = request_method b
                             /\ forall key, key <> "cursor" ->
                                            b !! key = body !! key) more.
Proof.
  intros S server retries rm body key fuel w. unfold _get_v2_objects.
  destruct (TraceFacts.v2_pull_sent server retries rm key
              (fun b => delete "cursor" b = delete "cursor" body)
              ltac:(intros b c Hq; cbv beta; rewrite delete_insert_eq; exact Hq)
              fuel (v2_start body) w eq_refl) as (more & Hs & HF).
  exists more. split; [exact Hs|].
  eapply Forall_impl; [exact HF|].
  intros call (b & -> & Hd). exists b. split; [reflexivity|].
  intros k Hk.
  rewrite <- (lookup_delete_ne b "cursor" k), <- (lookup_delete_ne body "cursor" k)
    by congruence.
  rewrite Hd. reflexivity.
Qed.

(** X10.  A run of [_get_v2_objects] never yields more pages than it has
    sent requests. *)
Theorem v2_pages_never_outnumber_requests :
  forall (S : Type) (server : api_call -> S -> api_response * S)
         (retries : nat) (request_method : gmap string value -> api_call)
         (body : gmap string value) (body_key : string) (fuel : nat)
         (w : world S),
    (length (sent w)
     + length (fst (fst (_get_v2_objects server retries request_method body
                           body_key fuel w)))
     <= length (sent (snd (_get_v2_objects server retries request_method body
                             body_key fuel w))))%nat.
Proof. intros. apply PagingFacts.v2_pull_cost. Qed.

(** X11.  When, after some pages, the platform gives an answer that the
    retry policy lets escape (an error that matches no retryable rule, or a
    message the classification cannot test), the consumer has received
    exactly the pages before it, the run ends with that exception, and no
    request follows it. *)
Theorem v2_fatal_answer_ends_the_run :
  forall (retries : nat) (request_method : gmap string value -> api_call)
         (body_key : string) (rs : list api_response) (r_bad : api_response)
         (e : exn) (body : gmap string value) (fuel : nat),
    Forall (fun r => is_page r /\ truthy (cursor_of r) = true) rs ->
    classify r_bad = Raise e ->
    is_RetryableError e = false ->
    body !! "cursor" = None ->
    (length rs < fuel)%nat ->
    let '(pages, ending, w) :=
      _get_v2_objects (scripted (script rs r_bad)) retries request_method
        body body_key fuel (fresh 0%nat) in
    pages = map (page_of body_key) rs
    /\ ending = Failed e
    /\ length (sent w) = (length rs + 1)%nat.
Proof.
  intros retries rm key rs r_bad e body fuel Hrs Hbad He Hb Hf.
  unfold _get_v2_objects, v2_start, fresh. rewrite Hb. simpl default.
  rewrite (PagingFacts.pull_script_failing retries rm key rs r_bad e
             (script rs r_bad) 0%nat (VStr INITIAL) body [] fuel); auto.
  cbn [sent app]. split; [reflexivity|]. split; [reflexivity|].
  rewrite length_map, PaginatorFacts.bodies_length. simpl.
  rewrite length_map. lia.
Qed.

Lemma v2_fatal_answer_ends_the_run_witness :
  let '(pages, ending, w) :=
    _get_v2_objects
      (scripted
         (script [reply_ok {[ "counts" := VList [VStr "A"]; "cursor" := VStr "a" ]}]
                 (reply_error 404 (VStr "Not Found"))))
      3 (BodyCall "inventory.batch_retrieve_inventory_counts")
      {[ "updated_after" := VStr "2023-01-01T00:00:00Z" ]} "counts" 5
      (fresh 0%nat) in
  pages = [(VList [VStr "A"], VStr "a")]
  /\ ending = Failed (RuntimeError (VStr "Not Found"))
  /\ length (sent w) = 2%nat.
Proof.
  pose proof
    (v2_fatal_answer_ends_the_run 3
       (BodyCall "inventory.batch_retrieve_inventory_counts") "counts"
       [reply_ok {[ "counts" := VList [VStr "A"]; "cursor" := VStr "a" ]}]
       (reply_error 404 (VStr "Not Found"))
       (RuntimeError (VStr "Not Found"))
       {[ "updated_after" := VStr "2023-01-01T00:00:00Z" ]} 5) as H.
  destruct (_get_v2_objects _ _ _ _ _ _ _) as [[pages ending] w].
  apply H.
  - constructor; [|constructor].
    split; [split; [reflexivity | eexists; reflexivity] | reflexivity].
  - reflexivity.
  - reflexivity.
  - reflexivity.
  - simpl. lia.
Defined.

(** X12.  A success answer whose body is not a dict (an empty body, say)
    makes the first resumption of [_get_v2_objects] raise
    [AttributeError] from [result.body.get]: one request is sent and no
    page is yielded. *)
Theorem v2_success_without_dict_body_raises :
  forall (S : Type) (server : api_call -> S -> api_response * S)
         (retries : nat) (request_method : gmap string value -> api_call)
         (body : gmap string value) (body_key : string) (fuel : nat)
         (w : world S) (result : api_response) (s' : S),
    body !! "cursor" = None ->
    server (request_method body) (srv w) = (result, s') ->
    is_error result = false ->
    (forall d, Retry.body result <> VDict d) ->
    _get_v2_objects server retries request_method body body_key
      (Datatypes.S fuel) w
    = ([], Failed AttributeError,
       {| srv := s'; sent := sent w ++ [request_method body] |}).
Proof.
  intros S server retries rm body key fuel w result s' Hb Hs Hok Hnd.
  unfold _get_v2_objects, v2_start. rewrite Hb. simpl default.
  rewrite GenFacts.pull_S. unfold v2_next. simpl.
  rewrite (RetryFacts.v2_ok server retries rm body w result s' Hs Hok).
  destruct (Retry.body result) as [| | | | |d] eqn:E; try reflexivity.
  exfalso. exact (Hnd d eq_refl).
Qed.

Lemma v2_success_without_dict_body_raises_witness :
  _get_v2_objects
    (scripted (fun _ => {| is_error := false; status_code := 200;
                           errors := VNone; body := VNone |}))
    2 (BodyCall "locations.list_locations") ∅ "locations" 3 (fresh 0%nat)
  = ([], Failed AttributeError,
     {| srv := 1%nat; sent := [BodyCall "locations.list_locations" ∅] |}).
Proof.
  apply (v2_success_without_dict_body_raises nat
           (scripted (fun _ => {| is_error := false; status_code := 200;
                                  errors := VNone; body := VNone |}))
           2 (BodyCall "locations.list_locations") ∅ "locations" 2
           (fresh 0%nat)
           {| is_error := false; status_code := 200; errors := VNone;
              body := VNone |} 1%nat);
    try reflexivity.
  intros d. discriminate.
Defined.

(** ** More on the windowed listings *)

Module WindowFacts.

Section Platform.
Context {S : Type}.
Variable server : api_call -> S -> api_response * S.
Variable clock : S -> datetime.
Variable retries : nat.
Variables endpoint records_key : string.
Variable limit : Z.
Variables location_id start_time : string.
Variable bookmarked_cursor : value.

Local Abbreviation wnext :=
  (window_next server clock retries endpoint records_key limit
     location_id start_time bookmarked_cursor).

(** The cursor a turn of the loop sends. *)
Lemma sent_cursor_not_sentinel c :
  bookmarked_cursor <> VStr INITIAL ->
  (if is_str INITIAL c then bookmarked_cursor else c) <> VStr INITIAL.
Proof.
  intros Hb. destruct (is_str INITIAL c) eqn:E; [exact Hb|].
  apply PaginatorFacts.is_str_false, E.
Qed.

Lemma window_loop_no_sentinel
    (P := fun call => call_cursor call <> Some (VStr INITIAL)) fuel :
  bookmarked_cursor <> VStr INITIAL ->
  forall c end_time (w : world S),
    exists more,
      sent (snd (pull wnext fuel (WLoop c end_time) w)) = (sent w ++ more)%list
      /\ Forall P more.
Proof.
  intros Hb. induction fuel as [|n IH]; intros c et w.
  - exists []. simpl. rewrite app_nil_r. auto.
  - rewrite GenFacts.pull_S. unfold window_next at 1, window_loop.
    destruct (truthy c); [|exists []; simpl; rewrite app_nil_r; auto].
    set (cur := if is_str INITIAL c then bookmarked_cursor else c).
    set (f := fun _ : value =>
                WindowCall endpoint location_id start_time et cur limit).
    destruct (TraceFacts.v2_method_sent server retries f VNone w) as [k Hk].
    assert (Hall : Forall P (repeat (f VNone) (Datatypes.S k))).
    { apply TraceFacts.Forall_repeat. unfold P, f. simpl. intros [= E].
      exact (sent_cursor_not_sentinel c Hb E). }
    destruct (_retryable_v2_method server retries f VNone w)
      as [[result|e] w1]; simpl in Hk;
      [|exists (repeat (f VNone) (Datatypes.S k)); simpl; auto].
    destruct (py_get (body result) records_key (VList [])) as [records|];
      [|exists (repeat (f VNone) (Datatypes.S k)); simpl; auto].
    destruct (py_get (body result) "cursor" VNone) as [nc|];
      [|exists (repeat (f VNone) (Datatypes.S k)); simpl; auto].
    destruct (IH nc et w1) as (more & Hm & Hf).
    destruct (pull _ n _ w1) as [[ys e] w2]. simpl in *.
    exists (repeat (f VNone) (Datatypes.S k) ++ more)%list.
    split; [rewrite Hm, Hk, <- app_assoc; reflexivity|].
    apply Forall_app; auto.
Qed.

Lemma window_run_no_sentinel fuel (w : world S) :
  bookmarked_cursor <> VStr INITIAL ->
  exists more,
    sent (snd (pull wnext fuel WNew w)) = (sent w ++ more)%list
    /\ Forall (fun call => call_cursor call <> Some (VStr INITIAL)) more.
Proof.
  intros Hb. destruct fuel as [|n].
  - exists []. simpl. rewrite app_nil_r. auto.
  - pose proof (window_loop_no_sentinel (Datatypes.S n) Hb
                  (if truthy bookmarked_cursor then bookmarked_cursor
                   else VStr INITIAL)
                  (strftime_DATETIME_PARSE (now clock w)) w) as H.
    rewrite GenFacts.pull_S in H |- *. exact H.
Qed.

(** The first request of a run carries the bookmark as it was given. *)
Lemma window_opens_with_bookmark fuel (w : world S) :
  exists more,
    sent (snd (pull wnext (Datatypes.S fuel) WNew w))
    = (sent w
       ++ WindowCall endpoint location_id start_time
            (strftime_DATETIME_PARSE (now clock w)) bookmarked_cursor limit
       :: more)%list.
Proof.
  rewrite GenFacts.pull_S. unfold window_next at 1, window_loop.
  replace (truthy (if truthy bookmarked_cursor then bookmarked_cursor
                   else VStr INITIAL)) with true
    by (destruct (truthy bookmarked_cursor) eqn:E; [rewrite E|]; reflexivity).
  replace (if is_str INITIAL
                (if truthy bookmarked_cursor then bookmarked_cursor
                 else VStr INITIAL)
           then bookmarked_cursor
           else if truthy bookmarked_cursor then bookmarked_cursor
                else VStr INITIAL)
    with bookmarked_cursor
    by (destruct (truthy bookmarked_cursor);
        [destruct (is_str INITIAL bookmarked_cursor) | ]; reflexivity).
  match goal with
  | |- context [_retryable_v2_method _ _ ?f VNone w] =>
      destruct (TraceFacts.v2_method_sent server retries f VNone w) as [k Hk];
      destruct (_retryable_v2_method server retries f VNone w)
        as [[result|e] w1]
  end; simpl in Hk; [|eexists; simpl; exact Hk].
  destruct (py_get (body result) records_key (VList [])) as [records|];
    [|eexists; simpl; exact Hk].
  destruct (py_get (body result) "cursor" VNone) as [nc|];
    [|eexists; simpl; exact Hk].
  destruct (TraceFacts.window_pull_sent server clock retries endpoint
              records_key limit location_id start_time bookmarked_cursor
              fuel nc (strftime_DATETIME_PARSE (now clock w)) w1)
    as (more & Hm & _).
  destruct (pull _ fuel _ w1) as [[ys e] w2]. simpl in *.
  eexists. rewrite Hm, Hk, <- app_assoc. simpl. reflexivity.
Qed.

End Platform.

End WindowFacts.

(** X13.  [get_payments], [get_cash_drawer_shifts] and [get_payouts] never
    send the sentinel as a cursor, whatever the platform answers, even when
    it hands the sentinel back as a cursor itself, provided their caller
    did not pass it as the bookmark. *)
Theorem window_runs_never_send_the_sentinel :
  forall (S : Type) (server : api_call -> S -> api_response * S)
         (clock : S -> datetime) (retries : nat)
         (location_id start_time : string) (bookmarked_cursor : value)
         (fuel : nat) (w : world S),
    bookmarked_cursor <> VStr INITIAL ->
    (exists more,
        sent (snd (get_payments server clock retries location_id start_time
                     bookmarked_cursor fuel w)) = (sent w ++ more)%list
        /\ Forall (fun call => call_cursor call <> Some (VStr INITIAL)) more)
    /\ (exists more,
          sent (snd (get_cash_drawer_shifts server clock retries location_id
                       start_time bookmarked_cursor fuel w))
          = (sent w ++ more)%list
          /\ Forall (fun call => call_cursor call <> Some (VStr INITIAL)) more)
    /\ (exists more,
          sent (snd (get_payouts server clock retries location_id start_time
                       bookmarked_cursor fuel w)) = (sent w ++ more)%list
          /\ Forall (fun call => call_cursor call <> Some (VStr INITIAL)) more).
Proof.
  intros. repeat split; apply WindowFacts.window_run_no_sentinel; assumption.
Qed.

Lemma window_runs_never_send_the_sentinel_witness :
  exists more,
    sent (snd (get_payments
                 (stateless (fun _ =>
                    reply_ok {[ "payments" := VList [];
                                "cursor" := VStr INITIAL ]}))
                 noon 2 "L1" "2023-01-01T00:00:00Z" VNone 3 (fresh tt)))
    = more
    /\ Forall (fun call => call_cursor call <> Some (VStr INITIAL)) more.
Proof.
  destruct (proj1 (window_runs_never_send_the_sentinel unit
                     (stateless (fun _ =>
                        reply_ok {[ "payments" := VList [];
                                    "cursor" := VStr INITIAL ]}))
                     noon 2 "L1" "2023-01-01T00:00:00Z" VNone 3 (fresh tt)
                     ltac:(discriminate))) as (more & Hs & HF).
  exists more. split; [exact Hs | exact HF].
Defined.

(** X14.  The first request of a run of [get_payments],
    [get_cash_drawer_shifts] and [get_payouts] carries the bookmark exactly
    as the caller gave it: the resume cursor when there is one, and the
    absent or empty value itself when there is none. *)
Theorem window_runs_open_with_the_bookmark :
  forall (S : Type) (server : api_call -> S -> api_response * S)
         (clock : S -> datetime) (retries : nat)
         (location_id start_time : string) (bookmarked_cursor : value)
         (fuel : nat) (w : world S),
    let end_time := strftime_DATETIME_PARSE (now clock w) in
    (exists more,
        sent (snd (get_payments server clock retries location_id start_time
                     bookmarked_cursor (Datatypes.S fuel) w))
        = (sent w
           ++ WindowCall "payments.list_payments" location_id start_time
                end_time bookmarked_cursor 100 :: more)%list)
    /\ (exists more,
          sent (snd (get_cash_drawer_shifts server clock retries location_id
                       start_time bookmarked_cursor (Datatypes.S fuel) w))
          = (sent w
             ++ WindowCall "cash_drawers.list_cash_drawer_shifts" location_id
                  start_time end_time bookmarked_cursor 1000 :: more)%list)
    /\ (exists more,
          sent (snd (get_payouts server clock retries location_id start_time
                       bookmarked_cursor (Datatypes.S fuel) w))
          = (sent w
             ++ WindowCall "payouts.list_payouts" location_id start_time
                  end_time bookmarked_cursor 100 :: more)%list).
Proof.
  intros. repeat split; apply WindowFacts.window_opens_with_bookmark.
Qed.


(** ** More on the credential manager *)

Module TokenFacts.

Section Platform.
Context {S : Type}.
Variable oauth : oauth_call -> S -> api_response * S.
Variable clock : S -> datetime.

Lemma o_auth_calls c (st : store S) :
  calls (snd (o_auth oauth c st)) = (calls st ++ [c])%list.
Proof. unfold o_auth. destruct (oauth c (platform st)). reflexivity. Qed.

(** The check asks the platform at most once, in its own environment. *)
Lemma require_calls token env (st : store S) :
  exists new,
    calls (snd (require_new_access_token oauth clock token env st))
    = (calls st ++ new)%list
    /\ (length new <= 1)%nat
    /\ Forall (fun c => call_environment c = env) new.
Proof.
  unfold require_new_access_token.
  destruct (negb (truthy token)).
  - exists []. simpl. rewrite app_nil_r. auto.
  - pose proof (o_auth_calls (RetrieveTokenStatus env token) st) as H.
    destruct (o_auth oauth (RetrieveTokenStatus env token) st) as [r st1].
    exists [RetrieveTokenStatus env token].
    destruct (is_error r); simpl in *; repeat split; auto.
Qed.

Lemma get_access_token_calls rt cid cs env config path (st : store S) :
  exists new,
    calls (snd (_get_access_token oauth clock rt cid cs env config path st))
    = (calls st ++ new)%list
    /\ (length new <= 2)%nat
    /\ Forall (fun c => call_environment c = env) new.
Proof.
  unfold _get_access_token.
  destruct (require_calls (default VNone (deref st config !! "access_token"))
              env st) as (new & Hc & Hl & HF).
  destruct (require_new_access_token oauth clock
              (default VNone (deref st config !! "access_token")) env st)
    as [[[|]|e] st1]; simpl in Hc;
    [|exists new; simpl; repeat split; auto; lia
     |exists new; simpl; repeat split; auto; lia].
  match goal with
  | |- context [o_auth oauth ?c st1] =>
      pose proof (o_auth_calls c st1) as Ho;
      destruct (o_auth oauth c st1) as [result st2];
      exists (new ++ [c])%list
  end.
  simpl in Ho.
  assert (Hcalls : calls st2 = (calls st ++ new ++ [ObtainToken env
             {[ "client_id" := cid; "client_secret" := cs;
                "grant_type" := VStr "refresh_token";
                "refresh_token" := rt ]}])%list)
    by (rewrite Ho, Hc, <- app_assoc; reflexivity).
  assert (Hlen : (length (new ++ [ObtainToken env
             {[ "client_id" := cid; "client_secret" := cs;
                "grant_type" := VStr "refresh_token";
                "refresh_token" := rt ]}]) <= 2)%nat)
    by (rewrite length_app; simpl; lia).
  assert (HF2 : Forall (fun c => call_environment c = env)
                  (new ++ [ObtainToken env
             {[ "client_id" := cid; "client_secret" := cs;
                "grant_type" := VStr "refresh_token";
                "refresh_token" := rt ]}])%list)
    by (apply Forall_app; split; [exact HF | repeat constructor]).
  destruct (is_error result); [simpl; auto|].
  destruct (item (body result) "access_token"); [|simpl; auto].
  destruct (item (body result) "refresh_token"); simpl; auto.
Qed.

End Platform.

End TokenFacts.

(** X15.  Writing [d1] and then [d2] into the config leaves the dict and
    the file as one write of [d2] merged over [d1] does, and writing the
    same data a second time changes nothing. *)
Theorem write_config_composes :
  forall (S : Type) (config : ref) (config_path : string)
         (d1 d2 : gmap string value) (st : store S),
    snd (write_config config config_path d2
           (snd (write_config config config_path d1 st)))
    = snd (write_config config config_path (d2 ∪ d1) st)
    /\ snd (write_config config config_path d1
              (snd (write_config config config_path d1 st)))
       = snd (write_config config config_path d1 st).
Proof.
  intros S config path d1 d2 st. unfold write_config, deref. simpl.
  rewrite !lookup_insert_eq. simpl. rewrite !insert_insert_eq.
  split.
  - rewrite (assoc_L (∪)). reflexivity.
  - rewrite (assoc_L (∪)), (idemp (∪) d1). reflexivity.
Qed.

(** X16.  When a refresh is needed and the token endpoint answers with an
    error, [_get_access_token] raises [RuntimeError] with the provider's
    errors (or, without any, its body), after that one token request, and
    neither the config dict nor the config file is touched. *)
Theorem refused_refresh_raises_and_writes_nothing :
  forall (S : Type) (oauth : oauth_call -> S -> api_response * S)
         (clock : S -> datetime)
         (refresh_token client_id client_secret : value) (environment : string)
         (config : ref) (config_path : string) (st st1 st2 : store S)
         (result : api_response),
    require_new_access_token oauth clock
      (default VNone (deref st config !! "access_token")) environment st
    = (Ret true, st1) ->
    o_auth oauth
      (ObtainToken environment
         (refresh_request refresh_token client_id client_secret)) st1
    = (result, st2) ->
    is_error result = true ->
    _get_access_token oauth clock refresh_token client_id client_secret
      environment config config_path st
    = (Raise (RuntimeError (error_message result)), st2)
    /\ heap st2 = heap st
    /\ files st2 = files st
    /\ calls st2
       = (calls st1
          ++ [ObtainToken environment
                (refresh_request refresh_token client_id client_secret)])%list.
Proof.
  intros S oauth clock rt cid cs env config path st st1 st2 result Hreq Hob He.
  pose proof (CredentialFacts.require_frame oauth clock
                (default VNone (deref st config !! "access_token")) env st)
    as [Hh1 Hf1].
  rewrite Hreq in Hh1, Hf1. simpl in Hh1, Hf1.
  pose proof (CredentialFacts.o_auth_frame oauth
                (ObtainToken env (refresh_request rt cid cs)) st1) as [Hh2 Hf2].
  pose proof (TokenFacts.o_auth_calls oauth
                (ObtainToken env (refresh_request rt cid cs)) st1) as Hc.
  rewrite Hob in Hh2, Hf2, Hc. simpl in Hh2, Hf2, Hc.
  split; [|repeat split; congruence].
  unfold _get_access_token. rewrite Hreq.
  change ({[ "client_id" := cid; "client_secret" := cs;
             "grant_type" := VStr "refresh_token";
             "refresh_token" := rt ]} : gmap string value)
    with (refresh_request rt cid cs).
  rewrite Hob, He. reflexivity.
Qed.

Lemma refused_refresh_raises_and_writes_nothing_witness :
  fst (_get_access_token refusing noon (VStr "r0") (VStr "id") (VStr "secret")
         "production" 0%nat "config.json" later_run)
  = Raise (RuntimeError (VList [VDict {[ "code" := VStr "INVALID_GRANT" ]}])).
Proof.
  refine (f_equal fst (proj1
    (refused_refresh_raises_and_writes_nothing unit refusing noon (VStr "r0")
       (VStr "id") (VStr "secret") "production" 0%nat "config.json" later_run
       {| heap := heap later_run; files := ∅; platform := tt;
          calls := [RetrieveTokenStatus "production" (VStr "a0")] |}
       {| heap := heap later_run; files := ∅; platform := tt;
          calls := [RetrieveTokenStatus "production" (VStr "a0");
                    ObtainToken "production"
                      (refresh_request (VStr "r0") (VStr "id") (VStr "secret"))] |}
       {| is_error := true; status_code := 400;
          errors := VList [VDict {[ "code" := VStr "INVALID_GRANT" ]}];
          body := VNone |} _ _ _))); reflexivity.
Defined.

(** X17.  A token the platform reports as expiring 23 days from now or
    later is used as it is: [_get_access_token] returns the access token of
    the config after the one status query, sends no token request and
    writes nothing. *)
Theorem valid_token_is_reused :
  forall (S : Type) (oauth : oauth_call -> S -> api_response * S)
         (clock : S -> datetime)
         (refresh_token client_id client_secret : value) (environment : string)
         (config : ref) (config_path : string) (st : store S)
         (access_token : value) (response : api_response) (s' : S)
         (d : gmap string value) (text : string) (expires_at : datetime),
    deref st config !! "access_token" = Some access_token ->
    truthy access_token = true ->
    oauth (RetrieveTokenStatus environment access_token) (platform st)
    = (response, s') ->
    is_error response = false ->
    body response = VDict d ->
    d !! "expires_at" = Some (VStr text) ->
    parse text = Some expires_at ->
    days_delta 23 <= diff expires_at (clock s') ->
    _get_access_token oauth clock refresh_token client_id client_secret
      environment config config_path st
    = (Ret access_token,
       {| heap := heap st; files := files st; platform := s';
          calls := calls st ++ [RetrieveTokenStatus environment access_token] |}).
Proof.
  intros S oauth clock rt cid cs env config path st token response s' d text
    expiry Htok Ht Ho He Hb Hd Hp Hdays.
  unfold _get_access_token. rewrite Htok. simpl default.
  unfold require_new_access_token, o_auth. rewrite Ht, Ho, He. simpl.
  rewrite Hb. simpl. unfold subscript. rewrite Hd. simpl.
  unfold strptime_with_tz. rewrite Hp. simpl.
  replace (days (diff expiry (clock s')) <=? REFRESH_TOKEN_BEFORE) with false;
    [reflexivity|].
  symmetry. apply not_true_iff_false. intros H.
  apply CredentialFacts.days_le_22 in H. lia.
Qed.

Lemma valid_token_is_reused_witness :
  _get_access_token (issuer "2023-07-02T12:00:00Z") noon (VStr "r0")
    (VStr "id") (VStr "secret") "production" 0%nat "config.json" later_run
  = (Ret (VStr "a0"),
     {| heap := heap later_run; files := ∅; platform := tt;
        calls := [RetrieveTokenStatus "production" (VStr "a0")] |}).
Proof.
  apply (valid_token_is_reused unit (issuer "2023-07-02T12:00:00Z") noon
           (VStr "r0") (VStr "id") (VStr "secret") "production" 0%nat
           "config.json" later_run (VStr "a0")
           (reply_ok {[ "expires_at" := VStr "2023-07-02T12:00:00Z" ]}) tt
           {[ "expires_at" := VStr "2023-07-02T12:00:00Z" ]}
           "2023-07-02T12:00:00Z" 63823896000000000);
    try reflexivity.
  vm_compute. discriminate.
Defined.

(** X18.  [SquareClient.__init__] reads [refresh_token], [client_id] and
    [client_secret] with a subscript, in that order: the first of them that
    the config lacks raises [KeyError] with its name, before any call to the
    platform and with nothing changed. *)
Theorem init_without_credentials_raises :
  forall (S : Type) (oauth : oauth_call -> S -> api_response * S)
         (clock : S -> datetime) (config : ref) (config_path : string)
         (st : store S),
    (deref st config !! "refresh_token" = None ->
     init oauth clock config config_path st
     = (Raise (KeyError "refresh_token"), st))
    /\ (forall refresh_token,
          deref st config !! "refresh_token" = Some refresh_token ->
          deref st config !! "client_id" = None ->
          init oauth clock config config_path st
          = (Raise (KeyError "client_id"), st))
    /\ (forall refresh_token client_id,
          deref st config !! "refresh_token" = Some refresh_token ->
          deref st config !! "client_id" = Some client_id ->
          deref st config !! "client_secret" = None ->
          init oauth clock config config_path st
          = (Raise (KeyError "client_secret"), st)).
Proof.
  intros S oauth clock config path st. unfold init, subscript.
  split; [intros ->; reflexivity|].
  split; [intros rt -> ->; reflexivity|].
  intros rt cid -> -> ->. reflexivity.
Qed.

Lemma init_without_credentials_raises_witness :
  init (issuer "2023-07-02T12:00:00Z") noon 0%nat "config.json" incomplete_run
  = (Raise (KeyError "client_secret"), incomplete_run).
Proof.
  apply (proj2 (proj2 (init_without_credentials_raises unit
                         (issuer "2023-07-02T12:00:00Z") noon 0%nat
                         "config.json" incomplete_run))
           (VStr "r0") (VStr "id")); reflexivity.
Defined.

(** X19.  [SquareClient.__init__] sends at most two OAuth calls, and sends
    each of them to the sandbox exactly when the config's [sandbox] entry is
    the string [true]; with any other value, the boolean true included, or
    with none, they go to production. *)
Theorem init_calls_one_environment :
  forall (S : Type) (oauth : oauth_call -> S -> api_response * S)
         (clock : S -> datetime) (config : ref) (config_path : string)
         (st : store S),
    exists new,
      calls (snd (init oauth clock config config_path st))
      = (calls st ++ new)%list
      /\ (length new <= 2)%nat
      /\ Forall (fun c =>
                   call_environment c = environment_of (deref st config)) new.
Proof.
  intros S oauth clock config path st. unfold init.
  destruct (subscript (deref st config) "refresh_token") as [rt|];
    [|exists []; simpl; rewrite app_nil_r; repeat split; auto; lia].
  destruct (subscript (deref st config) "client_id") as [cid|];
    [|exists []; simpl; rewrite app_nil_r; repeat split; auto; lia].
  destruct (subscript (deref st config) "client_secret") as [cs|];
    [|exists []; simpl; rewrite app_nil_r; repeat split; auto; lia].
  fold (environment_of (deref st config)).
  destruct (TokenFacts.get_access_token_calls oauth clock rt cid cs
              (environment_of (deref st config)) config path st)
    as (new & Hc & Hl & HF).
  destruct (_get_access_token oauth clock rt cid cs
              (environment_of (deref st config)) config path st)
    as [[token|e] st1]; exists new; simpl in *; auto.
Qed.

(** A config that says [sandbox: true] with a JSON boolean is served by
    production. *)
Example boolean_sandbox_goes_to_production :
  calls (snd (init (issuer "2023-07-02T12:00:00Z") noon 0%nat "config.json"
                boolean_sandbox_run))
  = [ObtainToken "production"
       (refresh_request (VStr "r0") (VStr "id") (VStr "secret"))].
Proof. vm_compute. reflexivity. Qed.

(** X20.  The need for a new token never goes away with time: if
    [require_new_access_token] answers true under one clock, it answers true
    under every clock that is not behind it, the platform answering
    alike. *)
Theorem refresh_need_is_monotone_in_time :
  forall (S : Type) (oauth : oauth_call -> S -> api_response * S)
         (clock clock' : S -> datetime) (access_token : value)
         (environment : string) (st : store S),
    (forall s, clock s <= clock' s) ->
    fst (require_new_access_token oauth clock access_token environment st)
    = Ret true ->
    fst (require_new_access_token oauth clock' access_token environment st)
    = Ret true.
Proof.
  intros S oauth clock clock' token env st Hlater.
  unfold require_new_access_token.
  destruct (negb (truthy token)); [auto|].
  destruct (o_auth oauth (RetrieveTokenStatus env token) st) as [r st1].
  destruct (is_error r); [auto|]. simpl.
  destruct (item (body r) "expires_at") as [v|]; simpl; [|auto].
  destruct (expiry_of v) as [expiry|]; simpl; [|auto].
  intros [= H]. f_equal. apply Z.leb_le in H. apply Z.leb_le.
  unfold days, diff in *.
  assert (Hm : (expiry - clock' (platform st1)) / US_PER_DAY
               <= (expiry - clock (platform st1)) / US_PER_DAY).
  { apply Z.div_le_mono; [reflexivity|]. specialize (Hlater (platform st1)). lia. }
  lia.
Qed.

Lemma refresh_need_is_monotone_in_time_witness :
  fst (require_new_access_token (issuer "2023-06-24T12:00:00Z") next_noon
         (VStr "a0") "production" later_run) = Ret true.
Proof.
  apply (refresh_need_is_monotone_in_time unit (issuer "2023-06-24T12:00:00Z")
           noon next_noon (VStr "a0") "production" later_run).
  - intros s. vm_compute. discriminate.
  - reflexivity.
Defined.

(** X21.  A status answer that is not an error but cannot be read does not
    count as a reason to refresh: [require_new_access_token] raises
    [KeyError] when the body has no [expires_at], and [TypeError] when the
    body is not a dict, after the one status query. *)
Theorem unreadable_token_status_raises :
  forall (S : Type) (oauth : oauth_call -> S -> api_response * S)
         (clock : S -> datetime) (access_token : value) (environment : string)
         (st : store S) (response : api_response) (s' : S),
    truthy access_token = true ->
    oauth (RetrieveTokenStatus environment access_token) (platform st)
    = (response, s') ->
    is_error response = false ->
    let st' :=
      {| heap := heap st; files := files st; platform := s';
         calls := calls st ++ [RetrieveTokenStatus environment access_token] |} in
    (forall d, body response = VDict d -> d !! "expires_at" = None ->
               require_new_access_token oauth clock access_token environment st
               = (Raise (KeyError "expires_at"), st'))
    /\ ((forall d, body response <> VDict d) ->
        require_new_access_token oauth clock access_token environment st
        = (Raise TypeError, st')).
Proof.
  intros S oauth clock token env st response s' Ht Ho He st'.
  unfold require_new_access_token, o_auth. rewrite Ht, Ho, He. simpl.
  split.
  - intros d Hb Hd. rewrite Hb. simpl. unfold subscript. rewrite Hd.
    reflexivity.
  - intros Hnd. destruct (body response) as [| | | | |d] eqn:E; try reflexivity.
    exfalso. exact (Hnd d eq_refl).
Qed.

Lemma unreadable_token_status_raises_witness :
  fst (require_new_access_token
         (fun _ _ => (reply_ok {[ "scopes" := VList [] ]}, tt)) noon
         (VStr "a0") "production" later_run)
  = Raise (KeyError "expires_at").
Proof.
  refine (f_equal fst
            (proj1 (unreadable_token_status_raises unit
                      (fun _ _ => (reply_ok {[ "scopes" := VList [] ]}, tt))
                      noon (VStr "a0") "production" later_run
                      (reply_ok {[ "scopes" := VList [] ]}) tt
                      eq_refl eq_refl eq_refl)
               {[ "scopes" := VList [] ]} eq_refl eq_refl)).
Defined.

(** ** The stream extractors *)

Module StreamFacts.

Section Platform.
Context {S : Type}.
Variable server : api_call -> S -> api_response * S.
Variable retries : nat.

(** The first request of a listing whose body was built with the bookmark
    written into it when there is one. *)
Lemma bookmarked_first_call endpoint (body0 : gmap string value) body_key
    (bookmarked_cursor : value) fuel (w : world S) :
  body0 !! "cursor" = None ->
  exists body more,
    sent (snd (_get_v2_objects server retries (BodyCall endpoint)
                 (if truthy bookmarked_cursor
                  then <["cursor" := bookmarked_cursor]> body0 else body0)
                 body_key (Datatypes.S fuel) w))
    = (sent w ++ BodyCall endpoint body :: more)%list
    /\ body !! "cursor"
       = (if truthy bookmarked_cursor then Some bookmarked_cursor else None)
    /\ forall key, key <> "cursor" -> body !! key = body0 !! key.
Proof.
  intros H0. unfold _get_v2_objects.
  set (b := if truthy bookmarked_cursor
            then <["cursor" := bookmarked_cursor]> body0 else body0).
  assert (Ht : truthy (st_cursor (v2_start b)) = true).
  { subst b. unfold v2_start. simpl.
    destruct (truthy bookmarked_cursor) eqn:E.
    - rewrite lookup_insert_eq. exact E.
    - rewrite H0. reflexivity. }
  destruct (TraceFacts.v2_pull_first server retries (BodyCall endpoint)
              body_key fuel (v2_start b) w Ht) as [more Hs].
  exists (carry (st_body (v2_start b)) (st_cursor (v2_start b))), more.
  split; [exact Hs|].
  subst b. unfold v2_start, carry. simpl.
  destruct (truthy bookmarked_cursor) eqn:E.
  - rewrite lookup_insert_eq. simpl.
    destruct (is_str INITIAL bookmarked_cursor).
    + split; [apply lookup_insert_eq|].
      intros k Hk. apply lookup_insert_ne. congruence.
    + rewrite insert_insert_eq. split; [apply lookup_insert_eq|].
      intros k Hk. apply lookup_insert_ne. congruence.
  - rewrite H0. simpl. auto.
Qed.

End Platform.

(** Between pages only the cursor of the body changes. *)
Lemma bodies_frame {S} (server : api_call -> S -> api_response * S) retries
    (request_method : gmap string value -> api_call) body body_key fuel w :
  exists more,
    sent (snd (_get_v2_objects server retries request_method body body_key
                 fuel w)) = (sent w ++ more)%list
    /\ Forall (fun call =>
                 exists b, call = request_method b
                           /\ forall key, key <> "cursor" ->
                                          b !! key = body !! key) more.
Proof.
  unfold _get_v2_objects.
  destruct (TraceFacts.v2_pull_sent server retries request_method body_key
              (fun b => delete "cursor" b = delete "cursor" body)
              ltac:(intros b c Hq; cbv beta; rewrite delete_insert_eq; exact Hq)
              fuel (v2_start body) w eq_refl) as (more & Hs & HF).
  exists more. split; [exact Hs|].
  eapply Forall_impl; [exact HF|].
  intros call (b & -> & Hd). exists b. split; [reflexivity|].
  intros k Hk.
  rewrite <- (lookup_delete_ne b "cursor" k), <- (lookup_delete_ne body "cursor" k)
    by congruence.
  rewrite Hd. reflexivity.
Qed.

End StreamFacts.

(** X22.  [get_inventories], [get_shifts] and [get_loyalty_accounts] open
    their run with a request whose body carries the bookmark as [cursor]
    when the bookmark is not empty, and no [cursor] entry at all when it
    is. *)
Theorem bookmarked_streams_open_at_the_bookmark :
  forall (S : Type) (server : api_call -> S -> api_response * S)
         (retries : nat) (start_time : string) (bookmarked_cursor : value)
         (fuel : nat) (w : world S),
    let opening :=
      if truthy bookmarked_cursor then Some bookmarked_cursor else None in
    (exists body more,
        sent (snd (get_inventories server retries start_time
                     bookmarked_cursor (Datatypes.S fuel) w))
        = (sent w
           ++ BodyCall "inventory.batch_retrieve_inventory_counts" body
           :: more)%list
        /\ body !! "cursor" = opening
        /\ body !! "updated_after" = Some (VStr start_time))
    /\ (exists body more,
          sent (snd (get_shifts server retries bookmarked_cursor
                       (Datatypes.S fuel) w))
          = (sent w ++ BodyCall "labor.search_shifts" body :: more)%list
          /\ body !! "cursor" = opening)
    /\ (exists body more,
          sent (snd (get_loyalty_accounts server retries bookmarked_cursor
                       (Datatypes.S fuel) w))
          = (sent w ++ BodyCall "loyalty.search_loyalty_accounts" body
             :: more)%list
          /\ body !! "cursor" = opening
          /\ body !! "limit" = Some (VInt 200)).
Proof.
  intros S server retries start_time bc fuel w opening. split; [|split].
  - destruct (StreamFacts.bookmarked_first_call server retries
                "inventory.batch_retrieve_inventory_counts"
                {[ "updated_after" := VStr start_time ]} "counts" bc fuel w
                ltac:(apply lookup_singleton_ne; discriminate))
      as (body & more & Hs & Hc & Hk).
    exists body, more. split; [exact Hs|]. split; [exact Hc|].
    rewrite Hk by discriminate. apply lookup_singleton_eq.
  - destruct (StreamFacts.bookmarked_first_call server retries
                "labor.search_shifts"
                {[ "query" :=
                     VDict {[ "sort" :=
                                VDict {[ "field" := VStr "UPDATED_AT";
                                         "order" := VStr "ASC" ]} ]} ]}
                "shifts" bc fuel w
                ltac:(apply lookup_singleton_ne; discriminate))
      as (body & more & Hs & Hc & _).
    exists body, more. auto.
  - destruct (StreamFacts.bookmarked_first_call server retries
                "loyalty.search_loyalty_accounts" {[ "limit" := VInt 200 ]}
                "loyalty_accounts" bc fuel w
                ltac:(apply lookup_singleton_ne; discriminate))
      as (body & more & Hs & Hc & Hk).
    exists body, more. split; [exact Hs|]. split; [exact Hc|].
    rewrite Hk by discriminate. apply lookup_singleton_eq.
Qed.

(** X23.  [get_customers], [get_orders] and [get_team_members] send their
    search filter unchanged with every request of a run: the time window
    and the location ids are the values the caller passed, and only the
    cursor varies from page to page. *)
Theorem search_filters_stay_fixed :
  forall (S : Type) (server : api_call -> S -> api_response * S)
         (retries : nat) (start_time end_time location_ids : value)
         (fuel : nat) (w : world S),
    (exists more,
        sent (snd (get_customers server retries start_time end_time fuel w))
        = (sent w ++ more)%list
        /\ Forall (fun call =>
                     call_endpoint call = "customers.search_customers"
                     /\ call_body call !! "query"
                        = Some (customers_query start_time end_time)) more)
    /\ (exists more,
          sent (snd (get_orders server retries location_ids start_time fuel w))
          = (sent w ++ more)%list
          /\ Forall (fun call =>
                       call_endpoint call = "orders.search_orders"
                       /\ call_body call !! "query"
                          = Some (orders_query start_time)
                       /\ call_body call !! "location_ids"
                          = Some location_ids) more)
    /\ (exists more,
          sent (snd (get_team_members server retries location_ids fuel w))
          = (sent w ++ more)%list
          /\ Forall (fun call =>
                       call_endpoint call = "team.search_team_members"
                       /\ call_body call !! "query"
                          = Some (team_members_query location_ids)
                       /\ call_body call !! "limit" = Some (VInt 200)) more).
Proof.
  intros S server retries start_time end_time location_ids fuel w.
  split; [|split].
  - unfold get_customers.
    match goal with
    | |- context [_get_v2_objects _ _ ?rm ?b ?k _ _] =>
        destruct (StreamFacts.bodies_frame server retries rm b k fuel w)
          as (more & Hs & HF)
    end.
    exists more. split; [exact Hs|].
    eapply Forall_impl; [exact HF|].
    intros call (b & -> & Hk). simpl. split; [reflexivity|].
    rewrite Hk by discriminate. reflexivity.
  - unfold get_orders.
    match goal with
    | |- context [_get_v2_objects _ _ ?rm ?b ?k _ _] =>
        destruct (StreamFacts.bodies_frame server retries rm b k fuel w)
          as (more & Hs & HF)
    end.
    exists more. split; [exact Hs|].
    eapply Forall_impl; [exact HF|].
    intros call (b & -> & Hk). simpl. split; [reflexivity|].
    rewrite !Hk by discriminate. split; reflexivity.
  - unfold get_team_members.
    match goal with
    | |- context [_get_v2_objects _ _ ?rm ?b ?k _ _] =>
        destruct (StreamFacts.bodies_frame server retries rm b k fuel w)
          as (more & Hs & HF)
    end.
    exists more. split; [exact Hs|].
    eapply Forall_impl; [exact HF|].
    intros call (b & -> & Hk). simpl. split; [reflexivity|].
    rewrite !Hk by discriminate. split; reflexivity.
Qed.

(** X24.  [get_locations], [get_bank_accounts], [get_customers],
    [get_orders] and [get_team_members] take no bookmark: every run opens
    with a request whose body has no [cursor] entry, so it starts from the
    first page. *)
Theorem unbookmarked_streams_open_without_cursor :
  forall (S : Type) (server : api_call -> S -> api_response * S)
         (retries : nat) (start_time end_time location_ids : value)
         (fuel : nat) (w : world S),
    (exists more,
        sent (snd (get_locations server retries (Datatypes.S fuel) w))
        = (sent w ++ BodyCall "locations.list_locations" ∅ :: more)%list)
    /\ (exists more,
          sent (snd (get_bank_accounts server retries (Datatypes.S fuel) w))
          = (sent w ++ BodyCall "bank_accounts.list_bank_accounts" ∅
             :: more)%list)
    /\ (exists body more,
          sent (snd (get_customers server retries start_time end_time
                       (Datatypes.S fuel) w))
          = (sent w ++ BodyCall "customers.search_customers" body :: more)%list
          /\ body !! "cursor" = None)
    /\ (exists body more,
          sent (snd (get_orders server retries location_ids start_time
                       (Datatypes.S fuel) w))
          = (sent w ++ BodyCall "orders.search_orders" body :: more)%list
          /\ body !! "cursor" = None)
    /\ (exists body more,
          sent (snd (get_team_members server retries location_ids
                       (Datatypes.S fuel) w))
          = (sent w ++ BodyCall "team.search_team_members" body :: more)%list
          /\ body !! "cursor" = None).
Proof.
  intros S server retries start_time end_time location_ids fuel w.
  assert (Hopen : forall endpoint (body0 : gmap string value) body_key,
             body0 !! "cursor" = None ->
             exists more,
               sent (snd (_get_v2_objects server retries (BodyCall endpoint)
                            body0 body_key (Datatypes.S fuel) w))
               = (sent w ++ BodyCall endpoint body0 :: more)%list).
  { intros endpoint body0 key H0. unfold _get_v2_objects.
    assert (Ht : truthy (st_cursor (v2_start body0)) = true)
      by (unfold v2_start; simpl; rewrite H0; reflexivity).
    destruct (TraceFacts.v2_pull_first server retries (BodyCall endpoint) key
                fuel (v2_start body0) w Ht) as [more Hs].
    exists more. rewrite Hs. unfold v2_start, carry. simpl. rewrite H0.
    reflexivity. }
  split; [apply Hopen; apply lookup_empty|].
  split; [apply Hopen; apply lookup_empty|].
  split; [|split].
  - unfold get_customers.
    match goal with
    | |- context [_get_v2_objects _ _ _ ?b ?k _ _] =>
        assert (H0 : b !! "cursor" = None)
          by (apply lookup_singleton_ne; discriminate);
        destruct (Hopen "customers.search_customers" b k H0) as [more Hs];
        exists b, more; auto
    end.
  - unfold get_orders.
    match goal with
    | |- context [_get_v2_objects _ _ _ ?b ?k _ _] =>
        assert (H0 : b !! "cursor" = None)
          by (rewrite lookup_insert_ne by discriminate;
              apply lookup_singleton_ne; discriminate);
        destruct (Hopen "orders.search_orders" b k H0) as [more Hs];
        exists b, more; auto
    end.
  - unfold get_team_members.
    match goal with
    | |- context [_get_v2_objects _ _ _ ?b ?k _ _] =>
        assert (H0 : b !! "cursor" = None)
          by (rewrite lookup_insert_ne by discriminate;
              apply lookup_singleton_ne; discriminate);
        destruct (Hopen "team.search_team_members" b k H0) as [more Hs];
        exists b, more; auto
    end.
Qed.

(** X25.  A [link] header that holds nothing but spaces and quotes is not
    empty, so it is not taken as the end of the pages:
    [parse_header_links] finds no link in it and the subscript [[0]] raises
    [IndexError]. *)
Theorem blank_link_header_raises :
  forall (headers : gmap string string) (link : string),
    headers !! "link" = Some link ->
    link <> EmptyString ->
    strip replace_chars link = EmptyString ->
    get_batch_token_from_headers headers = Raise IndexError.
Proof.
  intros headers link Hl Hne Hs. unfold get_batch_token_from_headers.
  rewrite Hl.
  replace (negb (String.eqb link EmptyString)) with true
    by (symmetry; apply negb_true_iff, String.eqb_neq, Hne).
  unfold first_header_link. rewrite Hs. reflexivity.
Qed.

Lemma blank_link_header_raises_witness :
  get_batch_token_from_headers {[ "link" := " ' " ]} = Raise IndexError.
Proof.
  apply (blank_link_header_raises {[ "link" := " ' " ]} " ' ").
  - reflexivity.
  - discriminate.
  - vm_compute. reflexivity.
Defined.
